(** * PowerPointServer: the conversion pipeline and catalog of [server.js]

    A shallow embedding of the Express handlers of [src/server.js]
    (POST /convert, GET and DELETE /presentation/:id), of the persistence
    helpers [saveToDatabase] and [verifyDatabaseSave], and of the placeholder
    generators, followed by the properties the specification states about
    them.

    Conventions of the embedding.
    - The process-wide objects [presentations], [presentationsByTopic] and
      [userPresentationHistory] are plain objects: a finite map holds their
      own properties, and a key that is not an own property but names a
      property of [Object.prototype] reads as that inherited function or
      object ([JS.get]). The MongoDB collection behind the [Presentation]
      model is the list of its documents in insertion order, so that a
      duplicate insert would be visible; the disk is a finite map from
      paths to file contents.
    - The ids of documents are the values of [uuidv4()] of line 381, the
      only ids [saveToDatabase] is ever called with; none of them names a
      property of [Object.prototype]. Ids, user ids and topics that arrive
      in a URL or a request body are arbitrary strings.
    - Everything the handlers obtain from outside the process (uuids, the
      clock, exit status of child processes, directory listings, failures of
      file-system and database calls) is an explicit input, so that every
      theorem quantifies over all behaviours of the environment.
      An environment records a run in which every external command and
      database call has returned or failed; a call that never returns has
      no environment.
    - A JavaScript exception is [Throw msg], or [Some msg] beside the state
      the throwing code left; [try]/[catch] is a [match]. An exception that
      leaves a synchronous handler reaches the error-handling middleware;
      one that leaves an [async] handler rejects a promise nobody observes,
      and no response is sent ([unanswered]). The callbacks and awaits of
      one request run in program order; requests are not interleaved.
    - A [string] holds the UTF-8 form of the JavaScript string it stands
      for, which is how the literals of this file are read. The bytes of
      the characters the handlers look for (the dot, the slash, the
      letters of the extensions) occur in no longer sequence, so
      [extname], [endsWith] and the comparisons are exact; the domain of
      [toLowerCase] is described at its definition.
    - Numbers are natural numbers; file sizes, in bytes, are binary ones. *)

From Stdlib Require Import Ascii.
From stdpp Require Import gmap strings list fin_maps pretty.

Set Default Proof Using "Type".

(** ** Exceptions *)

Inductive Result (A : Type) : Type :=
  | Ok (a : A)
  | Throw (msg : string).
Arguments Ok {A} a.
Arguments Throw {A} msg.

(** A call into the outside world that returns nothing: [None] when it
    returns normally, [Some msg] when it throws (or, for a callback API,
    passes an error). *)
Definition Fault := option string.

(** ** JavaScript and Node library functions used by the handlers *)

Module JS.

Definition chars (s : string) : list ascii := String.list_ascii_of_string s.
Definition str (l : list ascii) : string := String.string_of_list_ascii l.

(** The lower-case mapping on Basic Latin: A to Z move up by 32. *)
Definition lowerChar (c : ascii) : ascii :=
  let n := Ascii.nat_of_ascii c in
  if (65 <=? n) && (n <=? 90) then Ascii.ascii_of_nat (n + 32) else c.

(** The second byte of a capital letter of the Latin-1 Supplement, U+00C0
    to U+00DE without the multiplication sign U+00D7; the first byte of
    these letters is 0xC3, and their small letter has the same first byte
    and the second byte moved up by 32. *)
Definition isLatin1Capital (c : ascii) : bool :=
  let n := Ascii.nat_of_ascii c in
  (128 <=? n) && (n <=? 158) && negb (n =? 151).

(** What [toLowerCase] writes for the characters outside Basic Latin and
    the Latin-1 Supplement whose small form has a character inside these
    blocks, by the bytes that follow the first one: U+0130 (C4 B0, small
    form i and U+0307), U+0178 (C5 B8, U+00FF), U+1E9E (E1 BA 9E, U+00DF),
    the Kelvin sign U+212A (E2 84 AA, k) and the Angstrom sign U+212B
    (E2 84 AB, U+00E5). *)
Definition lowerTwoBytes (c c1 : ascii) : option string :=
  if Ascii.eqb c "196" && Ascii.eqb c1 "176"
  then Some (String "i" (String "204" (String "135" EmptyString)))
  else if Ascii.eqb c "197" && Ascii.eqb c1 "184"
  then Some (String "195" (String "191" EmptyString))
  else None.

Definition lowerThreeBytes (c c1 c2 : ascii) : option string :=
  if Ascii.eqb c "225" && Ascii.eqb c1 "186" && Ascii.eqb c2 "158"
  then Some (String "195" (String "159" EmptyString))
  else if Ascii.eqb c "226" && Ascii.eqb c1 "132" && Ascii.eqb c2 "170"
  then Some (String "k" EmptyString)
  else if Ascii.eqb c "226" && Ascii.eqb c1 "132" && Ascii.eqb c2 "171"
  then Some (String "195" (String "165" EmptyString))
  else None.

(** [String.prototype.toLowerCase], on the UTF-8 form. It is exact on the
    strings whose characters are of Basic Latin or the Latin-1 Supplement,
    are one of the five characters above, or have no small form of their
    own, which are kept; strings with capital letters of other blocks are
    outside the model. The Kelvin sign is the only character outside Basic
    Latin whose small form is a letter of [ppt], [pptx] or [key]. *)
Fixpoint toLowerCase (s : string) : string :=
  match s with
  | EmptyString => EmptyString
  | String c s1 =>
      match s1 with
      | EmptyString => String (lowerChar c) EmptyString
      | String c1 s2 =>
          if Ascii.eqb c "195" && isLatin1Capital c1 then
            String c (String (Ascii.ascii_of_nat (Ascii.nat_of_ascii c1 + 32))
                             (toLowerCase s2))
          else
            match lowerTwoBytes c c1 with
            | Some small => small +:+ toLowerCase s2
            | None =>
                match s2 with
                | EmptyString => String (lowerChar c) (toLowerCase s1)
                | String c2 s3 =>
                    match lowerThreeBytes c c1 c2 with
                    | Some small => small +:+ toLowerCase s3
                    | None => String (lowerChar c) (toLowerCase s1)
                    end
                end
            end
      end
  end.

(** [String.prototype.endsWith]. *)
Definition endsWith (s suffix : string) : bool :=
  let n := String.length s in
  let m := String.length suffix in
  (m <=? n) && String.eqb (String.substring (n - m) m s) suffix.

(** [a || b] on a possibly undefined string: the empty string is falsy. *)
Definition orElse (a : option string) (b : string) : string :=
  match a with
  | Some s => if String.eqb s "" then b else s
  | None => b
  end.

Definition isDot (c : ascii) : bool := Ascii.eqb c "."%char.
Definition isSlash (c : ascii) : bool := Ascii.eqb c "/"%char.

Fixpoint dropWhile {A} (p : A → bool) (l : list A) : list A :=
  match l with
  | [] => []
  | x :: l' => if p x then dropWhile p l' else l
  end.

Fixpoint takeWhile {A} (p : A → bool) (l : list A) : list A :=
  match l with
  | [] => []
  | x :: l' => if p x then x :: takeWhile p l' else []
  end.

(** [path.extname] (POSIX). The scan runs from the end of the path, as in
    Node: trailing separators are skipped, the last path component is
    isolated, and the extension starts at its last dot, unless nothing
    precedes that dot or the component is exactly "..". *)
Definition extname (p : string) : string :=
  let r := dropWhile isSlash (rev (chars p)) in
  let component := takeWhile (λ c, negb (isSlash c)) r in
  let ext := takeWhile (λ c, negb (isDot c)) component in
  match dropWhile (λ c, negb (isDot c)) component with
  | [] => ""                                 (* no dot *)
  | _dot :: before =>
      match before with
      | [] => ""                             (* leading dot *)
      | _ =>
          if forallb isDot before && (length before =? 1) && (length ext =? 0)
          then ""                            (* ".." *)
          else str (rev (ext ++ ["."%char]))
      end
  end.

(** [s.replace(/\.[^/.]+$/, "")]: a final dot followed by at least one
    character, none of them a dot or a slash, is cut off. *)
Definition stripExtension (s : string) : string :=
  let r := rev (chars s) in
  let tail := takeWhile (λ c, negb (isDot c || isSlash c)) r in
  match tail, dropWhile (λ c, negb (isDot c || isSlash c)) r with
  | _ :: _, c :: before => if isDot c then str (rev before) else s
  | _, _ => s
  end.

(** Template-literal interpolation of a number. *)
Definition num (n : nat) : string := pretty n.

(** *** Plain objects used as maps *)

(** The properties of [Object.prototype], which every object literal
    inherits, with the [length] of the function behind each; behind
    [__proto__] is the prototype object itself, which has no [length]. *)
Definition objectPrototype : list (string * nat) :=
  [("constructor", 1); ("__defineGetter__", 2); ("__defineSetter__", 2);
   ("hasOwnProperty", 1); ("__lookupGetter__", 1); ("__lookupSetter__", 1);
   ("isPrototypeOf", 1); ("propertyIsEnumerable", 1); ("toString", 0);
   ("valueOf", 0); ("__proto__", 0); ("toLocaleString", 0)].

Definition inherited (key : string) : bool :=
  existsb (λ entry, String.eqb key entry.1) objectPrototype.

(** [Object.prototype[key].length > 0], for an inherited key. *)
Definition inheritedLengthPositive (key : string) : bool :=
  existsb (λ entry, String.eqb key entry.1 && (0 <? entry.2)) objectPrototype.

(** What [object[key]] evaluates to. *)
Inductive Property (V : Type) : Type :=
  | Own (v : V)        (* an own property: what a handler stored *)
  | Inherited          (* a function or object of [Object.prototype]: truthy,
                          and without the methods of an array *)
  | Undefined.
Arguments Own {V} v.
Arguments Inherited {V}.
Arguments Undefined {V}.

Definition get {V : Type} (object : gmap string V) (key : string) : Property V :=
  match object !! key with
  | Some v => Own v
  | None => if inherited key then Inherited else Undefined
  end.

(** The message of the TypeError for calling an undefined method. *)
Definition notAFunction (callee : string) : string :=
  callee +:+ " is not a function".

(** [Array.prototype.forEach] with a callback that may throw. The state is
    shared and mutable, so what the callbacks before the throw did stays
    done: a step returns the state it left and the error it threw, if
    any. *)
Fixpoint forEach {S X : Type} (step : S → X → S * Fault) (s : S) (l : list X)
    : S * Fault :=
  match l with
  | [] => (s, None)
  | x :: l' =>
      match step s x with
      | (s', None) => forEach step s' l'
      | (s', Some msg) => (s', Some msg)
      end
  end.

End JS.

(** ** The catalog record (the Mongoose schema, lines 19-34) *)

Record Presentation : Type := mkPresentation {
  id : string;
  originalName : string;
  title : string;
  summary : string;
  author : string;
  authorId : string;
  topics : list string;
  slideCount : nat;
  slides : list string;
  slideTexts : list string;
  converted : nat;
  isPlaceholder : bool;
  viewCount : nat;
  isDeleted : bool
}.

Global Instance Presentation_eq_dec : EqDecision Presentation.
Proof. solve_decision. Defined.

(** ** The MongoDB collection *)

Module Mongo.

(** Documents in insertion order. The unique index on [id] is enforced by
    [insert]; [_id] and [__v] are not represented. *)
Definition Collection := list Presentation.

Definition hasId (pid : string) (d : Presentation) : bool :=
  String.eqb (id d) pid.

Definition liveWithId (pid : string) (d : Presentation) : bool :=
  String.eqb (id d) pid && negb (isDeleted d).

(** [Model.findOne(filter)]: the first matching document. *)
Definition findOne (fault : Fault) (filter : Presentation → bool)
    (c : Collection) : Result (option Presentation) :=
  match fault with
  | Some msg => Throw msg
  | None => Ok (List.find filter c)
  end.

(** The first document matching [filter] is replaced by its image under
    [upd]; the result is the updated document and the new collection. *)
Fixpoint updateFirst (filter : Presentation → bool)
    (upd : Presentation → Presentation) (c : Collection)
    : option (Presentation * Collection) :=
  match c with
  | [] => None
  | d :: c' =>
      if filter d then Some (upd d, upd d :: c')
      else match updateFirst filter upd c' with
           | Some (d', c'') => Some (d', d :: c'')
           | None => None
           end
  end.

(** [Model.findOneAndUpdate(filter, update, { new: true })] without upsert:
    [null] and no change when nothing matches. *)
Definition findOneAndUpdate (fault : Fault) (filter : Presentation → bool)
    (upd : Presentation → Presentation) (c : Collection)
    : Result (option Presentation * Collection) :=
  match fault with
  | Some msg => Throw msg
  | None =>
      match updateFirst filter upd c with
      | Some (d, c') => Ok (Some d, c')
      | None => Ok (None, c)
      end
  end.

(** The [required: true] paths of the schema; Mongoose rejects an empty
    string for a required String path. *)
Definition validate (d : Presentation) : bool :=
  negb (String.eqb (id d) "") && negb (String.eqb (originalName d) "")
  && negb (String.eqb (title d) "").

(** [new Presentation(data).save()]: validation, then an insert that the
    unique index on [id] may refuse. *)
Definition insert (fault : Fault) (d : Presentation) (c : Collection)
    : Result (Presentation * Collection) :=
  match fault with
  | Some msg => Throw msg
  | None =>
      if negb (validate d) then Throw "Presentation validation failed"
      else if existsb (hasId (id d)) c then Throw "E11000 duplicate key error"
      else Ok (d, c ++ [d])
  end.

(** Number of documents carrying a given id. *)
Definition countId (pid : string) (c : Collection) : nat :=
  length (List.filter (hasId pid) c).

(** The uniqueness constraint of the schema ([unique: true] on [id]). *)
Definition uniqueIds (c : Collection) : Prop := NoDup (id <$> c).

End Mongo.

(** ** Persistence helpers *)

(** Outcome of the two database calls of [saveToDatabase] (the lookup, then
    the update or the insert) and of the lookup of [verifyDatabaseSave]. *)
Record DbFaults : Type := mkDbFaults {
  saveFind : Fault;
  saveWrite : Fault;
  verifyFind : Fault
}.

Definition noDbFaults : DbFaults :=
  {| saveFind := None; saveWrite := None; verifyFind := None |}.

(** [saveToDatabase] (lines 87-126). The caller passes every field of the
    schema, so the update sets the whole document. The [catch] re-throws. *)
Definition saveToDatabase (f : DbFaults) (presentationData : Presentation)
    (c : Mongo.Collection) : Result (Presentation * Mongo.Collection) :=
  match Mongo.findOne (saveFind f) (Mongo.hasId (id presentationData)) c with
  | Throw msg => Throw msg
  | Ok (Some _existingPresentation) =>
      match Mongo.findOneAndUpdate (saveWrite f)
              (Mongo.hasId (id presentationData)) (λ _, presentationData) c with
      | Throw msg => Throw msg
      | Ok (Some updatedPresentation, c') => Ok (updatedPresentation, c')
      | Ok (None, _) => Throw "Cannot read properties of null"
      end
  | Ok None => Mongo.insert (saveWrite f) presentationData c
  end.

(** [verifyDatabaseSave] (lines 129-143): never throws. *)
Definition verifyDatabaseSave (f : DbFaults) (presentationId : string)
    (c : Mongo.Collection) : bool :=
  match Mongo.findOne (verifyFind f) (Mongo.hasId presentationId) c with
  | Ok (Some _) => true
  | Ok None => false
  | Throw _ => false
  end.

(** ** The server state *)

(** What a file on disk holds: an image produced by the renderer, or the text
    a placeholder generator wrote under a [.jpg] name. *)
Inductive FileContent : Type :=
  | Image
  | Text (s : string).

Global Instance FileContent_eq_dec : EqDecision FileContent.
Proof. solve_decision. Defined.

(** The three module-level objects of lines 78-84, the collection, and the
    part of the disk below [public/]. *)
Record Server : Type := mkServer {
  db : Mongo.Collection;
  presentations : gmap string Presentation;
  presentationsByTopic : gmap string (list string);
  userPresentationHistory : gmap string (list string);
  files : gmap string FileContent
}.

Definition setDb (c : Mongo.Collection) (w : Server) : Server :=
  mkServer c (presentations w) (presentationsByTopic w)
           (userPresentationHistory w) (files w).

Definition setFiles (fs : gmap string FileContent) (w : Server) : Server :=
  mkServer (db w) (presentations w) (presentationsByTopic w)
           (userPresentationHistory w) fs.

Definition setCache (ps : gmap string Presentation)
    (byTopic : gmap string (list string)) (w : Server) : Server :=
  mkServer (db w) ps byTopic (userPresentationHistory w) (files w).

Definition setHistory (h : gmap string (list string)) (w : Server) : Server :=
  mkServer (db w) (presentations w) (presentationsByTopic w) h (files w).

(** ** Responses *)

(** The JSON bodies the modelled handlers send. *)
Inductive Body : Type :=
  | ErrorBody (error : string)
      (* { error } *)
  | ConvertBody (id originalName title : string) (slideCount : nat)
      (slides slideTexts : list string) (status message : option string)
      (topics : list string)
      (* { id, originalName, title, slideCount, slides, slideTexts,
           status?, message?, topics } *)
  | DatabaseErrorBody (error details id status : string)
      (* { error, details, id, status } *)
  | PresentationBody (p : Presentation)
      (* the record itself *)
  | SuccessBody (message : string)
      (* { success: true, message } *)
  | InheritedBody (key : string)
      (* res.json(Object.prototype[key]) *)
  | NoBody (error : string).
      (* nothing was sent; the error the handler's promise rejected with *)

Record Response : Type := mkResponse {
  statusCode : nat;
  body : Body
}.

(** [res.json(b)] and [res.status(n).json(b)]. *)
Definition json (b : Body) : Response := mkResponse 200 b.
Definition statusJson (n : nat) (b : Body) : Response := mkResponse n b.

(** The error-handling middleware (lines 1501-1504). *)
Definition errorHandler (message : string) : Response :=
  statusJson 500 (ErrorBody (JS.orElse (Some message) "Something went wrong!")).

(** An [async] handler threw outside every [try]: Express does not observe
    the rejected promise and the request gets no response. The status 0,
    which no handler sends, stands for that; the state beside it is what
    the handler had written when it threw, which is what later requests
    find as long as the runtime keeps the process alive after the
    unhandled rejection. *)
Definition unanswered (error : string) : Response := mkResponse 0 (NoBody error).

(** ** Paths and URLs *)

Definition nl : string := String (Ascii.ascii_of_nat 10) "".

(** [path.join(__dirname, 'public', 'slides', presentationId)], relative to
    [__dirname]. *)
Definition outputDir (presentationId : string) : string :=
  "public" +:+ "/slides/" +:+ presentationId.

Definition join (dir name : string) : string := dir +:+ "/" +:+ name.

Definition slideFileName (n : nat) : string := "slide-" +:+ JS.num n +:+ ".jpg".

(** [`/slides/${presentationId}/${name}`]. *)
Definition fileUrl (presentationId name : string) : string :=
  "/slides/" +:+ presentationId +:+ "/" +:+ name.

(** [`/slides/${presentationId}/slide-${n}.jpg`]. *)
Definition slideUrl (presentationId : string) (n : nat) : string :=
  fileUrl presentationId (slideFileName n).

(** The file [express.static] serves for a URL below [/slides] (line 255). *)
Definition servedFile (url : string) : string := "public" +:+ url.

(** ** Placeholder generators (lines 193-223) *)

(** [fs.writeFileSync(path, text)] under an oracle telling which writes
    throw. *)
Definition writeFileSync (writeFault : string → Fault) (path text : string)
    (fs : gmap string FileContent) : Result (gmap string FileContent) :=
  match writeFault path with
  | Some msg => Throw msg
  | None => Ok (<[path := Text text]> fs)
  end.

Definition placeholderText (slideNumber : nat) (title : string) : string :=
  "Placeholder for slide " +:+ JS.num slideNumber +:+ nl +:+ "Title: " +:+ title
  +:+ nl +:+ nl +:+ "LibreOffice is not installed on the server," +:+ nl
  +:+ "so actual slide conversion is not available.".

Definition createPlaceholderImage (writeFault : string → Fault)
    (outputPath : string) (slideNumber : nat) (title : string)
    (fs : gmap string FileContent) : bool * gmap string FileContent :=
  match writeFileSync writeFault outputPath (placeholderText slideNumber title) fs with
  | Ok fs' => (true, fs')
  | Throw _ => (false, fs)
  end.

Definition distinctPlaceholderText (slideNumber : nat) (title : string) : string :=
  if slideNumber mod 2 =? 0 then
    "SLIDE " +:+ JS.num slideNumber +:+ " - EVEN NUMBER" +:+ nl +:+ nl
    +:+ "This is an even-numbered slide placeholder." +:+ nl +:+ "Title: "
    +:+ title +:+ nl +:+ nl +:+ "Slide content would appear here."
  else
    "SLIDE " +:+ JS.num slideNumber +:+ " - ODD NUMBER" +:+ nl +:+ nl
    +:+ "This is an odd-numbered slide placeholder." +:+ nl +:+ "Title: "
    +:+ title +:+ nl +:+ nl +:+ "Different slide content would appear here.".

Definition createDistinctPlaceholder (writeFault : string → Fault)
    (outputPath : string) (slideNumber : nat) (title : string)
    (fs : gmap string FileContent) : bool * gmap string FileContent :=
  match writeFileSync writeFault outputPath
          (distinctPlaceholderText slideNumber title) fs with
  | Ok fs' => (true, fs')
  | Throw _ => (false, fs)
  end.

(** ** The upload middleware (lines 59-75) *)

Module Multer.

(** [req.file] as far as the handlers read it. *)
Record File : Type := mkFile {
  originalname : string;
  size : N                    (* bytes *)
}.

Definition allowedExtensions : list string := [".ppt"; ".pptx"; ".key"].

(** [fileFilter]: [true] for [cb(null, true)], [false] for [cb(new Error)]. *)
Definition fileFilter (file : File) : bool :=
  let ext := JS.toLowerCase (JS.extname (originalname file)) in
  existsb (String.eqb ext) allowedExtensions.

Definition fileSizeLimit : N := 50 * 1024 * 1024.

(** [upload.single('presentation')]: without a file part the handler runs
    with [req.file] undefined; a file the filter refuses, or one longer
    than the limit, makes multer call [next(err)], which Express routes to
    the error-handling middleware. *)
Definition single (part : option File) : Result (option File) :=
  match part with
  | None => Ok None
  | Some file =>
      if negb (fileFilter file) then
        Throw "Only PowerPoint files (.ppt, .pptx) and Keynote files (.key) are allowed"
      else if (fileSizeLimit <? size file)%N then Throw "File too large"
      else Ok (Some file)
  end.

End Multer.

(** ** POST /convert (lines 372-922) *)

(** [req.body.topics]: absent, one field, or a repeated field. *)
Inductive BodyTopics : Type :=
  | TopicsAbsent
  | TopicsString (s : string)
  | TopicsArray (l : list string).

Record ConvertRequest : Type := mkConvertRequest {
  file : option Multer.File;
  bodyTitle : option string;
  bodySummary : option string;
  bodyAuthor : option string;
  bodyAuthorId : option string;
  bodyTopics : BodyTopics
}.

(** What one iteration of the per-page loop meets. *)
Inductive PageOutcome : Type :=
  | PageImage (pdftotext : Result string)
      (* pdftoppm returned, the temp file exists and was copied; the trimmed
         output of pdftotext, or its failure *)
  | PageNoFile
      (* pdftoppm returned but the temp file does not exist *)
  | PageThrows (msg : string).
      (* pdftoppm (or the copy) threw *)

(** Everything a /convert request obtains from outside the process. *)
Record ConvertEnv : Type := mkConvertEnv {
  uuidPresentation : string;              (* uuidv4() for presentationId *)
  uuidAuthor : string;                    (* uuidv4() for a missing authorId *)
  now : nat;                              (* new Date() *)
  mkdirOutput : Fault;                    (* fs.mkdirSync(outputDir) (line 409) *)
  whichFirst : Result string;             (* which libreoffice || echo "not found" *)
  aptInstall : Fault;                     (* apt-get install (line 421) *)
  whichSecond : Result string;            (* the re-check (line 425) *)
  writeFault : string → Fault;            (* fs.writeFileSync, per path *)
  pdfConvert : Fault;                     (* exec(pdfCmd) *)
  readdirPdf : Result (list string);      (* fs.readdir (line 532) *)
  pdfinfo : Result (option nat);          (* pdfinfo output matched by /Pages:\s+(\d+)/ *)
  mkdirTemp : Fault;                      (* fs.mkdirSync(tempDir) *)
  page : nat → PageOutcome;               (* per page number *)
  jpgConvert : Fault;                     (* exec(cmd) of the fallback *)
  readdirJpg : Result (list string);      (* fs.readdir (line 722) *)
  renameFault : string → Fault;           (* fs.renameSync, per old name *)
  dbFaults : DbFaults
}.

(** [checkLibreOfficeInstallation] (lines 176-190), on the trimmed output of
    the [which] command. *)
Definition checkLibreOfficeInstallation (which : Result string) : bool :=
  match which with
  | Ok result => negb (String.eqb result "not found")
  | Throw _ => false
  end.

(** [req.body.topics ? (Array.isArray(...) ? ... : [...]) : []]. *)
Definition requestTopics (t : BodyTopics) : list string :=
  match t with
  | TopicsAbsent => []
  | TopicsString s => if String.eqb s "" then [] else [s]
  | TopicsArray l => l
  end.

(** The [presentation] object of lines 394-405; the four slide fields are
    assigned later, by [setSlideData]. *)
Definition newPresentation (e : ConvertEnv) (req : ConvertRequest)
    (file : Multer.File) : Presentation :=
  {| id := uuidPresentation e;
     originalName := Multer.originalname file;
     title := JS.orElse (bodyTitle req) (JS.stripExtension (Multer.originalname file));
     summary := JS.orElse (bodySummary req) "";
     author := JS.orElse (bodyAuthor req) "Anonymous";
     authorId := JS.orElse (bodyAuthorId req) (uuidAuthor e);
     topics := requestTopics (bodyTopics req);
     slideCount := 0; slides := []; slideTexts := [];
     converted := now e;
     isPlaceholder := false;
     viewCount := 0;
     isDeleted := false |}.

(** [presentation.slides = ...; presentation.slideCount = ...;
    presentation.slideTexts = ...; presentation.isPlaceholder = ...]. *)
Definition setSlideData (p : Presentation) (urls : list string) (count : nat)
    (texts : list string) (placeholder : bool) : Presentation :=
  {| id := id p; originalName := originalName p; title := title p;
     summary := summary p; author := author p; authorId := authorId p;
     topics := topics p;
     slideCount := count; slides := urls; slideTexts := texts;
     converted := converted p;
     isPlaceholder := placeholder;
     viewCount := viewCount p; isDeleted := isDeleted p |}.

(** [topic = topic.toLowerCase();
     if (!presentationsByTopic[topic]) presentationsByTopic[topic] = [];
     presentationsByTopic[topic].push(presentationId)]: under a key the
    object inherits, the test finds a truthy value and [push] is not a
    function. *)
Definition pushTopic (presentationId : string)
    (byTopic : gmap string (list string)) (topic : string)
    : gmap string (list string) * Fault :=
  let topic := JS.toLowerCase topic in
  match JS.get byTopic topic with
  | JS.Undefined => (<[topic := [presentationId]]> byTopic, None)
  | JS.Own ids => (<[topic := ids ++ [presentationId]]> byTopic, None)
  | JS.Inherited =>
      (byTopic, Some (JS.notAFunction "presentationsByTopic[topic].push"))
  end.

(** [topics.forEach(topic => { ... })]. *)
Definition indexTopics (presentationId : string) (topics : list string)
    (byTopic : gmap string (list string))
    : gmap string (list string) * Fault :=
  JS.forEach (pushTopic presentationId) byTopic topics.

Definition databaseError (details presentationId : string) : Response :=
  statusJson 500 (DatabaseErrorBody "Failed to save presentation to database"
                    details presentationId "database_error").

(** The save-verify-cache block. The handler contains it four times (lines
    451-496, 634-677, 796-839 and 870-915); the copies differ in the log
    lines and in the [status] and [message] fields of the success body,
    passed here as [ok]. *)
Definition saveVerifyCache (f : DbFaults) (presentation : Presentation)
    (ok : Body) (w : Server) : Response * Server :=
  let presentationId := id presentation in
  match saveToDatabase f presentation (db w) with
  | Throw msg => (databaseError msg presentationId, w)
  | Ok (savedPresentation, c) =>
      let w := setDb c w in
      if verifyDatabaseSave f presentationId c then
        (* the cache entry is assigned first, then the topics are indexed;
           an error of the indexing is caught like one of the save *)
        let '(byTopic, thrown) :=
          indexTopics presentationId (topics presentation)
                      (presentationsByTopic w) in
        let w := setCache (<[presentationId := savedPresentation]> (presentations w))
                          byTopic w in
        match thrown with
        | None => (json ok, w)
        | Some msg => (databaseError msg presentationId, w)
        end
      else (databaseError "Database verification failed" presentationId, w)
  end.

(** The success body; [slideCount], [slides] and [slideTexts] are the local
    variables the handler also stored in [presentation]. *)
Definition convertBody (p : Presentation) (status message : option string) : Body :=
  ConvertBody (id p) (originalName p) (title p) (slideCount p) (slides p)
              (slideTexts p) status message (topics p).

(** The accumulators of the slide loops: the URL array, the text array, and
    the disk. *)
Definition SlideAcc : Type :=
  (list string * list string * gmap string FileContent)%type.

(** *** Renderer unavailable (lines 433-503) *)

Definition placeholderCount : nat := 5.

Definition placeholderStep (e : ConvertEnv) (presentationId originalname : string)
    (acc : SlideAcc) (i : nat) : SlideAcc :=
  let '(placeholderUrls, slideTexts, fs) := acc in
  let placeholderPath := join (outputDir presentationId) (slideFileName (i + 1)) in
  let '(_, fs) := createPlaceholderImage (writeFault e) placeholderPath (i + 1)
                    originalname fs in
  (placeholderUrls ++ [slideUrl presentationId (i + 1)],
   slideTexts ++ ["Slide " +:+ JS.num (i + 1) +:+ " (Placeholder)"],
   fs).

Definition rendererMissing (e : ConvertEnv) (file : Multer.File)
    (presentation : Presentation) (w : Server) : Response * Server :=
  let '(placeholderUrls, slideTexts, fs) :=
    foldl (placeholderStep e (id presentation) (Multer.originalname file))
          ([], [], files w) (seq 0 placeholderCount) in
  let presentation :=
    setSlideData presentation placeholderUrls placeholderCount slideTexts true in
  saveVerifyCache (dbFaults e) presentation
    (convertBody presentation (Some "placeholders_created")
       (Some "LibreOffice is not available. Generated placeholder slides instead."))
    (setFiles fs w).

(** *** [createFallbackPlaceholders] (lines 850-921) *)

Definition estimatedSlideCount : nat := 23.

Definition fallbackStep (e : ConvertEnv) (presentationId originalname : string)
    (acc : SlideAcc) (i : nat) : SlideAcc :=
  let '(placeholderUrls, slideTexts, fs) := acc in
  let slideNumber := i + 1 in
  let placeholderPath := join (outputDir presentationId) (slideFileName slideNumber) in
  let '(_, fs) := createDistinctPlaceholder (writeFault e) placeholderPath
                    slideNumber originalname fs in
  (placeholderUrls ++ [slideUrl presentationId slideNumber],
   slideTexts ++ ["Slide " +:+ JS.num slideNumber +:+ " (Placeholder)"],
   fs).

Definition createFallbackPlaceholders (e : ConvertEnv) (file : Multer.File)
    (presentation : Presentation) (w : Server) : Response * Server :=
  let '(placeholderUrls, slideTexts, fs) :=
    foldl (fallbackStep e (id presentation) (Multer.originalname file))
          ([], [], files w) (seq 0 estimatedSlideCount) in
  let presentation :=
    setSlideData presentation placeholderUrls estimatedSlideCount slideTexts true in
  saveVerifyCache (dbFaults e) presentation
    (convertBody presentation (Some "fallback_placeholders")
       (Some "Conversion failed. Generated distinct placeholder slides instead."))
    (setFiles fs w).

(** *** [fallbackToJpgConversion] (lines 705-847) *)

(** The [.jpg] entries of the listing are the images the renderer left in
    the output directory. *)
Definition rendererImages (dir : string) (imageFiles : list string)
    (fs : gmap string FileContent) : gmap string FileContent :=
  foldl (λ fs file, <[join dir file := Image]> fs) fs imageFiles.

(** [fs.renameSync(oldPath, newPath)]. *)
Definition renameSync (fault : Fault) (oldPath newPath : string)
    (fs : gmap string FileContent) : Result (gmap string FileContent) :=
  match fault with
  | Some msg => Throw msg
  | None =>
      match fs !! oldPath with
      | Some content => Ok (<[newPath := content]> (delete oldPath fs))
      | None => Throw "ENOENT: no such file or directory"
      end
  end.

Definition renameStep (e : ConvertEnv) (presentationId : string)
    (acc : SlideAcc) (entry : nat * string) : SlideAcc :=
  let '(renamedImageUrls, slideTexts, fs) := acc in
  let '(index, file) := entry in
  let oldPath := join (outputDir presentationId) file in
  let newFileName := slideFileName (index + 1) in
  let newPath := join (outputDir presentationId) newFileName in
  match renameSync (renameFault e file) oldPath newPath fs with
  | Ok fs =>
      (renamedImageUrls ++ [fileUrl presentationId newFileName],
       slideTexts ++ ["Slide " +:+ JS.num (index + 1)],
       fs)
  | Throw _ =>
      (* Use the original file as fallback *)
      (renamedImageUrls ++ [fileUrl presentationId file],
       slideTexts ++ ["Slide " +:+ JS.num (index + 1)],
       fs)
  end.

Definition paddingStep (e : ConvertEnv) (presentationId originalname : string)
    (acc : SlideAcc) (i : nat) : SlideAcc :=
  let '(renamedImageUrls, slideTexts, fs) := acc in
  let slideNumber := i + 1 in
  let newFileName := slideFileName slideNumber in
  let newPath := join (outputDir presentationId) newFileName in
  let '(_, fs) := createDistinctPlaceholder (writeFault e) newPath slideNumber
                    originalname fs in
  (renamedImageUrls ++ [fileUrl presentationId newFileName],
   slideTexts ++ ["Slide " +:+ JS.num slideNumber +:+ " (Placeholder)"],
   fs).

(** The body of the [readdir] callback once at least one image was found
    (lines 740-845): renaming, padding of a single image up to
    [estimatedSlideCount], then the save-verify-cache block. *)
Definition renameImages (e : ConvertEnv) (file : Multer.File)
    (presentation : Presentation) (imageFiles : list string) (w : Server)
    : Response * Server :=
  let fs := rendererImages (outputDir (id presentation)) imageFiles (files w) in
  let acc :=
    foldl (renameStep e (id presentation)) ([], [], fs)
          (zip (seq 0 (length imageFiles)) imageFiles) in
  let '(renamedImageUrls, slideTexts, fs) :=
    if length imageFiles =? 1 then
      foldl (paddingStep e (id presentation) (Multer.originalname file))
            acc (seq 1 (estimatedSlideCount - 1))
    else acc in
  let presentation :=
    setSlideData presentation renamedImageUrls (length renamedImageUrls)
                 slideTexts false in
  saveVerifyCache (dbFaults e) presentation (convertBody presentation None None)
                  (setFiles fs w).

Definition fallbackToJpgConversion (e : ConvertEnv) (file : Multer.File)
    (presentation : Presentation) (w : Server) : Response * Server :=
  match jpgConvert e with
  | Some _ => createFallbackPlaceholders e file presentation w
  | None =>
      match readdirJpg e with
      | Throw _ => createFallbackPlaceholders e file presentation w
      | Ok listing =>
          let imageFiles := List.filter (λ f, JS.endsWith f ".jpg") listing in
          if length imageFiles =? 0
          then createFallbackPlaceholders e file presentation w
          else renameImages e file presentation imageFiles w
      end
  end.

(** *** The PDF route (lines 519-702) *)

Definition pageStep (e : ConvertEnv) (presentationId originalname : string)
    (acc : SlideAcc) (i : nat) : SlideAcc :=
  let '(renamedImageUrls, slideTexts, fs) := acc in
  let pageNum := i + 1 in
  let finalFile := join (outputDir presentationId) (slideFileName pageNum) in
  let placeholderTitle := "Page " +:+ JS.num pageNum +:+ " of " +:+ originalname in
  match page e pageNum with
  | PageImage pdftotext =>
      (renamedImageUrls ++ [slideUrl presentationId pageNum],
       slideTexts ++ [match pdftotext with
                      | Ok pageText => JS.orElse (Some pageText) ("Slide " +:+ JS.num pageNum)
                      | Throw _ => "Slide " +:+ JS.num pageNum
                      end],
       <[finalFile := Image]> fs)
  | PageNoFile =>
      let '(_, fs) := createDistinctPlaceholder (writeFault e) finalFile pageNum
                        placeholderTitle fs in
      (renamedImageUrls ++ [slideUrl presentationId pageNum],
       slideTexts ++ ["Slide " +:+ JS.num pageNum +:+ " (Placeholder)"],
       fs)
  | PageThrows _ =>
      let '(_, fs) := createDistinctPlaceholder (writeFault e) finalFile pageNum
                        placeholderTitle fs in
      (renamedImageUrls ++ [slideUrl presentationId pageNum],
       slideTexts ++ ["Slide " +:+ JS.num pageNum +:+ " (Error Placeholder)"],
       fs)
  end.

(** The body of [if (pageCount > 0)]: the per-page loop, then the
    save-verify-cache block. The temp directory and the PDF, removed at the
    end of the request, are not tracked on the modelled disk. *)
Definition extractPages (e : ConvertEnv) (file : Multer.File)
    (presentation : Presentation) (pageCount : nat) (w : Server)
    : Response * Server :=
  let '(renamedImageUrls, slideTexts, fs) :=
    foldl (pageStep e (id presentation) (Multer.originalname file))
          ([], [], files w) (seq 0 pageCount) in
  let presentation :=
    setSlideData presentation renamedImageUrls (length renamedImageUrls)
                 slideTexts false in
  saveVerifyCache (dbFaults e) presentation (convertBody presentation None None)
                  (setFiles fs w).

Definition convertViaPdf (e : ConvertEnv) (file : Multer.File)
    (presentation : Presentation) (w : Server) : Response * Server :=
  match pdfConvert e with
  | Some _ => fallbackToJpgConversion e file presentation w
  | None =>
      match readdirPdf e with
      | Throw _ => fallbackToJpgConversion e file presentation w
      | Ok listing =>
          let pdfFiles := List.filter (λ f, JS.endsWith f ".pdf") listing in
          if length pdfFiles =? 0
          then fallbackToJpgConversion e file presentation w
          else
            match pdfinfo e with
            | Throw _ => fallbackToJpgConversion e file presentation w
            | Ok pageCountMatch =>
                let pageCount := default 0 pageCountMatch in
                if 0 <? pageCount then
                  match mkdirTemp e with
                  | Some _ => fallbackToJpgConversion e file presentation w
                  | None => extractPages e file presentation pageCount w
                  end
                else fallbackToJpgConversion e file presentation w
            end
      end
  end.

(** *** The handler *)

(** The handler proper, entered with [req.file] defined. The creation of
    the output directory (lines 408-410) stands outside every [try]: when
    it throws, the request is not answered. The installation of the PDF
    utilities (lines 510-516) only logs. *)
Definition convertFile (e : ConvertEnv) (req : ConvertRequest)
    (file : Multer.File) (w : Server) : Response * Server :=
  let presentation := newPresentation e req file in
  match mkdirOutput e with
  | Some msg => (unanswered msg, w)
  | None =>
      if negb (checkLibreOfficeInstallation (whichFirst e)) then
        match aptInstall e with
        | Some _ => rendererMissing e file presentation w
        | None =>
            if negb (checkLibreOfficeInstallation (whichSecond e))
            then rendererMissing e file presentation w
            else convertViaPdf e file presentation w
        end
      else convertViaPdf e file presentation w
  end.

(** [app.post('/convert', upload.single('presentation'), handler)], with the
    error-handling middleware behind it. *)
Definition postConvert (e : ConvertEnv) (req : ConvertRequest) (w : Server)
    : Response * Server :=
  match Multer.single (file req) with
  | Throw message => (errorHandler message, w)
  | Ok None => (statusJson 400 (ErrorBody "No file uploaded"), w)
  | Ok (Some file) => convertFile e req file w
  end.

(** ** GET /presentation/:id (lines 925-1009) *)

(** [if (!h[userId]) h[userId] = [];
     if (!h[userId].includes(id)) h[userId].push(id)]. *)
Definition recordSeen (userId presentationId : string)
    (h : gmap string (list string)) : gmap string (list string) * Fault :=
  match JS.get h userId with
  | JS.Undefined => (<[userId := [presentationId]]> h, None)
  | JS.Own seen =>
      if bool_decide (presentationId ∈ seen) then (h, None)
      else (<[userId := seen ++ [presentationId]]> h, None)
  | JS.Inherited =>
      (h, Some (JS.notAFunction "userPresentationHistory[userId].includes"))
  end.

(** The index update of the read paths, which skips ids already listed. *)
Definition pushTopicOnce (presentationId : string)
    (byTopic : gmap string (list string)) (topic : string)
    : gmap string (list string) * Fault :=
  let topic := JS.toLowerCase topic in
  match JS.get byTopic topic with
  | JS.Undefined => (<[topic := [presentationId]]> byTopic, None)
  | JS.Own ids =>
      if bool_decide (presentationId ∈ ids) then (byTopic, None)
      else (<[topic := ids ++ [presentationId]]> byTopic, None)
  | JS.Inherited =>
      (byTopic, Some (JS.notAFunction "presentationsByTopic[topic].includes"))
  end.

Definition incrementView (d : Presentation) : Presentation :=
  {| id := id d; originalName := originalName d; title := title d;
     summary := summary d; author := author d; authorId := authorId d;
     topics := topics d;
     slideCount := slideCount d; slides := slides d; slideTexts := slideTexts d;
     converted := converted d; isPlaceholder := isPlaceholder d;
     viewCount := viewCount d + 1; isDeleted := isDeleted d |}.

(** A query parameter is truthy when present and not empty. *)
Definition truthy (s : option string) : option string :=
  match s with
  | Some u => if String.eqb u "" then None else Some u
  | None => None
  end.

Record GetFaults : Type := mkGetFaults {
  getFind : Fault;       (* findOne (line 963) *)
  getInc : Fault         (* findOneAndUpdate $inc (lines 948, 990) *)
}.

Definition noGetFaults : GetFaults := {| getFind := None; getInc := None |}.

(** The branch of [if (presentations[presentationId])] (lines 932-957),
    which stands outside the [try]; [answer] is what
    [presentations[presentationId]] evaluates to. *)
Definition getCached (f : GetFaults) (presentationId : string)
    (userId : option string) (answer : Body) (w : Server) : Response * Server :=
  match truthy userId with
  | Some userId =>
      match recordSeen userId presentationId (userPresentationHistory w) with
      | (_, Some msg) => (unanswered msg, w)
      | (h, None) =>
          let w := setHistory h w in
          (* the increment is not awaited; its rejection is logged *)
          match Mongo.findOneAndUpdate (getInc f) (Mongo.hasId presentationId)
                  incrementView (db w) with
          | Ok (_, c) => (json answer, setDb c w)
          | Throw _ => (json answer, w)
          end
      end
  | None => (json answer, w)
  end.

Definition getPresentation (f : GetFaults) (presentationId : string)
    (userId : option string) (w : Server) : Response * Server :=
  match JS.get (presentations w) presentationId with
  | JS.Own cached => getCached f presentationId userId (PresentationBody cached) w
  | JS.Inherited => getCached f presentationId userId (InheritedBody presentationId) w
  | JS.Undefined =>
      match Mongo.findOne (getFind f) (Mongo.liveWithId presentationId) (db w) with
      | Throw _ => (statusJson 500 (ErrorBody "Database error"), w)
      | Ok None => (statusJson 404 (ErrorBody "Presentation not found"), w)
      | Ok (Some dbPresentation) =>
          let '(byTopic, thrown) :=
            JS.forEach (pushTopicOnce presentationId) (presentationsByTopic w)
                       (topics dbPresentation) in
          let w := setCache (<[presentationId := dbPresentation]> (presentations w))
                            byTopic w in
          match thrown with
          | Some _ => (statusJson 500 (ErrorBody "Database error"), w)
          | None =>
              match truthy userId with
              | Some userId =>
                  match Mongo.findOneAndUpdate (getInc f) (Mongo.hasId presentationId)
                          incrementView (db w) with
                  | Throw _ => (statusJson 500 (ErrorBody "Database error"), w)
                  | Ok (_, c) =>
                      let w := setDb c w in
                      match recordSeen userId presentationId
                              (userPresentationHistory w) with
                      | (_, Some _) =>
                          (statusJson 500 (ErrorBody "Database error"), w)
                      | (h, None) =>
                          (json (PresentationBody dbPresentation), setHistory h w)
                      end
                  end
              | None => (json (PresentationBody dbPresentation), w)
              end
          end
      end
  end.

(** ** DELETE /presentation/:id (lines 1308-1378) *)

Definition markDeleted (d : Presentation) : Presentation :=
  {| id := id d; originalName := originalName d; title := title d;
     summary := summary d; author := author d; authorId := authorId d;
     topics := topics d;
     slideCount := slideCount d; slides := slides d; slideTexts := slideTexts d;
     converted := converted d; isPlaceholder := isPlaceholder d;
     viewCount := viewCount d; isDeleted := true |}.

(** [id => id !== presentationId]. *)
Definition isNot (presentationId other : string) : bool :=
  negb (String.eqb other presentationId).

(** One step of the loop that removes the id from the topic index:
    [if (presentationsByTopic[topic])
       presentationsByTopic[topic] = presentationsByTopic[topic].filter(...)]. *)
Definition dropFromTopic (presentationId : string)
    (byTopic : gmap string (list string)) (topic : string)
    : gmap string (list string) * Fault :=
  let topic := JS.toLowerCase topic in
  match JS.get byTopic topic with
  | JS.Own ids => (<[topic := List.filter (isNot presentationId) ids]> byTopic, None)
  | JS.Undefined => (byTopic, None)
  | JS.Inherited =>
      (byTopic, Some (JS.notAFunction "presentationsByTopic[topic].filter"))
  end.

(** [if (presentations[id]) { (topics || []).forEach(...);
     delete presentations[id] }]. Behind an inherited key there are no
    topics and nothing to delete. *)
Definition evict (presentationId : string) (w : Server) : Server * Fault :=
  match JS.get (presentations w) presentationId with
  | JS.Own cached =>
      match JS.forEach (dropFromTopic presentationId) (presentationsByTopic w)
                       (topics cached) with
      | (byTopic, None) =>
          (setCache (delete presentationId (presentations w)) byTopic w, None)
      | (byTopic, Some msg) => (setCache (presentations w) byTopic w, Some msg)
      end
  | JS.Inherited => (w, None)
  | JS.Undefined => (w, None)
  end.

(** [Object.keys(userPresentationHistory).forEach(...)]. *)
Definition forget (presentationId : string) (w : Server) : Server :=
  setHistory (List.filter (isNot presentationId) <$> userPresentationHistory w) w.

(** The [catch] branch (lines 1349-1377): the memory-only delete. An error
    thrown here leaves the handler. *)
Definition deleteFromMemory (presentationId : string) (w : Server)
    : Response * Server :=
  match JS.get (presentations w) presentationId with
  | JS.Undefined => (statusJson 500 (ErrorBody "Server error"), w)
  | _ =>
      match evict presentationId w with
      | (w, Some msg) => (unanswered msg, w)
      | (w, None) =>
          (json (SuccessBody
                   "Presentation deleted from memory cache, but database update failed"),
           forget presentationId w)
      end
  end.

Definition deletePresentation (fault : Fault) (presentationId : string)
    (w : Server) : Response * Server :=
  match Mongo.findOneAndUpdate fault (Mongo.liveWithId presentationId)
          markDeleted (db w) with
  | Ok (None, _) => (statusJson 404 (ErrorBody "Presentation not found"), w)
  | Ok (Some _, c) =>
      match evict presentationId (setDb c w) with
      | (w, None) =>
          (json (SuccessBody "Presentation deleted"), forget presentationId w)
      | (w, Some _) => deleteFromMemory presentationId w
      end
  | Throw _ =>
      (* Fallback to memory-only delete if database fails *)
      deleteFromMemory presentationId w
  end.
(** ** The endpoints around the cache *)

(** Queries on the collection used by the endpoints below. *)
Module MongoQuery.

(** [{ isDeleted: false }]. *)
Definition live (d : Presentation) : bool := negb (isDeleted d).

(** [Model.find(filter)]: the matching documents, in collection order. *)
Definition find (fault : Fault) (filter : Presentation → bool)
    (c : Mongo.Collection) : Result (list Presentation) :=
  match fault with
  | Some msg => Throw msg
  | None => Ok (List.filter filter c)
  end.

(** [Model.countDocuments(filter)]. *)
Definition countDocuments (fault : Fault) (filter : Presentation → bool)
    (c : Mongo.Collection) : Result nat :=
  match fault with
  | Some msg => Throw msg
  | None => Ok (length (List.filter filter c))
  end.

End MongoQuery.

(** The JSON bodies of these endpoints. *)
Inductive CatalogBody : Type :=
  | SeenBody (seen : bool)
      (* { seen } *)
  | SuccessOnlyBody
      (* { success: true } *)
  | MessageBody (message : string)
      (* { message } *)
  | PresentationsBody (presentations : list Presentation)
      (* { presentations } *)
  | UpdatedBody (presentation : Presentation)
      (* { success: true, presentation } *)
  | SyncBody (message : string) (databaseCount memoryCount : nat)
      (* { success: true, message, databaseCount, memoryCount } *)
  | SyncFailedBody (message : string)
      (* { error: 'Sync failed', message } *)
  | CatalogErrorBody (error : string)
      (* { error } *)
  | CatalogNoBody (error : string).
      (* nothing was sent; the error the handler's promise rejected with *)

Record CatalogResponse : Type := mkCatalogResponse {
  catalogStatus : nat;
  catalogBody : CatalogBody
}.

Definition catalogJson (b : CatalogBody) : CatalogResponse :=
  mkCatalogResponse 200 b.

(** The error-handling middleware (lines 1501-1504), reached by what a
    synchronous handler throws; the message of a TypeError is not empty. *)
Definition catalogError (message : string) : CatalogResponse :=
  mkCatalogResponse 500
    (CatalogErrorBody (JS.orElse (Some message) "Something went wrong!")).

(** No response: an [async] handler threw outside every [try]. *)
Definition catalogUnanswered (error : string) : CatalogResponse :=
  mkCatalogResponse 0 (CatalogNoBody error).

(** The block that stores one database record in the cache and lists its id
    under each of its topics, skipping topics that list it already (lines
    152-165, and again in the listing endpoints). The cache entry is
    assigned before the topics are walked. *)
Definition cacheRecord (w : Server) (pres : Presentation) : Server * Fault :=
  let '(byTopic, thrown) :=
    JS.forEach (pushTopicOnce (id pres)) (presentationsByTopic w) (topics pres) in
  (setCache (<[id pres := pres]> (presentations w)) byTopic w, thrown).

(** [loadPresentationsFromDatabase] (lines 146-173): an error of the query,
    or of the loop over its results, is logged; what the loop did before it
    threw stays done. *)
Definition loadPresentationsFromDatabase (fault : Fault) (w : Server) : Server :=
  match MongoQuery.find fault MongoQuery.live (db w) with
  | Ok dbPresentations => (JS.forEach cacheRecord w dbPresentations).1
  | Throw _ => w
  end.

Record SyncFaults : Type := mkSyncFaults {
  syncFind : Fault;       (* Presentation.find of the reload *)
  syncCount : Fault       (* Presentation.countDocuments *)
}.


(** POST /admin/sync (lines 1455-1485). *)
Definition adminSync (f : SyncFaults) (w : Server) : CatalogResponse * Server :=
  let w := setCache ∅ ∅ w in
  let w := loadPresentationsFromDatabase (syncFind f) w in
  let memoryCount := size (presentations w) in
  match MongoQuery.countDocuments (syncCount f) MongoQuery.live (db w) with
  | Ok dbCount =>
      (catalogJson
         (SyncBody ("Sync completed: " +:+ JS.num memoryCount
                    +:+ " presentations loaded from database")
                   dbCount memoryCount),
       w)
  | Throw msg => (mkCatalogResponse 500 (SyncFailedBody msg), w)
  end.

(** GET /clear-cache (lines 1495-1498): only [presentations] is emptied. *)
Definition clearCache (w : Server) : CatalogResponse * Server :=
  (catalogJson (MessageBody "Cache cleared"),
   setCache ∅ (presentationsByTopic w) w).

(** GET /user/:userId/seen/:presentationId (lines 1216-1225), a synchronous
    handler. *)
Definition getSeen (userId presentationId : string) (w : Server)
    : CatalogResponse :=
  match JS.get (userPresentationHistory w) userId with
  | JS.Undefined => catalogJson (SeenBody false)
  | JS.Own seen => catalogJson (SeenBody (bool_decide (presentationId ∈ seen)))
  | JS.Inherited =>
      catalogError (JS.notAFunction "userPresentationHistory[userId].includes")
  end.

(** POST /user/:userId/seen/:presentationId (lines 1293-1305), a
    synchronous handler. *)
Definition postSeen (userId presentationId : string) (w : Server)
    : CatalogResponse * Server :=
  match recordSeen userId presentationId (userPresentationHistory w) with
  | (h, None) => (catalogJson SuccessOnlyBody, setHistory h w)
  | (_, Some msg) => (catalogError msg, w)
  end.

(** [ids.map(id => presentations[id]).filter(p => p !== undefined)], for
    the ids of documents. *)
Definition cachedPresentations (ids : list string) (w : Server)
    : list Presentation :=
  omap (λ presentationId, presentations w !! presentationId) ids.

(** [{ topics: { $elemMatch: { $regex } }, isDeleted: false }]. *)
Definition topicFilter (test : string → bool) (d : Presentation) : bool :=
  existsb test (topics d) && negb (isDeleted d).

(** The [catch] branch of the topic listing (lines 1196-1212):
    [if (presentationsByTopic[topic]) { ... .map(...) ... }]. An error
    thrown here leaves the handler. *)
Definition topicFromMemory (topic : string) (w : Server)
    : CatalogResponse * Server :=
  match JS.get (presentationsByTopic w) topic with
  | JS.Own ids => (catalogJson (PresentationsBody (cachedPresentations ids w)), w)
  | JS.Inherited =>
      (catalogUnanswered (JS.notAFunction "presentationsByTopic[topic].map"), w)
  | JS.Undefined => (catalogJson (PresentationsBody []), w)
  end.

(** GET /presentations/topic/:topic (lines 1148-1213). [regExp] stands for
    [new RegExp(topic, 'i')]: the test of the compiled pattern, or the
    SyntaxError of the constructor, which like a failing query lands in the
    [catch] branch; so does an error of the caching loop or of the memory
    branch of the [try]. *)
Definition getPresentationsByTopic (regExp : string → Result (string → bool))
    (fault : Fault) (topicParam : string) (w : Server)
    : CatalogResponse * Server :=
  let topic := JS.toLowerCase topicParam in
  match regExp topic with
  | Throw _ => topicFromMemory topic w
  | Ok test =>
      match MongoQuery.find fault (topicFilter test) (db w) with
      | Throw _ => topicFromMemory topic w
      | Ok dbPresentations =>
          if 0 <? length dbPresentations then
            match JS.forEach cacheRecord w dbPresentations with
            | (w, None) => (catalogJson (PresentationsBody dbPresentations), w)
            | (w, Some _) => topicFromMemory topic w
            end
          else
            match JS.get (presentationsByTopic w) topic with
            | JS.Own ids =>
                if 0 <? length ids
                then (catalogJson (PresentationsBody (cachedPresentations ids w)), w)
                else (catalogJson (PresentationsBody []), w)
            | JS.Inherited =>
                (* the [length] of the inherited function, then [.map] *)
                if JS.inheritedLengthPositive topic
                then topicFromMemory topic w
                else (catalogJson (PresentationsBody []), w)
            | JS.Undefined => (catalogJson (PresentationsBody []), w)
            end
      end
  end.

(** [id => !seenPresentations.includes(id)], with
    [seenPresentations = userPresentationHistory[userId] || []] an array. *)
Definition notSeenBy (userId : string) (w : Server) (presentationId : string)
    : bool :=
  negb (bool_decide (presentationId ∈ default [] (userPresentationHistory w !! userId))).

(** [list.filter(x => !seenPresentations.includes(key x))]: behind an
    inherited user id [seenPresentations] is not an array, and the first
    call of the callback throws. *)
Definition unseenOnly {X : Type} (userId : string) (w : Server)
    (key : X → string) (l : list X) : Result (list X) :=
  match JS.get (userPresentationHistory w) userId, l with
  | JS.Inherited, _ :: _ => Throw (JS.notAFunction "seenPresentations.includes")
  | _, _ => Ok (List.filter (λ x, notSeenBy userId w (key x)) l)
  end.

(** The memory branch of the unseen listing (lines 1263-1272 and
    1278-1287). *)
Definition unseenFromMemory (userId topicLower : string) (w : Server)
    : Result (list Presentation) :=
  match JS.get (presentationsByTopic w) topicLower with
  | JS.Undefined => Ok []
  | JS.Inherited =>
      Throw (JS.notAFunction "presentationsByTopic[topicLower].filter")
  | JS.Own ids =>
      match unseenOnly userId w (λ presentationId, presentationId) ids with
      | Ok unseen => Ok (cachedPresentations unseen w)
      | Throw msg => Throw msg
      end
  end.

(** The [catch] branch of the unseen listing. *)
Definition unseenCatch (userId topicLower : string) (w : Server)
    : CatalogResponse * Server :=
  match unseenFromMemory userId topicLower w with
  | Ok unseenPresentations =>
      (catalogJson (PresentationsBody unseenPresentations), w)
  | Throw msg => (catalogUnanswered msg, w)
  end.

(** GET /user/:userId/unseen/:topic (lines 1227-1291). Unlike the topic
    listing, the memory branch is taken for an empty list of ids too, and
    only the unseen documents are cached. *)
Definition getUnseen (regExp : string → Result (string → bool))
    (fault : Fault) (userId topicParam : string) (w : Server)
    : CatalogResponse * Server :=
  let topicLower := JS.toLowerCase topicParam in
  match regExp topicLower with
  | Throw _ => unseenCatch userId topicLower w
  | Ok test =>
      match MongoQuery.find fault (topicFilter test) (db w) with
      | Throw _ => unseenCatch userId topicLower w
      | Ok dbPresentations =>
          if 0 <? length dbPresentations then
            match unseenOnly userId w id dbPresentations with
            | Throw _ => unseenCatch userId topicLower w
            | Ok unseenDbPresentations =>
                match JS.forEach cacheRecord w unseenDbPresentations with
                | (w, None) =>
                    (catalogJson (PresentationsBody unseenDbPresentations), w)
                | (w, Some _) => unseenCatch userId topicLower w
                end
            end
          else
            match unseenFromMemory userId topicLower w with
            | Ok unseenPresentations =>
                (catalogJson (PresentationsBody unseenPresentations), w)
            | Throw _ => unseenCatch userId topicLower w
            end
      end
  end.





(** * Vocabulary of the specification *)

(** The renderer availability probe of one request (spec 4.1): the first
    check, and after a successful installation the second one. *)
Definition rendererAvailable (e : ConvertEnv) : bool :=
  checkLibreOfficeInstallation (whichFirst e)
  || match aptInstall e with
     | None => checkLibreOfficeInstallation (whichSecond e)
     | Some _ => false
     end.

(** The upload passes the middleware and reaches the handler as [req.file]. *)
Definition accepted (req : ConvertRequest) (upload : Multer.File) : Prop :=
  Multer.single (file req) = Ok (Some upload).

(** The paginate-then-rasterize strategy gets as far as the page loop: the
    renderer wrote a PDF, [pdfinfo] reports [pageCount] pages and the temp
    directory could be made. *)
Definition pdfStrategy (e : ConvertEnv) (pageCount : nat) : Prop :=
  pdfConvert e = None ∧
  (∃ listing, readdirPdf e = Ok listing ∧
              List.filter (λ f, JS.endsWith f ".pdf") listing ≠ []) ∧
  pdfinfo e = Ok (Some pageCount) ∧
  mkdirTemp e = None.

(** The direct export strategy gets as far as the renaming loop, with the
    images [imageFiles]. *)
Definition jpgStrategy (e : ConvertEnv) (imageFiles : list string) : Prop :=
  jpgConvert e = None ∧
  ∃ listing, readdirJpg e = Ok listing ∧
             imageFiles = List.filter (λ f, JS.endsWith f ".jpg") listing ∧
             imageFiles ≠ [].

(** The first strategy did not reach the page loop. *)
Definition pdfFailed (e : ConvertEnv) : Prop :=
  ∀ pageCount, pdfStrategy e pageCount → pageCount = 0.

(** The second strategy did not reach the renaming loop. *)
Definition jpgFailed (e : ConvertEnv) : Prop :=
  ∀ imageFiles, ¬ jpgStrategy e imageFiles.

(** The rasterization of a page failed: no image came out of it. *)
Definition rasterizationFailed (o : PageOutcome) : bool :=
  match o with
  | PageImage _ => false
  | PageNoFile | PageThrows _ => true
  end.

(** The text the page loop records for a page. *)
Definition pageSlideText (o : PageOutcome) (pageNum : nat) : string :=
  match o with
  | PageImage (Ok pageText) => JS.orElse (Some pageText) ("Slide " +:+ JS.num pageNum)
  | PageImage (Throw _) => "Slide " +:+ JS.num pageNum
  | PageNoFile => "Slide " +:+ JS.num pageNum +:+ " (Placeholder)"
  | PageThrows _ => "Slide " +:+ JS.num pageNum +:+ " (Error Placeholder)"
  end.

(** A slide is synthetic when the file behind its URL is not an image the
    renderer produced. *)
Definition synthetic (w : Server) (url : string) : Prop :=
  files w !! servedFile url ≠ Some Image.

(** The output directory of a presentation holds no file yet. *)
Definition freshDirectory (w : Server) (presentationId : string) : Prop :=
  ∀ name, files w !! join (outputDir presentationId) name = None.

(** The files behind the slides of a record. *)
Definition slideFiles (p : Presentation) : list string :=
  servedFile <$> slides p.

(** A live document with this id is in the collection. *)
Definition existsLive (presentationId : string) (c : Mongo.Collection) : Prop :=
  ∃ d, d ∈ c ∧ id d = presentationId ∧ isDeleted d = false.

(** No topic of the list lowercases to a property name of
    [Object.prototype]; for such topics the index updates do not throw. *)
Definition ordinaryTopics (topics : list string) : Prop :=
  Forall (λ topic, JS.inherited (JS.toLowerCase topic) = false) topics.

(** What the save-verify-cache protocol may do with a record [p]: commit
    it; commit it and fail while indexing its topics; fail to save it; fail
    to verify it. *)
Inductive Persisted (f : DbFaults) (p : Presentation) (w : Server)
    (r : Response) (w' : Server) : Prop :=
  | Committed (saved : Presentation) :
      saveToDatabase f p (db w) = Ok (saved, db w') →
      verifyDatabaseSave f (id p) (db w') = true →
      statusCode r = 200 →
      presentations w' = <[id p := saved]> (presentations w) →
      indexTopics (id p) (topics p) (presentationsByTopic w)
        = (presentationsByTopic w', None) →
      Persisted f p w r w'
  | IndexFailed (saved : Presentation) (msg : string) :
      saveToDatabase f p (db w) = Ok (saved, db w') →
      verifyDatabaseSave f (id p) (db w') = true →
      r = databaseError msg (id p) →
      presentations w' = <[id p := saved]> (presentations w) →
      indexTopics (id p) (topics p) (presentationsByTopic w)
        = (presentationsByTopic w', Some msg) →
      Persisted f p w r w'
  | SaveFailed (msg : string) :
      saveToDatabase f p (db w) = Throw msg →
      r = databaseError msg (id p) →
      db w' = db w →
      presentations w' = presentations w →
      presentationsByTopic w' = presentationsByTopic w →
      Persisted f p w r w'
  | VerifyFailed (saved : Presentation) :
      saveToDatabase f p (db w) = Ok (saved, db w') →
      verifyDatabaseSave f (id p) (db w') = false →
      r = databaseError "Database verification failed" (id p) →
      presentations w' = presentations w →
      presentationsByTopic w' = presentationsByTopic w →
      Persisted f p w r w'.

(** ** One iteration of each loop, by its effect on the disk *)

Definition genericWrite (e : ConvertEnv) (presentationId originalname : string)
    (i : nat) (fs : gmap string FileContent) : gmap string FileContent :=
  (createPlaceholderImage (writeFault e)
     (join (outputDir presentationId) (slideFileName (i + 1))) (i + 1)
     originalname fs).2.

Definition distinctWrite (e : ConvertEnv) (presentationId title : string)
    (i : nat) (fs : gmap string FileContent) : gmap string FileContent :=
  (createDistinctPlaceholder (writeFault e)
     (join (outputDir presentationId) (slideFileName (i + 1))) (i + 1)
     title fs).2.

Definition pageTitle (originalname : string) (pageNum : nat) : string :=
  "Page " +:+ JS.num pageNum +:+ " of " +:+ originalname.

Definition pageWrite (e : ConvertEnv) (presentationId originalname : string)
    (i : nat) (fs : gmap string FileContent) : gmap string FileContent :=
  match page e (i + 1) with
  | PageImage _ =>
      <[join (outputDir presentationId) (slideFileName (i + 1)) := Image]> fs
  | PageNoFile | PageThrows _ =>
      distinctWrite e presentationId (pageTitle originalname (i + 1)) i fs
  end.

(** ** The records the routes of the handler build *)

Definition placeholderLabel (n : nat) : string :=
  "Slide " +:+ JS.num n +:+ " (Placeholder)".

Definition plainLabel (n : nat) : string := "Slide " +:+ JS.num n.

(** Renderer unavailable: [placeholderCount] generic placeholders. *)
Definition missingRecord (p : Presentation) : Presentation :=
  setSlideData p (slideUrl (id p) <$> seq 1 placeholderCount) placeholderCount
               (placeholderLabel <$> seq 1 placeholderCount) true.

(** Both strategies failed: [estimatedSlideCount] distinct placeholders. *)
Definition fallbackRecord (p : Presentation) : Presentation :=
  setSlideData p (slideUrl (id p) <$> seq 1 estimatedSlideCount)
               estimatedSlideCount
               (placeholderLabel <$> seq 1 estimatedSlideCount) true.

(** The page loop over [pageCount] pages. *)
Definition pagesRecord (e : ConvertEnv) (p : Presentation) (pageCount : nat)
    : Presentation :=
  setSlideData p (slideUrl (id p) <$> seq 1 pageCount)
               (length (slideUrl (id p) <$> seq 1 pageCount))
               ((λ n, pageSlideText (page e n) n) <$> seq 1 pageCount) false.

(** The URL the renaming loop records for the image [entry.2] found at
    index [entry.1]: the canonical one or, when the renaming threw, the one
    of the renderer's file name. With a duplicate-free listing the renaming
    only throws when [fs.renameSync] itself fails. *)
Definition renamedUrl (e : ConvertEnv) (presentationId : string)
    (imageFiles : list string) (entry : nat * string) (u : string) : Prop :=
  u = slideUrl presentationId (entry.1 + 1)
  ∨ (u = fileUrl presentationId entry.2
     ∧ (NoDup imageFiles → renameFault e entry.2 ≠ None)).

(** The routes of the handler once a file was accepted: for the record [p]
    of lines 394-405 and the disk [fs0], the record handed to the
    save-verify-cache block, the success body, and the disk at that point. *)
Inductive Route (e : ConvertEnv) (originalname : string) (p : Presentation)
    (fs0 : gmap string FileContent)
    : Presentation → Body → gmap string FileContent → Prop :=
  | RouteMissing :
      rendererAvailable e = false →
      Route e originalname p fs0
        (missingRecord p)
        (convertBody (missingRecord p) (Some "placeholders_created")
           (Some "LibreOffice is not available. Generated placeholder slides instead."))
        (foldl (λ fs i, genericWrite e (id p) originalname i fs) fs0
               (seq 0 placeholderCount))
  | RoutePages (pageCount : nat) :
      rendererAvailable e = true →
      pdfStrategy e pageCount → 0 < pageCount →
      Route e originalname p fs0
        (pagesRecord e p pageCount)
        (convertBody (pagesRecord e p pageCount) None None)
        (foldl (λ fs i, pageWrite e (id p) originalname i fs) fs0
               (seq 0 pageCount))
  | RouteExport (imageFiles us urls texts : list string)
        (fs1 fs : gmap string FileContent) :
      rendererAvailable e = true →
      pdfFailed e →
      jpgStrategy e imageFiles →
      Forall2 (renamedUrl e (id p) imageFiles)
              (zip (seq 0 (length imageFiles)) imageFiles) us →
      (if length imageFiles =? 1
       then urls = us ++ (slideUrl (id p) <$> seq 2 (estimatedSlideCount - 1))
            ∧ texts = (plainLabel <$> seq 1 (length imageFiles))
                      ++ (placeholderLabel <$> seq 2 (estimatedSlideCount - 1))
            ∧ fs = foldl (λ fs i, distinctWrite e (id p) originalname i fs) fs1
                         (seq 1 (estimatedSlideCount - 1))
       else urls = us
            ∧ texts = plainLabel <$> seq 1 (length imageFiles)
            ∧ fs = fs1) →
      Route e originalname p fs0
        (setSlideData p urls (length urls) texts false)
        (convertBody (setSlideData p urls (length urls) texts false) None None)
        fs
  | RouteFallback :
      rendererAvailable e = true →
      pdfFailed e → jpgFailed e →
      Route e originalname p fs0
        (fallbackRecord p)
        (convertBody (fallbackRecord p) (Some "fallback_placeholders")
           (Some "Conversion failed. Generated distinct placeholder slides instead."))
        (foldl (λ fs i, distinctWrite e (id p) originalname i fs) fs0
               (seq 0 estimatedSlideCount)).

(** ** Concrete requests used as examples *)

Definition emptyServer : Server := mkServer [] ∅ ∅ ∅ ∅.

Definition deckUpload : ConvertRequest :=
  {| file := Some (Multer.mkFile "Deck.PPTX" 1000%N);
     bodyTitle := None; bodySummary := None; bodyAuthor := None;
     bodyAuthorId := None; bodyTopics := TopicsString "AI" |}.

(** The same upload under a topic that names a property of
    [Object.prototype]. *)
Definition constructorUpload : ConvertRequest :=
  {| file := Some (Multer.mkFile "Deck.PPTX" 1000%N);
     bodyTitle := None; bodySummary := None; bodyAuthor := None;
     bodyAuthorId := None; bodyTopics := TopicsString "constructor" |}.

Definition notesUpload : ConvertRequest :=
  {| file := Some (Multer.mkFile "notes.txt" 10%N);
     bodyTitle := None; bodySummary := None; bodyAuthor := None;
     bodyAuthorId := None; bodyTopics := TopicsAbsent |}.

Definition hugeUpload : ConvertRequest :=
  {| file := Some (Multer.mkFile "Deck.pptx" 52428801%N);
     bodyTitle := None; bodySummary := None; bodyAuthor := None;
     bodyAuthorId := None; bodyTopics := TopicsAbsent |}.

Definition emptyUpload : ConvertRequest :=
  {| file := None;
     bodyTitle := Some "Deck"; bodySummary := None; bodyAuthor := None;
     bodyAuthorId := None; bodyTopics := TopicsAbsent |}.

(** A healthy host: the renderer is found, a three-page PDF comes out, the
    second page yields no image file. *)
Definition healthyEnv : ConvertEnv :=
  {| uuidPresentation := "p-1"; uuidAuthor := "a-1"; now := 7;
     mkdirOutput := None;
     whichFirst := Ok "/usr/bin/libreoffice"; aptInstall := None;
     whichSecond := Ok "/usr/bin/libreoffice";
     writeFault := λ _, None;
     pdfConvert := None; readdirPdf := Ok ["Deck.pdf"];
     pdfinfo := Ok (Some 3); mkdirTemp := None;
     page := λ n, if n =? 2 then PageNoFile else PageImage (Ok "Agenda");
     jpgConvert := None; readdirJpg := Ok ["Deck.jpg"];
     renameFault := λ _, None;
     dbFaults := noDbFaults |}.

(** A host without the renderer and without a working package manager. *)
Definition bareEnv : ConvertEnv :=
  {| uuidPresentation := "p-1"; uuidAuthor := "a-1"; now := 7;
     mkdirOutput := None;
     whichFirst := Ok "not found"; aptInstall := Some "apt-get: not found";
     whichSecond := Ok "not found";
     writeFault := λ _, None;
     pdfConvert := None; readdirPdf := Ok [];
     pdfinfo := Ok None; mkdirTemp := None;
     page := λ _, PageNoFile;
     jpgConvert := None; readdirJpg := Ok [];
     renameFault := λ _, None;
     dbFaults := noDbFaults |}.


(** The PDF conversion fails and the direct export collapses the deck into
    one image. *)
Definition collapsedEnv : ConvertEnv :=
  {| uuidPresentation := "p-1"; uuidAuthor := "a-1"; now := 7;
     mkdirOutput := None;
     whichFirst := Ok "/usr/bin/libreoffice"; aptInstall := None;
     whichSecond := Ok "/usr/bin/libreoffice";
     writeFault := λ _, None;
     pdfConvert := Some "Command failed"; readdirPdf := Ok [];
     pdfinfo := Ok None; mkdirTemp := None;
     page := λ _, PageNoFile;
     jpgConvert := None; readdirJpg := Ok ["Deck.jpg"];
     renameFault := λ _, None;
     dbFaults := noDbFaults |}.

(** Both strategies fail on a host that has the renderer. *)
Definition brokenEnv : ConvertEnv :=
  {| uuidPresentation := "p-1"; uuidAuthor := "a-1"; now := 7;
     mkdirOutput := None;
     whichFirst := Ok "/usr/bin/libreoffice"; aptInstall := None;
     whichSecond := Ok "/usr/bin/libreoffice";
     writeFault := λ _, None;
     pdfConvert := Some "Command failed"; readdirPdf := Ok [];
     pdfinfo := Ok None; mkdirTemp := None;
     page := λ _, PageNoFile;
     jpgConvert := Some "Command failed"; readdirJpg := Ok [];
     renameFault := λ _, None;
     dbFaults := noDbFaults |}.


(** A catalog with one converted deck, cached and on disk. *)
Definition storedDeck : Presentation :=
  {| id := "p-1"; originalName := "Deck.PPTX"; title := "Deck"; summary := "";
     author := "Anonymous"; authorId := "a-1"; topics := ["AI"];
     slideCount := 1; slides := ["/slides/p-1/slide-1.jpg"];
     slideTexts := ["Agenda"]; converted := 7; isPlaceholder := false;
     viewCount := 0; isDeleted := false |}.

Definition oneDeckServer : Server :=
  {| db := [storedDeck];
     presentations := {["p-1" := storedDeck]};
     presentationsByTopic := {["ai" := ["p-1"]]};
     userPresentationHistory := {["u-1" := ["p-1"]]};
     files := {["public/slides/p-1/slide-1.jpg" := Image]} |}.

(** ** Vocabulary for the cache and its indices *)

(** The id is listed under a key of an index (topic index or view
    history). *)
Definition listed (index : gmap string (list string)) (key presentationId : string)
    : Prop :=
  ∃ ids, index !! key = Some ids ∧ presentationId ∈ ids.

(** No list of the index repeats an id. *)
Definition duplicateFree (index : gmap string (list string)) : Prop :=
  ∀ key ids, index !! key = Some ids → NoDup ids.

(** No character of the string is a dot or a slash. *)
Definition plainName (s : string) : bool :=
  forallb (λ c, negb (JS.isDot c || JS.isSlash c)) (JS.chars s).


(** ** Further examples *)

(** A second deck, deleted, and a third one, live, besides [storedDeck]. *)
Definition deletedDeck : Presentation :=
  {| id := "p-2"; originalName := "Old.ppt"; title := "Old"; summary := "";
     author := "Anonymous"; authorId := "a-1"; topics := ["History"];
     slideCount := 1; slides := ["/slides/p-2/slide-1.jpg"];
     slideTexts := ["Old"]; converted := 3; isPlaceholder := false;
     viewCount := 4; isDeleted := true |}.

Definition otherDeck : Presentation :=
  {| id := "p-3"; originalName := "Talk.key"; title := "Talk"; summary := "";
     author := "Anonymous"; authorId := "a-2"; topics := ["AI"; "ai"; "Rocq"];
     slideCount := 1; slides := ["/slides/p-3/slide-1.jpg"];
     slideTexts := ["Talk"]; converted := 5; isPlaceholder := false;
     viewCount := 0; isDeleted := false |}.

(** A server whose collection holds the three decks and whose cache is
    cold. *)
Definition coldServer : Server :=
  {| db := [storedDeck; deletedDeck; otherDeck];
     presentations := ∅;
     presentationsByTopic := ∅;
     userPresentationHistory := {["u-1" := ["p-1"]]};
     files := {["public/slides/p-1/slide-1.jpg" := Image;
                "public/slides/p-3/slide-1.jpg" := Image]} |}.

(** The healthy host with a database whose read-back fails. *)
Definition verifyDownEnv : ConvertEnv :=
  {| uuidPresentation := "p-1"; uuidAuthor := "a-1"; now := 7;
     mkdirOutput := None;
     whichFirst := Ok "/usr/bin/libreoffice"; aptInstall := None;
     whichSecond := Ok "/usr/bin/libreoffice";
     writeFault := λ _, None;
     pdfConvert := None; readdirPdf := Ok ["Deck.pdf"];
     pdfinfo := Ok (Some 3); mkdirTemp := None;
     page := λ n, if n =? 2 then PageNoFile else PageImage (Ok "Agenda");
     jpgConvert := None; readdirJpg := Ok ["Deck.jpg"];
     renameFault := λ _, None;
     dbFaults := {| saveFind := None; saveWrite := None;
                    verifyFind := Some "MongoNetworkError" |} |}.

(** The healthy host with every page rendered. *)
Definition perfectEnv : ConvertEnv :=
  {| uuidPresentation := "p-1"; uuidAuthor := "a-1"; now := 7;
     mkdirOutput := None;
     whichFirst := Ok "/usr/bin/libreoffice"; aptInstall := None;
     whichSecond := Ok "/usr/bin/libreoffice";
     writeFault := λ _, None;
     pdfConvert := None; readdirPdf := Ok ["Deck.pdf"];
     pdfinfo := Ok (Some 3); mkdirTemp := None;
     page := λ _, PageImage (Ok "Agenda");
     jpgConvert := None; readdirJpg := Ok ["Deck.jpg"];
     renameFault := λ _, None;
     dbFaults := noDbFaults |}.




(** A pattern that matches the topics containing a capital or small "a",
    standing for [new RegExp("a", "i")]. *)
Definition containsA (s : string) : bool :=
  existsb (λ c, Ascii.eqb (JS.lowerChar c) "a"%char) (JS.chars s).
(** * Properties *)

(** ** The collection *)

Section MongoFacts.

Implicit Types (c : Mongo.Collection) (d p : Presentation) (pid : string).

Lemma hasId_true pid d : Mongo.hasId pid d = true ↔ id d = pid.
Proof. unfold Mongo.hasId. apply String.eqb_eq. Qed.

Lemma hasId_self p : Mongo.hasId (id p) p = true.
Proof. by apply hasId_true. Qed.

Lemma find_hasId pid c d :
  List.find (Mongo.hasId pid) c = Some d → id d = pid ∧ d ∈ c.
Proof.
  intros H. apply List.find_some in H as [Hin Hid].
  split; [by apply hasId_true | by apply list_elem_of_In].
Qed.

Lemma find_hasId_None pid c :
  List.find (Mongo.hasId pid) c = None → Mongo.countId pid c = 0.
Proof.
  unfold Mongo.countId. induction c as [|d c IH]; simpl; [done|].
  destruct (Mongo.hasId pid d); [done | auto].
Qed.

Lemma existsb_hasId_find pid c :
  existsb (Mongo.hasId pid) c = false ↔ List.find (Mongo.hasId pid) c = None.
Proof.
  induction c as [|d c IH]; simpl; [done|].
  destruct (Mongo.hasId pid d); simpl; [split; discriminate | done].
Qed.

Lemma countId_app pid c1 c2 :
  Mongo.countId pid (c1 ++ c2) = Mongo.countId pid c1 + Mongo.countId pid c2.
Proof. unfold Mongo.countId. by rewrite List.filter_app, length_app. Qed.

(** Under the uniqueness constraint an id occurs at most once. *)
Lemma uniqueIds_count pid c : Mongo.uniqueIds c → Mongo.countId pid c ≤ 1.
Proof.
  unfold Mongo.uniqueIds, Mongo.countId.
  induction c as [|d c IH]; simpl; [lia|].
  intros [Hnotin Hnd]%NoDup_cons. specialize (IH Hnd).
  destruct (Mongo.hasId pid d) eqn:Hd; simpl; [|lia].
  apply hasId_true in Hd.
  enough (List.filter (Mongo.hasId pid) c = []) as -> by (simpl; lia).
  clear IH Hnd. induction c as [|d' c IH]; simpl; [done|].
  destruct (Mongo.hasId pid d') eqn:Hd'.
  - apply hasId_true in Hd'. exfalso. apply Hnotin.
    rewrite fmap_cons. apply elem_of_cons. left. congruence.
  - apply IH. intros Hin. apply Hnotin. rewrite fmap_cons.
    apply elem_of_cons. by right.
Qed.

(** An update that writes a document with the same id keeps every count. *)
Lemma updateFirst_countId filter upd c d' c' pid :
  (∀ d, filter d = true → id (upd d) = id d) →
  Mongo.updateFirst filter upd c = Some (d', c') →
  Mongo.countId pid c' = Mongo.countId pid c ∧ length c' = length c.
Proof.
  intros Hupd. unfold Mongo.countId. revert d' c'.
  induction c as [|d c IH]; intros d' c'; simpl; [done|].
  destruct (filter d) eqn:Hd.
  - intros [= <- <-]. simpl. unfold Mongo.hasId. rewrite (Hupd _ Hd).
    by destruct (String.eqb (id d) pid).
  - destruct (Mongo.updateFirst filter upd c) as [[e c'']|]; [|done].
    intros [= <- <-]. destruct (IH _ _ eq_refl) as [IH1 IH2]. simpl.
    destruct (Mongo.hasId pid d); simpl; lia.
Qed.

(** Where [findOne] finds a document, the update reaches the same one. *)
Lemma updateFirst_find filter upd c d :
  List.find filter c = Some d →
  ∃ c', Mongo.updateFirst filter upd c = Some (upd d, c') ∧
        (filter (upd d) = true → List.find filter c' = Some (upd d)) ∧
        (upd d = d → c' = c).
Proof.
  induction c as [|x c IH]; simpl; [done|].
  destruct (filter x) eqn:Hx.
  - intros [= ->]. eexists. split; [done|]. split.
    + intros H. simpl. by rewrite H.
    + by intros ->.
  - intros Hf. destruct (IH Hf) as (c' & -> & H1 & H2).
    eexists. split; [done|]. split.
    + intros H. simpl. rewrite Hx. auto.
    + intros H. by rewrite (H2 H).
Qed.

Lemma find_app_None {A} (f : A → bool) (l : list A) (x : A) :
  List.find f l = None → f x = true → List.find f (l ++ [x]) = Some x.
Proof.
  induction l as [|y l IH]; simpl; [by intros _ ->|].
  destruct (f y); [done | auto].
Qed.

(** Every document carrying the id of a uniquely indexed collection is the
    one [findOne] returns. *)
Lemma countId_one_find pid c d :
  Mongo.countId pid c ≤ 1 → List.find (Mongo.hasId pid) c = Some d →
  ∀ d', d' ∈ c → id d' = pid → d' = d.
Proof.
  unfold Mongo.countId. induction c as [|x c IH]; simpl; [done|].
  destruct (Mongo.hasId pid x) eqn:Hx; simpl.
  - intros Hle [= ->] d' Hin Hid.
    apply elem_of_cons in Hin as [->|Hin]; [done|].
    exfalso. apply list_elem_of_In in Hin.
    assert (In d' (List.filter (Mongo.hasId pid) c)) as Hf.
    { apply List.filter_In. split; [done | by apply hasId_true]. }
    destruct (List.filter (Mongo.hasId pid) c); simpl in *; [done | lia].
  - intros Hle Hf d' Hin Hid.
    apply elem_of_cons in Hin as [->|Hin]; [|by eapply IH].
    apply hasId_true in Hid. congruence.
Qed.

End MongoFacts.

(** ** [saveToDatabase] *)

Section SaveFacts.

Implicit Types (c : Mongo.Collection) (p : Presentation) (f : DbFaults).

(** A save that returns has stored the payload itself, reachable by its
    id; the id is carried by one document if it was absent before, and by
    as many as before otherwise. *)
Lemma saveToDatabase_Ok f p c saved c' :
  saveToDatabase f p c = Ok (saved, c') →
  saved = p ∧
  List.find (Mongo.hasId (id p)) c' = Some p ∧
  Mongo.countId (id p) c' = Nat.max 1 (Mongo.countId (id p) c).
Proof.
  unfold saveToDatabase, Mongo.findOne, Mongo.findOneAndUpdate, Mongo.insert.
  destruct (saveFind f); [done|].
  destruct (List.find (Mongo.hasId (id p)) c) as [d|] eqn:Hfind.
  - destruct (saveWrite f); [done|].
    destruct (updateFirst_find _ (λ _, p) _ _ Hfind) as (c1 & Hup & Hf1 & _).
    rewrite Hup. intros [= <- <-]. split; [done|]. split.
    + apply Hf1, hasId_self.
    + destruct (updateFirst_countId _ _ _ _ _ (id p)
                  (λ d Hd, eq_sym (proj1 (hasId_true _ _) Hd)) Hup) as [-> _].
      apply find_hasId in Hfind as [Hid Hin].
      assert (0 < Mongo.countId (id p) c); [|lia].
      unfold Mongo.countId.
      assert (In d (List.filter (Mongo.hasId (id p)) c)) as Hf.
      { apply List.filter_In. split; [by apply list_elem_of_In|].
        by apply hasId_true. }
      destruct (List.filter (Mongo.hasId (id p)) c); simpl in *; [done | lia].
  - destruct (saveWrite f); [done|].
    destruct (negb (Mongo.validate p)); [done|].
    destruct (existsb (Mongo.hasId (id p)) c); [done|].
    intros [= <- <-]. split; [done|]. split.
    + apply find_app_None; [done | apply hasId_self].
    + rewrite countId_app, (find_hasId_None _ _ Hfind).
      unfold Mongo.countId. simpl. by rewrite hasId_self.
Qed.

(** Without faults, a valid payload is always saved. *)
Lemma saveToDatabase_total p c :
  Mongo.validate p = true → ∃ c', saveToDatabase noDbFaults p c = Ok (p, c').
Proof.
  intros Hv.
  unfold saveToDatabase, Mongo.findOne, Mongo.findOneAndUpdate, Mongo.insert.
  simpl. destruct (List.find (Mongo.hasId (id p)) c) as [d|] eqn:Hfind.
  - destruct (updateFirst_find _ (λ _, p) _ _ Hfind) as (c1 & -> & _). eauto.
  - rewrite Hv. simpl.
    rewrite (proj2 (existsb_hasId_find _ _) Hfind). eauto.
Qed.

(** Saving a payload the collection already holds takes the update branch
    and changes nothing. *)
Lemma saveToDatabase_again f p c saved c' :
  List.find (Mongo.hasId (id p)) c = Some p →
  saveToDatabase f p c = Ok (saved, c') →
  saved = p ∧ c' = c.
Proof.
  intros Hfind.
  unfold saveToDatabase, Mongo.findOne, Mongo.findOneAndUpdate.
  destruct (saveFind f); [done|]. rewrite Hfind.
  destruct (saveWrite f); [done|].
  destruct (updateFirst_find _ (λ _, p) _ _ Hfind) as (c1 & -> & _ & Hsame).
  rewrite (Hsame eq_refl). by intros [= <- <-].
Qed.

End SaveFacts.

(** C9. On a collection that respects the unique index, two calls of
    [saveToDatabase] with the same payload that both return leave the
    collection as the first call left it (the second call updates, it does
    not insert), with exactly one document carrying the id, and every
    document carrying it is the payload, which is also what both calls
    return. Both calls do return when the database does not fail and the
    payload passes schema validation. *)
Theorem saveToDatabase_idempotent (p : Presentation) (c : Mongo.Collection) :
  Mongo.uniqueIds c →
  (∀ f1 f2 saved1 c1 saved2 c2,
     saveToDatabase f1 p c = Ok (saved1, c1) →
     saveToDatabase f2 p c1 = Ok (saved2, c2) →
     saved1 = p ∧ saved2 = p ∧
     c2 = c1 ∧
     Mongo.countId (id p) c2 = 1 ∧
     (∀ d, d ∈ c2 → id d = id p → d = p)) ∧
  (Mongo.validate p = true →
   ∃ c1, saveToDatabase noDbFaults p c = Ok (p, c1) ∧
         saveToDatabase noDbFaults p c1 = Ok (p, c1)).
Proof.
  intros Huniq.
  pose proof (uniqueIds_count (id p) c Huniq) as Hle.
  assert (∀ f1 f2 saved1 c1 saved2 c2,
     saveToDatabase f1 p c = Ok (saved1, c1) →
     saveToDatabase f2 p c1 = Ok (saved2, c2) →
     saved1 = p ∧ saved2 = p ∧ c2 = c1 ∧
     Mongo.countId (id p) c2 = 1 ∧
     (∀ d, d ∈ c2 → id d = id p → d = p)) as Hboth.
  { intros f1 f2 saved1 c1 saved2 c2 H1 H2.
    destruct (saveToDatabase_Ok _ _ _ _ _ H1) as (-> & Hfind & Hcount).
    destruct (saveToDatabase_again _ _ _ _ _ Hfind H2) as (-> & ->).
    split; [done|]. split; [done|]. split; [done|]. split; [lia|].
    intros d Hin Hid.
    apply (countId_one_find (id p) c1 p); [lia | done | done | done]. }
  split; [exact Hboth|].
  intros Hvalid.
  destruct (saveToDatabase_total p c Hvalid) as [c1 H1].
  destruct (saveToDatabase_Ok _ _ _ _ _ H1) as (_ & Hfind & _).
  assert (Mongo.validate p = true) as Hv by done.
  destruct (saveToDatabase_total p c1 Hv) as [c2 H2].
  destruct (saveToDatabase_again _ _ _ _ _ Hfind H2) as (_ & ->).
  by exists c1.
Qed.

Lemma saveToDatabase_idempotent_witness :
  (∀ f1 f2 saved1 c1 saved2 c2,
     saveToDatabase f1 storedDeck [] = Ok (saved1, c1) →
     saveToDatabase f2 storedDeck c1 = Ok (saved2, c2) →
     saved1 = storedDeck ∧ saved2 = storedDeck ∧
     c2 = c1 ∧
     Mongo.countId "p-1" c2 = 1 ∧
     (∀ d, d ∈ c2 → id d = "p-1" → d = storedDeck)) ∧
  ∃ c1, saveToDatabase noDbFaults storedDeck [] = Ok (storedDeck, c1) ∧
        saveToDatabase noDbFaults storedDeck c1 = Ok (storedDeck, c1).
Proof.
  destruct (saveToDatabase_idempotent storedDeck []) as [H1 H2].
  - apply (bool_decide_unpack _). vm_compute. reflexivity.
  - split; [exact H1|]. apply H2. reflexivity.
Defined.

(** ** Strings and paths *)

Section Paths.

Implicit Types (a b t : string) (n m : nat).

Lemma append_assoc a b t : (a +:+ b) +:+ t = a +:+ (b +:+ t).
Proof.
  induction a as [|x a IH]; [done|].
  change (String x ((a +:+ b) +:+ t) = String x (a +:+ (b +:+ t))).
  by rewrite IH.
Qed.

Lemma length_append a b :
  String.length (a +:+ b) = String.length a + String.length b.
Proof.
  induction a as [|x a IH]; [done|].
  change (S (String.length (a +:+ b)) = S (String.length a) + String.length b).
  by rewrite IH.
Qed.

Lemma append_inj_r t a b : a +:+ t = b +:+ t → a = b.
Proof.
  revert b. induction a as [|x a IH]; intros [|y b] H.
  - done.
  - apply (f_equal String.length) in H.
    rewrite !length_append in H. simpl in H. lia.
  - apply (f_equal String.length) in H.
    rewrite !length_append in H. simpl in H. lia.
  - change (String x (a +:+ t) = String y (b +:+ t)) in H.
    injection H as -> H. by rewrite (IH _ H).
Qed.

Lemma slideFileName_inj n m : slideFileName n = slideFileName m → n = m.
Proof.
  unfold slideFileName, JS.num. intros H.
  apply String.app_inj, append_inj_r in H. by apply pretty_nat_inj in H.
Qed.

Lemma join_inj dir a b : join dir a = join dir b → a = b.
Proof. unfold join. intros H. by do 2 apply String.app_inj in H. Qed.

(** The file behind a slide URL is the file the handler wrote. *)
Lemma servedFile_fileUrl pid name :
  servedFile (fileUrl pid name) = join (outputDir pid) name.
Proof.
  unfold servedFile, fileUrl, join, outputDir. by rewrite !append_assoc.
Qed.

Lemma servedFile_slideUrl pid n :
  servedFile (slideUrl pid n) = join (outputDir pid) (slideFileName n).
Proof. apply servedFile_fileUrl. Qed.

End Paths.

(** ** The slide loops *)

Section Loops.

Context {X : Type}.
Implicit Types (step : SlideAcc → X → SlideAcc) (l : list X).

(** The same for iterations whose URL, text and write depend on the
    element only. *)
Lemma foldl_uniform step (U T : X → string)
    (W : X → gmap string FileContent → gmap string FileContent) :
  (∀ us ts fs x, step (us, ts, fs) x = (us ++ [U x], ts ++ [T x], W x fs)) →
  ∀ l us ts fs,
    foldl step (us, ts, fs) l
    = (us ++ (U <$> l), ts ++ (T <$> l), foldl (λ fs x, W x fs) fs l).
Proof.
  intros Hstep l. induction l as [|x l IH]; intros us ts fs; simpl.
  - by rewrite !app_nil_r.
  - rewrite Hstep, IH, <- !app_assoc. done.
Qed.

Implicit Types (W : X → gmap string FileContent → gmap string FileContent)
               (pth : X → string).

(** Writes that each touch one path leave every other path alone. *)
Lemma foldl_writes_other W pth l fs q :
  (∀ x fs q, q ≠ pth x → W x fs !! q = fs !! q) →
  (∀ x, x ∈ l → q ≠ pth x) →
  foldl (λ fs x, W x fs) fs l !! q = fs !! q.
Proof.
  intros HW. revert fs. induction l as [|x l IH]; intros fs Hq; simpl; [done|].
  rewrite IH.
  - apply HW, Hq. by left.
  - intros y Hy. apply Hq. by right.
Qed.

(** With pairwise distinct paths, what an iteration wrote is still there at
    the end. *)
Lemma foldl_writes_lookup W pth l fs x c :
  (∀ x fs q, q ≠ pth x → W x fs !! q = fs !! q) →
  NoDup (pth <$> l) → x ∈ l →
  (∀ fs, W x fs !! pth x = Some c) →
  foldl (λ fs x, W x fs) fs l !! pth x = Some c.
Proof.
  intros HW Hnd Hin Hc. revert fs Hnd Hin.
  induction l as [|y l IH]; intros fs Hnd Hin; simpl; [by apply elem_of_nil in Hin|].
  rewrite fmap_cons in Hnd. apply NoDup_cons in Hnd as [Hy Hnd].
  apply elem_of_cons in Hin as [->|Hin]; [|by apply IH].
  rewrite (foldl_writes_other W pth); [done | done |].
  intros z Hz Heq. apply Hy. rewrite Heq. by apply list_elem_of_fmap_2.
Qed.

(** A property of the content of one path that every write preserves holds
    at the end of the loop. *)
Lemma foldl_writes_inv W (I : option FileContent → Prop) l fs q :
  (∀ x fs, I (fs !! q) → I (W x fs !! q)) →
  I (fs !! q) → I (foldl (λ fs x, W x fs) fs l !! q).
Proof.
  intros HW. revert fs. induction l as [|x l IH]; intros fs HI; simpl; auto.
Qed.

End Loops.

(** ** The iterations *)

Section Steps.

Variable e : ConvertEnv.
Implicit Types (pid name : string) (us ts : list string)
               (fs : gmap string FileContent) (i : nat).

Lemma placeholderStep_eq pid name us ts fs i :
  placeholderStep e pid name (us, ts, fs) i
  = (us ++ [slideUrl pid (i + 1)],
     ts ++ ["Slide " +:+ JS.num (i + 1) +:+ " (Placeholder)"],
     genericWrite e pid name i fs).
Proof.
  unfold placeholderStep, genericWrite.
  by destruct (createPlaceholderImage _ _ _ _ _).
Qed.

Lemma fallbackStep_eq pid name us ts fs i :
  fallbackStep e pid name (us, ts, fs) i
  = (us ++ [slideUrl pid (i + 1)],
     ts ++ ["Slide " +:+ JS.num (i + 1) +:+ " (Placeholder)"],
     distinctWrite e pid name i fs).
Proof.
  unfold fallbackStep, distinctWrite.
  by destruct (createDistinctPlaceholder _ _ _ _ _).
Qed.

Lemma paddingStep_eq pid name us ts fs i :
  paddingStep e pid name (us, ts, fs) i
  = (us ++ [slideUrl pid (i + 1)],
     ts ++ ["Slide " +:+ JS.num (i + 1) +:+ " (Placeholder)"],
     distinctWrite e pid name i fs).
Proof.
  unfold paddingStep, distinctWrite, slideUrl.
  by destruct (createDistinctPlaceholder _ _ _ _ _).
Qed.

Lemma pageStep_eq pid name us ts fs i :
  pageStep e pid name (us, ts, fs) i
  = (us ++ [slideUrl pid (i + 1)],
     ts ++ [pageSlideText (page e (i + 1)) (i + 1)],
     pageWrite e pid name i fs).
Proof.
  unfold pageStep, pageWrite, pageSlideText, distinctWrite, pageTitle.
  destruct (page e (i + 1)) as [[t|m]| |m]; try done;
    by destruct (createDistinctPlaceholder _ _ _ _ _).
Qed.

(** *** Their writes *)

Lemma genericWrite_other pid name i fs q :
  q ≠ join (outputDir pid) (slideFileName (i + 1)) →
  genericWrite e pid name i fs !! q = fs !! q.
Proof.
  intros Hq. unfold genericWrite, createPlaceholderImage, writeFileSync.
  destruct (writeFault e _); simpl; [done|]. by rewrite lookup_insert_ne.
Qed.

Lemma genericWrite_lookup pid name i fs :
  writeFault e (join (outputDir pid) (slideFileName (i + 1))) = None →
  genericWrite e pid name i fs !! join (outputDir pid) (slideFileName (i + 1))
  = Some (Text (placeholderText (i + 1) name)).
Proof.
  intros Hw. unfold genericWrite, createPlaceholderImage, writeFileSync.
  rewrite Hw. simpl. by rewrite lookup_insert_eq.
Qed.

Lemma distinctWrite_other pid name i fs q :
  q ≠ join (outputDir pid) (slideFileName (i + 1)) →
  distinctWrite e pid name i fs !! q = fs !! q.
Proof.
  intros Hq. unfold distinctWrite, createDistinctPlaceholder, writeFileSync.
  destruct (writeFault e _); simpl; [done|]. by rewrite lookup_insert_ne.
Qed.

Lemma distinctWrite_lookup pid name i fs :
  writeFault e (join (outputDir pid) (slideFileName (i + 1))) = None →
  distinctWrite e pid name i fs !! join (outputDir pid) (slideFileName (i + 1))
  = Some (Text (distinctPlaceholderText (i + 1) name)).
Proof.
  intros Hw. unfold distinctWrite, createDistinctPlaceholder, writeFileSync.
  rewrite Hw. simpl. by rewrite lookup_insert_eq.
Qed.

Lemma pageWrite_other pid name i fs q :
  q ≠ join (outputDir pid) (slideFileName (i + 1)) →
  pageWrite e pid name i fs !! q = fs !! q.
Proof.
  intros Hq. unfold pageWrite.
  destruct (page e (i + 1)); try by apply distinctWrite_other.
  by rewrite lookup_insert_ne.
Qed.

(** A placeholder generator never leaves an image behind: whatever a path
    held that was not an image is still not one. *)
Lemma genericWrite_no_image pid name i fs q :
  fs !! q ≠ Some Image → genericWrite e pid name i fs !! q ≠ Some Image.
Proof.
  intros Hq. unfold genericWrite, createPlaceholderImage, writeFileSync.
  destruct (writeFault e _); simpl; [done|].
  rewrite lookup_insert. by case_decide.
Qed.

Lemma distinctWrite_no_image pid name i fs q :
  fs !! q ≠ Some Image → distinctWrite e pid name i fs !! q ≠ Some Image.
Proof.
  intros Hq. unfold distinctWrite, createDistinctPlaceholder, writeFileSync.
  destruct (writeFault e _); simpl; [done|].
  rewrite lookup_insert. by case_decide.
Qed.

End Steps.

(** The slide paths of a loop over consecutive indices are pairwise
    distinct. *)
Lemma slidePaths_NoDup (pid : string) (a n : nat) :
  NoDup ((λ i, join (outputDir pid) (slideFileName (i + 1))) <$> seq a n).
Proof.
  apply NoDup_fmap_2; [|apply NoDup_seq].
  intros i j H. apply join_inj, slideFileName_inj in H. lia.
Qed.

Lemma fmap_succ_seq {A} (f : nat → A) (a n : nat) :
  (λ i, f (i + 1)) <$> seq a n = f <$> seq (a + 1) n.
Proof.
  revert a. induction n as [|n IH]; intros a; simpl; [done|].
  f_equal. rewrite IH. by replace (S a + 1) with (S (a + 1)) by lia.
Qed.

(** ** Plain objects *)

Section Objects.

Context {V : Type}.
Implicit Types (o : gmap string V) (key : string).

Lemma get_Own o key v : JS.get o key = JS.Own v ↔ o !! key = Some v.
Proof.
  unfold JS.get. destruct (o !! key); [|by destruct (JS.inherited key)].
  split; by intros [= ->].
Qed.

Lemma get_Inherited o key :
  JS.get o key = JS.Inherited ↔ o !! key = None ∧ JS.inherited key = true.
Proof.
  unfold JS.get. destruct (o !! key); [by split; [|intros [? _]]|].
  destruct (JS.inherited key); by split; [|intros [_ ?]].
Qed.

Lemma get_Undefined o key :
  JS.get o key = JS.Undefined ↔ o !! key = None ∧ JS.inherited key = false.
Proof.
  unfold JS.get. destruct (o !! key); [by split; [|intros [? _]]|].
  destruct (JS.inherited key); by split; [|intros [_ ?]].
Qed.

(** Under a key that [Object.prototype] does not have, the object is the
    finite map of its own properties. *)
Lemma get_ordinary o key :
  JS.inherited key = false →
  JS.get o key = match o !! key with
                 | Some v => JS.Own v
                 | None => JS.Undefined
                 end.
Proof. intros H. unfold JS.get. by rewrite H. Qed.

End Objects.

(** A property of the state that every callback keeps holds for what
    [forEach] leaves, thrown or not. *)
Lemma forEach_inv {S X : Type} (I : S → Prop) (step : S → X → S * Fault)
    (l : list X) (s : S) :
  (∀ s x, I s → I (step s x).1) → I s → I (JS.forEach step s l).1.
Proof.
  intros Hstep. revert s. induction l as [|x l IH]; intros s Hs; simpl; [done|].
  pose proof (Hstep s x Hs) as Hx.
  destruct (step s x) as [s' [msg|]]; [done|]. by apply IH.
Qed.

(** Callbacks that do not throw make a fold. *)
Lemma forEach_foldl {S X : Type} (step : S → X → S * Fault) (pure : S → X → S)
    (l : list X) (s : S) :
  (∀ s x, x ∈ l → step s x = (pure s x, None)) →
  JS.forEach step s l = (foldl pure s l, None).
Proof.
  revert s. induction l as [|x l IH]; intros s Hstep; simpl; [done|].
  rewrite Hstep by (by left). apply IH. intros s' y Hy. apply Hstep. by right.
Qed.


Lemma pushTopic_ordinary pid (index : gmap string (list string)) topic :
  JS.inherited (JS.toLowerCase topic) = false →
  (pushTopic pid index topic).2 = None.
Proof.
  intros H. unfold pushTopic. rewrite (get_ordinary _ _ H).
  by destruct (index !! _).
Qed.

Lemma indexTopics_ordinary pid topics (index : gmap string (list string)) :
  ordinaryTopics topics → (indexTopics pid topics index).2 = None.
Proof.
  unfold indexTopics, ordinaryTopics. revert index.
  induction topics as [|t ts IH]; intros index H; simpl; [done|].
  apply Forall_cons in H as [Ht Hts].
  pose proof (pushTopic_ordinary pid index t Ht) as Hpush.
  destruct (pushTopic pid index t) as [index' [msg|]]; [done|]. by apply IH.
Qed.

(** ** The save-verify-cache block *)

Section Persist.

Implicit Types (f : DbFaults) (p : Presentation) (w : Server) (ok : Body).

(** The block follows the protocol, and touches neither the disk nor the
    view history. *)
Lemma saveVerifyCache_Persisted f p ok w :
  let '(r, w') := saveVerifyCache f p ok w in
  Persisted f p w r w' ∧
  files w' = files w ∧
  userPresentationHistory w' = userPresentationHistory w ∧
  (statusCode r = 200 → r = json ok).
Proof.
  unfold saveVerifyCache.
  destruct (saveToDatabase f p (db w)) as [[saved c]|msg] eqn:Hsave.
  - destruct (verifyDatabaseSave f (id p) c) eqn:Hverify; simpl.
    + destruct (indexTopics (id p) (topics p) (presentationsByTopic w))
        as [index [msg|]] eqn:Hindex; simpl.
      * split; [|done]. by eapply IndexFailed.
      * split; [|done]. by eapply Committed.
    + split; [|done]. by eapply VerifyFailed.
  - split; [|done]. by eapply SaveFailed.
Qed.

(** On a 200 the record is in the collection and in the cache, and every
    topic was indexed. *)
Lemma saveVerifyCache_200 f p ok w :
  let '(r, w') := saveVerifyCache f p ok w in
  statusCode r = 200 →
  r = json ok ∧
  List.find (Mongo.hasId (id p)) (db w') = Some p ∧
  presentations w' = <[id p := p]> (presentations w) ∧
  indexTopics (id p) (topics p) (presentationsByTopic w)
  = (presentationsByTopic w', None) ∧
  files w' = files w.
Proof.
  unfold saveVerifyCache.
  destruct (saveToDatabase f p (db w)) as [[saved c]|msg] eqn:Hsave; [|done].
  apply saveToDatabase_Ok in Hsave as (-> & Hfind & _).
  destruct (verifyDatabaseSave f (id p) c); [|done]. simpl.
  by destruct (indexTopics (id p) (topics p) (presentationsByTopic w))
    as [index [msg|]].
Qed.

(** Without database faults a valid record whose topics are ordinary is
    committed. *)
Lemma saveVerifyCache_succeeds p ok w :
  Mongo.validate p = true →
  ordinaryTopics (topics p) →
  (saveVerifyCache noDbFaults p ok w).1 = json ok.
Proof.
  intros Hv Htopics. unfold saveVerifyCache.
  destruct (saveToDatabase_total p (db w) Hv) as [c Hsave]. rewrite Hsave.
  apply saveToDatabase_Ok in Hsave as (_ & Hfind & _).
  unfold verifyDatabaseSave, Mongo.findOne. simpl. rewrite Hfind.
  pose proof (indexTopics_ordinary (id p) (topics p) (presentationsByTopic w) Htopics)
    as Hindex.
  destruct (indexTopics _ _ _) as [index thrown]. simpl in Hindex. by subst thrown.
Qed.

End Persist.

(** ** The routes of POST /convert *)

Section Routes.

Variable e : ConvertEnv.
Implicit Types (file : Multer.File) (p : Presentation) (w : Server).

Lemma rendererMissing_route file p w :
  rendererMissing e file p w
  = saveVerifyCache (dbFaults e) (missingRecord p)
      (convertBody (missingRecord p) (Some "placeholders_created")
         (Some "LibreOffice is not available. Generated placeholder slides instead."))
      (setFiles (foldl (λ fs i, genericWrite e (id p) (Multer.originalname file) i fs)
                       (files w) (seq 0 placeholderCount)) w).
Proof.
  unfold rendererMissing.
  rewrite (foldl_uniform _ _ _ _ (placeholderStep_eq e (id p) (Multer.originalname file))).
  rewrite !app_nil_l, !fmap_succ_seq. done.
Qed.

Lemma createFallbackPlaceholders_route file p w :
  createFallbackPlaceholders e file p w
  = saveVerifyCache (dbFaults e) (fallbackRecord p)
      (convertBody (fallbackRecord p) (Some "fallback_placeholders")
         (Some "Conversion failed. Generated distinct placeholder slides instead."))
      (setFiles (foldl (λ fs i, distinctWrite e (id p) (Multer.originalname file) i fs)
                       (files w) (seq 0 estimatedSlideCount)) w).
Proof.
  unfold createFallbackPlaceholders.
  rewrite (foldl_uniform _ _ _ _ (fallbackStep_eq e (id p) (Multer.originalname file))).
  rewrite !app_nil_l, !fmap_succ_seq. done.
Qed.

Lemma extractPages_route file p pageCount w :
  extractPages e file p pageCount w
  = saveVerifyCache (dbFaults e) (pagesRecord e p pageCount)
      (convertBody (pagesRecord e p pageCount) None None)
      (setFiles (foldl (λ fs i, pageWrite e (id p) (Multer.originalname file) i fs)
                       (files w) (seq 0 pageCount)) w).
Proof.
  unfold extractPages.
  rewrite (foldl_uniform _ _ _ _ (pageStep_eq e (id p) (Multer.originalname file))).
  rewrite !app_nil_l.
  rewrite (fmap_succ_seq (slideUrl (id p))).
  rewrite (fmap_succ_seq (λ n, pageSlideText (page e n) n)). done.
Qed.

(** Every image of the listing is on disk when the renaming starts. *)
Lemma rendererImages_present dir (imageFiles : list string)
    (fs : gmap string FileContent) (f : string) :
  f ∈ imageFiles → is_Some (rendererImages dir imageFiles fs !! join dir f).
Proof.
  unfold rendererImages. revert fs.
  induction imageFiles as [|g l IH]; intros fs Hin; [by apply elem_of_nil in Hin|].
  simpl. apply elem_of_cons in Hin as [->|Hin]; [|by apply IH].
  apply (foldl_writes_inv (λ g fs, <[join dir g := Image]> fs) is_Some).
  - intros x fs' Hs. rewrite lookup_insert. by case_decide.
  - by rewrite lookup_insert_eq.
Qed.

(** The renaming loop, from any index on. With a duplicate-free listing the
    files still to be renamed stay on disk, so that only a failure of
    [fs.renameSync] leaves a URL that is not canonical. *)
Lemma renameLoop pid (imageFiles rest : list string) (k : nat)
    (us ts : list string) (fs : gmap string FileContent) :
  (NoDup imageFiles →
   NoDup rest ∧ ∀ f, f ∈ rest → is_Some (fs !! join (outputDir pid) f)) →
  ∃ us' fs',
    foldl (renameStep e pid) (us, ts, fs) (zip (seq k (length rest)) rest)
    = (us ++ us', ts ++ (plainLabel <$> seq (k + 1) (length rest)), fs') ∧
    Forall2 (renamedUrl e pid imageFiles) (zip (seq k (length rest)) rest) us'.
Proof.
  revert k us ts fs. induction rest as [|f rest IH]; intros k us ts fs Hinv.
  { exists [], fs. simpl. rewrite !app_nil_r. by split. }
  simpl. unfold renameSync.
  assert (∀ fs1 u,
    (NoDup imageFiles →
     NoDup rest ∧ ∀ g, g ∈ rest → is_Some (fs1 !! join (outputDir pid) g)) →
    renamedUrl e pid imageFiles (k, f) u →
    ∃ us' fs',
      foldl (renameStep e pid) (us ++ [u], ts ++ [plainLabel (k + 1)], fs1)
            (zip (seq (S k) (length rest)) rest)
      = (us ++ us', ts ++ plainLabel (k + 1) :: (plainLabel <$> seq (S (k + 1)) (length rest)), fs')
      ∧ Forall2 (renamedUrl e pid imageFiles)
          ((k, f) :: zip (seq (S k) (length rest)) rest) us') as Hnext.
  { intros fs1 u Hinv1 Hu.
    destruct (IH (S k) (us ++ [u]) (ts ++ [plainLabel (k + 1)]) fs1 Hinv1)
      as (us' & fs' & Heq & Hall).
    exists (u :: us'), fs'. rewrite Heq, <- !app_assoc. simpl.
    split; [done | by constructor]. }
  destruct (renameFault e f) as [msg|] eqn:Hfault.
  - apply Hnext.
    + intros Hnd. destruct (Hinv Hnd) as [Hnd' Hpres].
      apply NoDup_cons in Hnd' as [_ Hnd']. split; [done|].
      intros g Hg. apply Hpres. by right.
    + right. simpl. split; [done|]. intros _. by rewrite Hfault.
  - destruct (fs !! join (outputDir pid) f) as [content|] eqn:Hold.
    + apply Hnext.
      * intros Hnd. destruct (Hinv Hnd) as [Hnd' Hpres].
        apply NoDup_cons in Hnd' as [Hf Hnd']. split; [done|].
        intros g Hg. rewrite lookup_insert. case_decide; [done|].
        rewrite lookup_delete_ne.
        -- apply Hpres. by right.
        -- intros Heq. apply join_inj in Heq. by subst.
      * by left.
    + apply Hnext.
      * intros Hnd. destruct (Hinv Hnd) as [Hnd' Hpres].
        apply NoDup_cons in Hnd' as [_ Hnd']. split; [done|].
        intros g Hg. apply Hpres. by right.
      * right. simpl. split; [done|]. intros Hnd.
        destruct (Hinv Hnd) as [_ Hpres].
        destruct (Hpres f) as [c Hc]; [by left|]. congruence.
Qed.

Lemma renameImages_route file p (imageFiles : list string) w :
  ∃ us urls texts fs1 fs,
    Forall2 (renamedUrl e (id p) imageFiles)
            (zip (seq 0 (length imageFiles)) imageFiles) us ∧
    (if length imageFiles =? 1
     then urls = us ++ (slideUrl (id p) <$> seq 2 (estimatedSlideCount - 1))
          ∧ texts = (plainLabel <$> seq 1 (length imageFiles))
                    ++ (placeholderLabel <$> seq 2 (estimatedSlideCount - 1))
          ∧ fs = foldl (λ fs i, distinctWrite e (id p) (Multer.originalname file) i fs)
                       fs1 (seq 1 (estimatedSlideCount - 1))
     else urls = us
          ∧ texts = plainLabel <$> seq 1 (length imageFiles)
          ∧ fs = fs1) ∧
    renameImages e file p imageFiles w
    = saveVerifyCache (dbFaults e) (setSlideData p urls (length urls) texts false)
        (convertBody (setSlideData p urls (length urls) texts false) None None)
        (setFiles fs w).
Proof.
  unfold renameImages.
  destruct (renameLoop (id p) imageFiles imageFiles 0 [] []
              (rendererImages (outputDir (id p)) imageFiles (files w)))
    as (us & fs1 & -> & Hall).
  { intros Hnd. split; [done|]. intros f Hf. by apply rendererImages_present. }
  rewrite !app_nil_l. simpl (0 + 1).
  destruct (length imageFiles =? 1) eqn:Hone.
  - rewrite (foldl_uniform _ _ _ _
               (paddingStep_eq e (id p) (Multer.originalname file))).
    rewrite !fmap_succ_seq. simpl (1 + 1).
    eexists us, _, _, fs1, _. split; [exact Hall|]. cbv beta iota.
    split; [split; [reflexivity | split; reflexivity] | reflexivity].
  - eexists us, _, _, fs1, _. split; [exact Hall|]. cbv beta iota.
    split; [split; [reflexivity | split; reflexivity] | reflexivity].
Qed.

(** Once its output directory is made, every accepted upload takes one of
    the four routes and ends in the save-verify-cache block. *)
Lemma convertFile_route (req : ConvertRequest) file w :
  mkdirOutput e = None →
  ∃ p' ok fs,
    Route e (Multer.originalname file) (newPresentation e req file) (files w)
          p' ok fs ∧
    convertFile e req file w
    = saveVerifyCache (dbFaults e) p' ok (setFiles fs w).
Proof.
  intros Hmkdir. set (p := newPresentation e req file).
  assert (rendererAvailable e = true → pdfFailed e → jpgFailed e →
          ∃ p' ok fs, Route e (Multer.originalname file) p (files w) p' ok fs ∧
            createFallbackPlaceholders e file p w
            = saveVerifyCache (dbFaults e) p' ok (setFiles fs w)) as Hfallback.
  { intros Hav Hpdf Hjpg. eexists _, _, _. split; [by apply RouteFallback|].
    apply createFallbackPlaceholders_route. }
  assert (rendererAvailable e = true → pdfFailed e →
          ∃ p' ok fs, Route e (Multer.originalname file) p (files w) p' ok fs ∧
            fallbackToJpgConversion e file p w
            = saveVerifyCache (dbFaults e) p' ok (setFiles fs w)) as Hjpg.
  { intros Hav Hpdf. unfold fallbackToJpgConversion.
    destruct (jpgConvert e) eqn:Hexec.
    { apply Hfallback; [done..|]. intros l (? & _). congruence. }
    destruct (readdirJpg e) as [listing|] eqn:Hdir.
    2: { apply Hfallback; [done..|]. intros l (_ & l' & ? & _). congruence. }
    simpl.
    destruct (length (List.filter (λ f, JS.endsWith f ".jpg") listing) =? 0)
      eqn:Hlen.
    { apply Hfallback; [done..|]. intros l (_ & l' & Hl' & -> & Hne).
      apply Hne. replace l' with listing by congruence.
      apply Nat.eqb_eq in Hlen. by apply nil_length_inv. }
    destruct (renameImages_route file p
                (List.filter (λ f, JS.endsWith f ".jpg") listing) w)
      as (us & urls & texts & fs1 & fs & Hall & Hshape & ->).
    eexists _, _, _. split; [|done].
    eapply RouteExport; [done | done | | exact Hall | exact Hshape].
    split; [done|]. exists listing. split; [done|]. split; [done|].
    intros Hnil. by rewrite Hnil in Hlen. }
  assert (rendererAvailable e = true →
          ∃ p' ok fs, Route e (Multer.originalname file) p (files w) p' ok fs ∧
            convertViaPdf e file p w
            = saveVerifyCache (dbFaults e) p' ok (setFiles fs w)) as Hpdf.
  { intros Hav. unfold convertViaPdf.
    destruct (pdfConvert e) eqn:Hexec.
    { apply Hjpg; [done|]. intros n (? & _). congruence. }
    destruct (readdirPdf e) as [listing|] eqn:Hdir.
    2: { apply Hjpg; [done|]. intros n (_ & (l' & ? & _) & _). congruence. }
    simpl.
    destruct (length (List.filter (λ f, JS.endsWith f ".pdf") listing) =? 0)
      eqn:Hlen.
    { apply Hjpg; [done|]. intros n (_ & (l' & Hl' & Hne) & _).
      exfalso. apply Hne. replace l' with listing by congruence.
      apply Nat.eqb_eq in Hlen. by apply nil_length_inv. }
    destruct (pdfinfo e) as [[n|]|] eqn:Hinfo; simpl.
    2: { apply Hjpg; [done|]. intros n (_ & _ & ? & _). congruence. }
    2: { apply Hjpg; [done|]. intros n (_ & _ & ? & _). congruence. }
    destruct (0 <? n) eqn:Hpos.
    2: { apply Hjpg; [done|]. intros n' (_ & _ & Hn' & _).
         apply Nat.ltb_ge in Hpos. assert (n' = n) by congruence. lia. }
    destruct (mkdirTemp e) eqn:Hmk.
    { apply Hjpg; [done|]. intros n' (_ & _ & _ & ?). congruence. }
    eexists _, _, _. split; [|apply extractPages_route].
    apply RoutePages; [done | | by apply Nat.ltb_lt].
    split; [done|]. split; [|done]. exists listing. split; [done|].
    intros Hnil. by rewrite Hnil in Hlen. }
  assert (rendererAvailable e = false →
          ∃ p' ok fs, Route e (Multer.originalname file) p (files w) p' ok fs ∧
            rendererMissing e file p w
            = saveVerifyCache (dbFaults e) p' ok (setFiles fs w)) as Hmissing.
  { intros Hav. eexists _, _, _. split; [by apply RouteMissing|].
    apply rendererMissing_route. }
  unfold convertFile. fold p. rewrite Hmkdir. unfold rendererAvailable in *.
  destruct (checkLibreOfficeInstallation (whichFirst e)); simpl in *;
    [by apply Hpdf|].
  destruct (aptInstall e); [by apply Hmissing|].
  destruct (checkLibreOfficeInstallation (whichSecond e)); simpl;
    [by apply Hpdf | by apply Hmissing].
Qed.

End Routes.

(** ** POST /convert as a whole *)

(** A request is turned away by the middleware, answered 400 by the handler
    for want of a file, left unanswered when the output directory cannot
    be made, or takes a route into the save-verify-cache block. *)
Lemma postConvert_cases (e : ConvertEnv) (req : ConvertRequest) (w : Server) :
  (∃ msg, Multer.single (file req) = Throw msg ∧
          postConvert e req w = (errorHandler msg, w))
  ∨ (Multer.single (file req) = Ok None ∧
     postConvert e req w = (statusJson 400 (ErrorBody "No file uploaded"), w))
  ∨ (∃ upload msg,
       accepted req upload ∧ mkdirOutput e = Some msg ∧
       postConvert e req w = (unanswered msg, w))
  ∨ (∃ upload p' ok fs,
       accepted req upload ∧ mkdirOutput e = None ∧
       Route e (Multer.originalname upload) (newPresentation e req upload)
             (files w) p' ok fs ∧
       postConvert e req w = saveVerifyCache (dbFaults e) p' ok (setFiles fs w)).
Proof.
  unfold postConvert, accepted.
  destruct (Multer.single (file req)) as [[upload|]|msg] eqn:Hup.
  - right. right. destruct (mkdirOutput e) as [msg|] eqn:Hmkdir.
    + left. exists upload, msg. unfold convertFile. by rewrite Hmkdir.
    + right.
      destruct (convertFile_route e req upload w Hmkdir)
        as (p' & ok & fs & Hroute & Heq).
      by exists upload, p', ok, fs.
  - right. by left.
  - left. by exists msg.
Qed.

(** Every route keeps the id generated for the request and the topics of
    the request. *)
Lemma Route_id e name p fs0 p' ok fs :
  Route e name p fs0 p' ok fs → id p' = id p ∧ topics p' = topics p.
Proof.
  by destruct 1.
Qed.

(** The success body of every route is built from the record it saves. *)
Lemma Route_body e name p fs0 p' ok fs :
  Route e name p fs0 p' ok fs →
  ∃ status message, ok = convertBody p' status message.
Proof.
  destruct 1; eauto.
Qed.

(** The arrays of every route are as long as the slide count says. *)
Lemma Route_lengths e name p fs0 p' ok fs :
  Route e name p fs0 p' ok fs →
  length (slides p') = slideCount p' ∧ length (slideTexts p') = slideCount p'.
Proof.
  destruct 1 as [Hav|n Hav Hpdf Hn|imageFiles us urls texts fs1 fs Hav Hpf Hjpg Hall Hshape|Hav];
    unfold missingRecord, fallbackRecord, pagesRecord, setSlideData;
    cbn [slides slideTexts slideCount].
  - by rewrite !length_fmap, !length_seq.
  - by rewrite !length_fmap, !length_seq.
  - split; [done|].
    apply Forall2_length in Hall.
    rewrite length_zip, length_seq, Nat.min_id in Hall.
    destruct (length imageFiles =? 1); destruct Hshape as (-> & -> & _);
      rewrite ?length_app, !length_fmap, !length_seq; lia.
  - by rewrite !length_fmap, !length_seq.
Qed.

(** What a 200 means: the record of the route is stored, cached and
    described by the body, and each of its topics was indexed. *)
Lemma postConvert_200 e req w r w' :
  postConvert e req w = (r, w') → statusCode r = 200 →
  ∃ upload p' ok fs,
    accepted req upload ∧
    Route e (Multer.originalname upload) (newPresentation e req upload)
          (files w) p' ok fs ∧
    id p' = uuidPresentation e ∧
    r = json ok ∧
    List.find (Mongo.hasId (id p')) (db w') = Some p' ∧
    presentations w' = <[id p' := p']> (presentations w) ∧
    indexTopics (id p') (topics p') (presentationsByTopic w)
    = (presentationsByTopic w', None) ∧
    files w' = fs.
Proof.
  intros Hpost Hstatus.
  destruct (postConvert_cases e req w)
    as [(msg & _ & Heq)|[(_ & Heq)|[(upload & msg & _ & _ & Heq)
       |(upload & p' & ok & fs & Hacc & _ & Hroute & Heq)]]];
    rewrite Heq in Hpost.
  - injection Hpost as <- <-. done.
  - injection Hpost as <- <-. done.
  - injection Hpost as <- <-. done.
  - pose proof (saveVerifyCache_200 (dbFaults e) p' ok (setFiles fs w)) as H200.
    rewrite Hpost in H200. destruct (H200 Hstatus) as (-> & Hfind & Hc & Ht & Hf).
    exists upload, p', ok, fs. repeat split; try done.
    by destruct (Route_id _ _ _ _ _ _ _ Hroute) as [-> _].
Qed.

Lemma accepted_inj (req : ConvertRequest) (u1 u2 : Multer.File) :
  accepted req u1 → accepted req u2 → u1 = u2.
Proof. unfold accepted. congruence. Qed.

(** The slide data does not touch the fields the schema requires. *)
Lemma Route_validate e name p fs0 p' ok fs :
  Route e name p fs0 p' ok fs → Mongo.validate p' = Mongo.validate p.
Proof. by destruct 1. Qed.

(** Once the output directory is made, whatever the renderer and the disk
    do, an accepted upload whose record passes schema validation and whose
    topics are ordinary is answered 200 unless the database fails. *)
Lemma postConvert_succeeds e req upload w :
  accepted req upload →
  mkdirOutput e = None →
  dbFaults e = noDbFaults →
  Mongo.validate (newPresentation e req upload) = true →
  ordinaryTopics (requestTopics (bodyTopics req)) →
  statusCode (postConvert e req w).1 = 200.
Proof.
  intros Hacc Hmkdir Hdb Hvalid Htopics.
  destruct (postConvert_cases e req w)
    as [(msg & Hm & _)|[(Hm & _)|[(upload' & msg & _ & Hm & _)
       |(upload' & p' & ok & fs & Hacc' & _ & Hroute & ->)]]];
    [unfold accepted in Hacc; congruence..|].
  rewrite <- (accepted_inj _ _ _ Hacc Hacc') in Hroute.
  destruct (Route_id _ _ _ _ _ _ _ Hroute) as [_ Ht].
  rewrite Hdb, saveVerifyCache_succeeds; [done | | by rewrite Ht].
  by rewrite (Route_validate _ _ _ _ _ _ _ Hroute).
Qed.

(** What the save-verify-cache block of an upload did, whatever the
    route. *)
Lemma postConvert_Persisted e req w :
  (postConvert e req w).2 = w
  ∨ ∃ p fs,
      id p = uuidPresentation e ∧
      topics p = requestTopics (bodyTopics req) ∧
      Persisted (dbFaults e) p (setFiles fs w)
                (postConvert e req w).1 (postConvert e req w).2.
Proof.
  destruct (postConvert_cases e req w)
    as [(msg & _ & ->)|[(_ & ->)|[(upload & msg & _ & _ & ->)
       |(upload & p & ok & fs & _ & _ & Hroute & ->)]]];
    [by left..|].
  right. exists p, fs.
  destruct (Route_id _ _ _ _ _ _ _ Hroute) as [Hid Htopics].
  split; [done|]. split; [done|].
  pose proof (saveVerifyCache_Persisted (dbFaults e) p ok (setFiles fs w)) as H.
  destruct (saveVerifyCache _ _ _ _) as [r w']. by destruct H as [H _].
Qed.



(** C3. In every 200 response of /convert the [slides] array and the
    [slideTexts] array have [slideCount] elements each; the body describes
    the record that was stored and cached. *)
Theorem convert_arrays_parallel (e : ConvertEnv) (req : ConvertRequest)
    (w : Server) (r : Response) (w' : Server) :
  postConvert e req w = (r, w') →
  statusCode r = 200 →
  ∃ p status message,
    body r = ConvertBody (id p) (originalName p) (title p) (slideCount p)
               (slides p) (slideTexts p) status message (topics p) ∧
    length (slides p) = slideCount p ∧
    length (slideTexts p) = slideCount p ∧
    presentations w' !! uuidPresentation e = Some p ∧
    p ∈ db w'.
Proof.
  intros Hpost Hstatus.
  destruct (postConvert_200 _ _ _ _ _ Hpost Hstatus)
    as (upload & p & ok & fs & _ & Hroute & Hid & -> & Hfind & Hc & _).
  destruct (Route_body _ _ _ _ _ _ _ Hroute) as (status & message & ->).
  destruct (Route_lengths _ _ _ _ _ _ _ Hroute) as [Hl1 Hl2].
  exists p, status, message. repeat split; try done.
  - by rewrite Hc, <- Hid, lookup_insert_eq.
  - by apply find_hasId in Hfind as [_ ?].
Qed.

Lemma convert_arrays_parallel_witness :
  ∃ p status message,
    body (postConvert healthyEnv deckUpload emptyServer).1
    = ConvertBody (id p) (originalName p) (title p) (slideCount p)
        (slides p) (slideTexts p) status message (topics p) ∧
    length (slides p) = slideCount p ∧
    length (slideTexts p) = slideCount p ∧
    presentations (postConvert healthyEnv deckUpload emptyServer).2 !! "p-1"
    = Some p ∧
    p ∈ db (postConvert healthyEnv deckUpload emptyServer).2.
Proof.
  apply (convert_arrays_parallel healthyEnv deckUpload emptyServer _ _
           (surjective_pairing _)).
  reflexivity.
Defined.

(** The record a 200 response of /convert stands for. *)
Lemma postConvert_record e req upload w r w' :
  accepted req upload →
  postConvert e req w = (r, w') → statusCode r = 200 →
  ∃ p ok fs,
    Route e (Multer.originalname upload) (newPresentation e req upload)
          (files w) p ok fs ∧
    r = json ok ∧
    presentations w' !! uuidPresentation e = Some p ∧
    p ∈ db w' ∧
    files w' = fs.
Proof.
  intros Hacc Hpost Hstatus.
  destruct (postConvert_200 _ _ _ _ _ Hpost Hstatus)
    as (upload' & p & ok & fs & Hacc' & Hroute & Hid & -> & Hfind & Hc & _ & Hf).
  rewrite (accepted_inj _ _ _ Hacc Hacc').
  exists p, ok, fs. repeat split; try done.
  - by rewrite Hc, <- Hid, lookup_insert_eq.
  - by apply find_hasId in Hfind as [_ ?].
Qed.

Lemma pdfStrategy_inj e n m : pdfStrategy e n → pdfStrategy e m → n = m.
Proof. intros (_ & _ & Hn & _) (_ & _ & Hm & _). congruence. Qed.

(** The conditions of the environment determine the route. *)
Lemma Route_missing_inv e name p fs0 p' ok fs :
  Route e name p fs0 p' ok fs →
  rendererAvailable e = false →
  p' = missingRecord p ∧
  ok = convertBody (missingRecord p) (Some "placeholders_created")
         (Some "LibreOffice is not available. Generated placeholder slides instead.") ∧
  fs = foldl (λ fs i, genericWrite e (id p) name i fs) fs0 (seq 0 placeholderCount).
Proof. destruct 1; intros; by try congruence. Qed.

Lemma Route_pages_inv e name p fs0 p' ok fs pageCount :
  Route e name p fs0 p' ok fs →
  pdfStrategy e pageCount → 0 < pageCount →
  rendererAvailable e = true →
  p' = pagesRecord e p pageCount ∧
  ok = convertBody (pagesRecord e p pageCount) None None ∧
  fs = foldl (λ fs i, pageWrite e (id p) name i fs) fs0 (seq 0 pageCount).
Proof.
  destruct 1 as [?|n ? Hn ?|? ? ? ? ? ? ? Hfailed|? Hfailed ?];
    intros Hpdf Hpos Hav.
  - congruence.
  - by rewrite (pdfStrategy_inj _ _ _ Hpdf Hn).
  - apply Hfailed in Hpdf. lia.
  - apply Hfailed in Hpdf. lia.
Qed.

(** ** Renderer unavailable *)

(** C2, as the specification words it, fails: on a host without the
    renderer and without a working package manager the record has five
    slides, not 23. *)
Lemma renderer_missing_not_23 :
  accepted deckUpload (Multer.mkFile "Deck.PPTX" 1000%N) ∧
  rendererAvailable bareEnv = false ∧
  statusCode (postConvert bareEnv deckUpload emptyServer).1 = 200 ∧
  ∃ p, presentations (postConvert bareEnv deckUpload emptyServer).2 !! "p-1"
       = Some p ∧
       isPlaceholder p = true ∧
       slideCount p = 5 ∧
       slideCount p ≠ 23.
Proof.
  split; [reflexivity|]. split; [reflexivity|]. split; [reflexivity|].
  eexists. split; [vm_compute; reflexivity|].
  split; [reflexivity|]. split; [reflexivity|]. discriminate.
Qed.

(** C2, amended. When the probe fails, the record of a 200 response is
    marked as a placeholder and has [placeholderCount] = 5 slides, with the
    canonical URLs 1 to 5 and the texts "Slide n (Placeholder)"; behind each
    URL lies the generic placeholder text naming that slide, whenever its
    write did not fail; and the body says "placeholders_created". *)
Theorem renderer_missing_five_placeholders (e : ConvertEnv)
    (req : ConvertRequest) (upload : Multer.File) (w : Server)
    (r : Response) (w' : Server) :
  accepted req upload →
  rendererAvailable e = false →
  postConvert e req w = (r, w') →
  statusCode r = 200 →
  ∃ p,
    presentations w' !! uuidPresentation e = Some p ∧
    p ∈ db w' ∧
    isPlaceholder p = true ∧
    slideCount p = 5 ∧
    slides p = slideUrl (uuidPresentation e) <$> seq 1 5 ∧
    slideTexts p = placeholderLabel <$> seq 1 5 ∧
    body r = convertBody p (Some "placeholders_created")
               (Some "LibreOffice is not available. Generated placeholder slides instead.") ∧
    ∀ n, 1 ≤ n ≤ 5 →
      writeFault e (servedFile (slideUrl (uuidPresentation e) n)) = None →
      files w' !! servedFile (slideUrl (uuidPresentation e) n)
      = Some (Text (placeholderText n (Multer.originalname upload))).
Proof.
  intros Hacc Hav Hpost Hstatus.
  destruct (postConvert_record _ _ _ _ _ _ Hacc Hpost Hstatus)
    as (p & ok & fs & Hroute & -> & Hc & Hdb & Hfs).
  destruct (Route_missing_inv _ _ _ _ _ _ _ Hroute Hav) as (-> & -> & ->).
  exists (missingRecord (newPresentation e req upload)).
  repeat split; try done.
  intros n Hn Hw. rewrite Hfs. rewrite servedFile_slideUrl in *.
  replace n with (n - 1 + 1) in * by lia.
  apply (foldl_writes_lookup
           (λ i fs, genericWrite e (uuidPresentation e) (Multer.originalname upload) i fs)
           (λ i, join (outputDir (uuidPresentation e)) (slideFileName (i + 1)))).
  - intros. by apply genericWrite_other.
  - apply slidePaths_NoDup.
  - apply elem_of_seq. unfold placeholderCount. lia.
  - intros. by apply genericWrite_lookup.
Qed.

Lemma renderer_missing_five_placeholders_witness :
  ∃ p,
    presentations (postConvert bareEnv deckUpload emptyServer).2 !! "p-1" = Some p ∧
    p ∈ db (postConvert bareEnv deckUpload emptyServer).2 ∧
    isPlaceholder p = true ∧
    slideCount p = 5 ∧
    slides p = slideUrl "p-1" <$> seq 1 5 ∧
    slideTexts p = placeholderLabel <$> seq 1 5 ∧
    body (postConvert bareEnv deckUpload emptyServer).1
    = convertBody p (Some "placeholders_created")
        (Some "LibreOffice is not available. Generated placeholder slides instead.") ∧
    ∀ n, 1 ≤ n ≤ 5 →
      writeFault bareEnv (servedFile (slideUrl "p-1" n)) = None →
      files (postConvert bareEnv deckUpload emptyServer).2
        !! servedFile (slideUrl "p-1" n)
      = Some (Text (placeholderText n "Deck.PPTX")).
Proof.
  apply (renderer_missing_five_placeholders bareEnv deckUpload
           (Multer.mkFile "Deck.PPTX" 1000%N) emptyServer _ _).
  - reflexivity.
  - reflexivity.
  - apply surjective_pairing.
  - reflexivity.
Defined.

(** ** The page loop *)

Lemma lookup_fmap_seq {A} (f : nat → A) (a n i : nat) :
  i < n → (f <$> seq a n) !! i = Some (f (a + i)).
Proof. intros Hi. by rewrite list_lookup_fmap, lookup_seq_lt. Qed.

(** C4, as the specification words it, fails: on a healthy host whose
    second page yields no image file, that page's text is
    "Slide 2 (Placeholder)", not "Slide 2 (Error Placeholder)". *)
Lemma pdf_missing_image_text :
  accepted deckUpload (Multer.mkFile "Deck.PPTX" 1000%N) ∧
  rendererAvailable healthyEnv = true ∧
  pdfStrategy healthyEnv 3 ∧
  rasterizationFailed (page healthyEnv 2) = true ∧
  statusCode (postConvert healthyEnv deckUpload emptyServer).1 = 200 ∧
  ∃ p, presentations (postConvert healthyEnv deckUpload emptyServer).2 !! "p-1"
       = Some p ∧
       slideCount p = 3 ∧
       slideTexts p !! 1 = Some "Slide 2 (Placeholder)" ∧
       slideTexts p !! 1 ≠ Some "Slide 2 (Error Placeholder)".
Proof.
  split; [reflexivity|]. split; [reflexivity|]. split.
  { split; [reflexivity|]. split; [|by split].
    exists ["Deck.pdf"]. split; [reflexivity|]. vm_compute. discriminate. }
  split; [reflexivity|]. split; [reflexivity|].
  eexists. split; [vm_compute; reflexivity|].
  split; [reflexivity|]. split; [reflexivity|]. vm_compute. discriminate.
Qed.

(** C4, amended. When the PDF strategy reaches the page loop with N > 0
    pages, the record of a 200 response has exactly N slides, the n-th with
    the canonical URL. A page that fails does not stop the loop: its text is
    "Slide n (Error Placeholder)" when the rasterization threw and
    "Slide n (Placeholder)" when it returned without an image file, and in
    both cases the distinct placeholder text for slide n lies behind its
    URL whenever the write did not fail. *)
Theorem pdf_pages_exact (e : ConvertEnv) (req : ConvertRequest)
    (upload : Multer.File) (pageCount : nat) (w : Server)
    (r : Response) (w' : Server) :
  accepted req upload →
  rendererAvailable e = true →
  pdfStrategy e pageCount → 0 < pageCount →
  postConvert e req w = (r, w') →
  statusCode r = 200 →
  ∃ p,
    presentations w' !! uuidPresentation e = Some p ∧
    p ∈ db w' ∧
    slideCount p = pageCount ∧
    length (slides p) = pageCount ∧
    length (slideTexts p) = pageCount ∧
    ∀ n, 1 ≤ n ≤ pageCount →
      slides p !! (n - 1) = Some (slideUrl (uuidPresentation e) n) ∧
      slideTexts p !! (n - 1) = Some (pageSlideText (page e n) n) ∧
      (∀ msg, page e n = PageThrows msg →
         slideTexts p !! (n - 1)
         = Some ("Slide " +:+ JS.num n +:+ " (Error Placeholder)")) ∧
      (page e n = PageNoFile →
         slideTexts p !! (n - 1)
         = Some ("Slide " +:+ JS.num n +:+ " (Placeholder)")) ∧
      (rasterizationFailed (page e n) = true →
       writeFault e (servedFile (slideUrl (uuidPresentation e) n)) = None →
       files w' !! servedFile (slideUrl (uuidPresentation e) n)
       = Some (Text (distinctPlaceholderText n
                       (pageTitle (Multer.originalname upload) n)))).
Proof.
  intros Hacc Hav Hpdf Hpos Hpost Hstatus.
  destruct (postConvert_record _ _ _ _ _ _ Hacc Hpost Hstatus)
    as (p & ok & fs & Hroute & -> & Hc & Hdb & Hfs).
  destruct (Route_pages_inv _ _ _ _ _ _ _ _ Hroute Hpdf Hpos Hav) as (-> & -> & ->).
  exists (pagesRecord e (newPresentation e req upload) pageCount).
  split; [exact Hc|]. split; [exact Hdb|].
  unfold pagesRecord, setSlideData. cbn [slides slideTexts slideCount].
  rewrite !length_fmap, !length_seq.
  split; [done|]. split; [done|]. split; [done|].
  intros n Hn. rewrite !lookup_fmap_seq by lia.
  replace (1 + (n - 1)) with n by lia.
  split; [done|]. split; [done|]. split; [|split].
  - intros msg Hpage. by rewrite Hpage.
  - intros Hpage. by rewrite Hpage.
  - intros Hfailed Hw. rewrite Hfs. rewrite servedFile_slideUrl in *.
    replace n with (n - 1 + 1) in * by lia.
    apply (foldl_writes_lookup
             (λ i fs, pageWrite e (uuidPresentation e) (Multer.originalname upload) i fs)
             (λ i, join (outputDir (uuidPresentation e)) (slideFileName (i + 1)))).
    + intros. by apply pageWrite_other.
    + apply slidePaths_NoDup.
    + apply elem_of_seq. lia.
    + intros fs. unfold pageWrite.
      destruct (page e (n - 1 + 1)); [done | by apply distinctWrite_lookup..].
Qed.

Lemma pdf_pages_exact_witness :
  ∃ p,
    presentations (postConvert healthyEnv deckUpload emptyServer).2 !! "p-1" = Some p ∧
    p ∈ db (postConvert healthyEnv deckUpload emptyServer).2 ∧
    slideCount p = 3 ∧
    length (slides p) = 3 ∧
    length (slideTexts p) = 3 ∧
    ∀ n, 1 ≤ n ≤ 3 →
      slides p !! (n - 1) = Some (slideUrl "p-1" n) ∧
      slideTexts p !! (n - 1) = Some (pageSlideText (page healthyEnv n) n) ∧
      (∀ msg, page healthyEnv n = PageThrows msg →
         slideTexts p !! (n - 1)
         = Some ("Slide " +:+ JS.num n +:+ " (Error Placeholder)")) ∧
      (page healthyEnv n = PageNoFile →
         slideTexts p !! (n - 1)
         = Some ("Slide " +:+ JS.num n +:+ " (Placeholder)")) ∧
      (rasterizationFailed (page healthyEnv n) = true →
       writeFault healthyEnv (servedFile (slideUrl "p-1" n)) = None →
       files (postConvert healthyEnv deckUpload emptyServer).2
         !! servedFile (slideUrl "p-1" n)
       = Some (Text (distinctPlaceholderText n (pageTitle "Deck.PPTX" n)))).
Proof.
  apply (pdf_pages_exact healthyEnv deckUpload (Multer.mkFile "Deck.PPTX" 1000%N)
           3 emptyServer (postConvert healthyEnv deckUpload emptyServer).1
           (postConvert healthyEnv deckUpload emptyServer).2).
  - reflexivity.
  - reflexivity.
  - split; [reflexivity|]. split; [|by split].
    exists ["Deck.pdf"]. split; [reflexivity|]. vm_compute. discriminate.
  - lia.
  - apply surjective_pairing.
  - reflexivity.
Defined.

(** ** The placeholder flag *)

(** C5, as the specification words it, fails from right to left: on a
    healthy host whose second page yields no image file the record holds a
    generated placeholder as its second slide and [isPlaceholder] is
    false. *)
Lemma synthetic_slide_without_flag :
  statusCode (postConvert healthyEnv deckUpload emptyServer).1 = 200 ∧
  ∃ p url,
    presentations (postConvert healthyEnv deckUpload emptyServer).2 !! "p-1"
    = Some p ∧
    isPlaceholder p = false ∧
    slides p !! 1 = Some url ∧
    files (postConvert healthyEnv deckUpload emptyServer).2 !! servedFile url
    = Some (Text (distinctPlaceholderText 2 "Page 2 of Deck.PPTX")) ∧
    synthetic (postConvert healthyEnv deckUpload emptyServer).2 url.
Proof.
  split; [reflexivity|]. eexists _, _.
  split; [vm_compute; reflexivity|]. split; [reflexivity|].
  split; [reflexivity|]. split; [vm_compute; reflexivity|].
  unfold synthetic. vm_compute. discriminate.
Qed.

(** The same after the single-image padding of the direct export: 22 of
    the 23 slides are generated placeholders and the flag is false. *)
Lemma padded_slides_without_flag :
  statusCode (postConvert collapsedEnv deckUpload emptyServer).1 = 200 ∧
  ∃ p,
    presentations (postConvert collapsedEnv deckUpload emptyServer).2 !! "p-1"
    = Some p ∧
    isPlaceholder p = false ∧
    slideCount p = 23 ∧
    files (postConvert collapsedEnv deckUpload emptyServer).2
      !! servedFile (slideUrl "p-1" 1) = Some Image ∧
    Forall (synthetic (postConvert collapsedEnv deckUpload emptyServer).2)
           (drop 1 (slides p)).
Proof.
  split; [reflexivity|]. eexists.
  split; [vm_compute; reflexivity|]. split; [reflexivity|].
  split; [reflexivity|]. split; [vm_compute; reflexivity|].
  unfold synthetic. vm_compute.
  repeat (constructor; [discriminate|]). constructor.
Qed.

(** C5, amended. In a fresh output directory, the record of a 200
    response carries [isPlaceholder = true] exactly when it is one of the
    two all-placeholder records (the five generic placeholders of an
    unavailable renderer, the 23 distinct ones after both strategies
    failed); such a record has slides and each of them is synthetic. *)
Theorem isPlaceholder_means_all_placeholders (e : ConvertEnv)
    (req : ConvertRequest) (upload : Multer.File) (w : Server)
    (r : Response) (w' : Server) (p : Presentation) :
  accepted req upload →
  freshDirectory w (uuidPresentation e) →
  postConvert e req w = (r, w') →
  statusCode r = 200 →
  presentations w' !! uuidPresentation e = Some p →
  (isPlaceholder p = true ↔
   p = missingRecord (newPresentation e req upload)
   ∨ p = fallbackRecord (newPresentation e req upload)) ∧
  (isPlaceholder p = true →
   (∃ url, url ∈ slides p) ∧ ∀ url, url ∈ slides p → synthetic w' url).
Proof.
  intros Hacc Hfresh Hpost Hstatus Hp.
  destruct (postConvert_record _ _ _ _ _ _ Hacc Hpost Hstatus)
    as (p' & ok & fs & Hroute & -> & Hc & Hdb & Hfs).
  assert (p' = p) as -> by congruence.
  set (p0 := newPresentation e req upload) in *.
  assert (∀ W n url,
    (∀ i fs q, fs !! q ≠ Some Image → W i fs !! q ≠ Some Image) →
    files w' = foldl (λ fs i, W i fs) (files w) (seq 0 n) →
    url ∈ slideUrl (uuidPresentation e) <$> seq 1 n →
    synthetic w' url) as Hsyn.
  { intros W n url HW Hw' Hurl.
    apply list_elem_of_fmap in Hurl as (k & -> & _).
    unfold synthetic. rewrite Hw', servedFile_slideUrl.
    apply (foldl_writes_inv W (λ o, o ≠ Some Image)); [by auto|].
    by rewrite Hfresh. }
  destruct Hroute as [Hav|n Hav Hpdf Hn|imageFiles us urls texts fs1 fs Hav Hpf Hjpg Hall Hshape|Hav Hpf Hjf].
  - split; [split; [by left | done]|]. intros _. split.
    + exists (slideUrl (id p0) 1). by left.
    + intros url Hurl.
      apply (Hsyn (λ i fs, genericWrite e (id p0) (Multer.originalname upload) i fs)
               placeholderCount); [|done..].
      intros. by apply genericWrite_no_image.
  - split; [|done]. split; [done|].
    intros [H|H]; by apply (f_equal isPlaceholder) in H.
  - split; [|done]. split; [done|].
    intros [H|H]; by apply (f_equal isPlaceholder) in H.
  - split; [split; [by right | done]|]. intros _. split.
    + exists (slideUrl (id p0) 1). by left.
    + intros url Hurl.
      apply (Hsyn (λ i fs, distinctWrite e (id p0) (Multer.originalname upload) i fs)
               estimatedSlideCount); [|done..].
      intros. by apply distinctWrite_no_image.
Qed.

Lemma isPlaceholder_means_all_placeholders_witness :
  (isPlaceholder (fallbackRecord (newPresentation brokenEnv deckUpload
                                    (Multer.mkFile "Deck.PPTX" 1000%N))) = true ↔
   fallbackRecord (newPresentation brokenEnv deckUpload (Multer.mkFile "Deck.PPTX" 1000%N))
   = missingRecord (newPresentation brokenEnv deckUpload (Multer.mkFile "Deck.PPTX" 1000%N))
   ∨ fallbackRecord (newPresentation brokenEnv deckUpload (Multer.mkFile "Deck.PPTX" 1000%N))
     = fallbackRecord (newPresentation brokenEnv deckUpload (Multer.mkFile "Deck.PPTX" 1000%N))) ∧
  (isPlaceholder (fallbackRecord (newPresentation brokenEnv deckUpload
                                    (Multer.mkFile "Deck.PPTX" 1000%N))) = true →
   (∃ url, url ∈ slides (fallbackRecord (newPresentation brokenEnv deckUpload
                                           (Multer.mkFile "Deck.PPTX" 1000%N)))) ∧
   ∀ url, url ∈ slides (fallbackRecord (newPresentation brokenEnv deckUpload
                                          (Multer.mkFile "Deck.PPTX" 1000%N))) →
          synthetic (postConvert brokenEnv deckUpload emptyServer).2 url).
Proof.
  apply (isPlaceholder_means_all_placeholders brokenEnv deckUpload
           (Multer.mkFile "Deck.PPTX" 1000%N) emptyServer
           (postConvert brokenEnv deckUpload emptyServer).1
           (postConvert brokenEnv deckUpload emptyServer).2).
  - reflexivity.
  - intros name. reflexivity.
  - apply surjective_pairing.
  - reflexivity.
  - vm_compute. reflexivity.
Defined.

(** ** Slide URLs *)





(** ** Rejected uploads *)

Lemma existsb_eqb_false (ext : string) (l : list string) :
  existsb (String.eqb ext) l = false ↔ ext ∉ l.
Proof.
  induction l as [|x l IH]; simpl.
  - split; [intros _; apply not_elem_of_nil | done].
  - rewrite not_elem_of_cons, orb_false_iff, IH.
    by rewrite String.eqb_neq.
Qed.

(** C6, as the specification words it, fails: an upload with a foreign
    extension, and one that is too long, are answered with status 500 by
    the error-handling middleware, not with 400. *)
Lemma foreign_extension_is_500 :
  (JS.toLowerCase (JS.extname "notes.txt") ∉ Multer.allowedExtensions) ∧
  postConvert healthyEnv notesUpload oneDeckServer
  = (statusJson 500
       (ErrorBody "Only PowerPoint files (.ppt, .pptx) and Keynote files (.key) are allowed"),
     oneDeckServer) ∧
  statusCode (postConvert healthyEnv notesUpload oneDeckServer).1 ≠ 400.
Proof.
  split; [|split].
  - apply existsb_eqb_false. reflexivity.
  - reflexivity.
  - vm_compute. discriminate.
Qed.

Lemma oversized_upload_is_500 :
  (Multer.fileSizeLimit < 52428801)%N ∧
  postConvert healthyEnv hugeUpload oneDeckServer
  = (statusJson 500 (ErrorBody "File too large"), oneDeckServer).
Proof. split; reflexivity. Qed.

(** C6, amended. A request without a file is answered 400; an upload whose
    lower-cased extension is not .ppt, .pptx or .key, or which is longer
    than 50 MB, is answered 500 with the middleware's message. In all three
    cases the server state (collection, cache, topic index, view history,
    disk) is unchanged. *)
Theorem rejected_upload_no_effect (e : ConvertEnv) (req : ConvertRequest)
    (w : Server) :
  (file req = None →
   postConvert e req w = (statusJson 400 (ErrorBody "No file uploaded"), w)) ∧
  (∀ upload, file req = Some upload →
     (JS.toLowerCase (JS.extname (Multer.originalname upload))
        ∉ [".ppt"; ".pptx"; ".key"])
     ∨ (50 * 1024 * 1024 < Multer.size upload)%N →
     ∃ message,
       postConvert e req w = (statusJson 500 (ErrorBody message), w) ∧
       message ≠ "").
Proof.
  unfold postConvert, Multer.single. split.
  - by intros ->.
  - intros upload -> Hbad.
    destruct (Multer.fileFilter upload) eqn:Hfilter; simpl.
    + destruct Hbad as [Hext|Hsize].
      * apply existsb_eqb_false in Hext.
        unfold Multer.fileFilter, Multer.allowedExtensions in Hfilter.
        cbv zeta in Hfilter. congruence.
      * apply N.ltb_lt in Hsize. unfold Multer.fileSizeLimit. rewrite Hsize.
        by eexists.
    + by eexists.
Qed.

Lemma rejected_upload_no_effect_witness :
  postConvert healthyEnv emptyUpload oneDeckServer
  = (statusJson 400 (ErrorBody "No file uploaded"), oneDeckServer)
  ∧ (∃ message,
       postConvert healthyEnv notesUpload oneDeckServer
       = (statusJson 500 (ErrorBody message), oneDeckServer) ∧ message ≠ "")
  ∧ (∃ message,
       postConvert healthyEnv hugeUpload oneDeckServer
       = (statusJson 500 (ErrorBody message), oneDeckServer) ∧ message ≠ "").
Proof.
  split; [|split].
  - apply (rejected_upload_no_effect healthyEnv emptyUpload oneDeckServer).
    reflexivity.
  - apply (proj2 (rejected_upload_no_effect healthyEnv notesUpload oneDeckServer)
             (Multer.mkFile "notes.txt" 10%N) eq_refl).
    left. apply existsb_eqb_false. reflexivity.
  - apply (proj2 (rejected_upload_no_effect healthyEnv hugeUpload oneDeckServer)
             (Multer.mkFile "Deck.pptx" 52428801%N) eq_refl).
    right. reflexivity.
Defined.

(** ** DELETE /presentation/:id *)

Section Delete.

Implicit Types (w : Server) (pid : string) (c : Mongo.Collection)
               (d : Presentation).

Lemma liveWithId_true pid d :
  Mongo.liveWithId pid d = true ↔ id d = pid ∧ isDeleted d = false.
Proof.
  unfold Mongo.liveWithId.
  rewrite andb_true_iff, negb_true_iff, String.eqb_eq. done.
Qed.

Lemma find_live_absent pid c :
  pid ∉ id <$> c → List.find (Mongo.liveWithId pid) c = None.
Proof.
  induction c as [|x c IH]; simpl; [done|].
  rewrite not_elem_of_cons. intros [Hx Hc].
  destruct (Mongo.liveWithId pid x) eqn:Hlive; [|by apply IH].
  apply liveWithId_true in Hlive as [? _]. congruence.
Qed.

(** Under the unique index the live document with an id is the one the
    filter of the handler selects. *)
Lemma find_live_unique pid c d :
  Mongo.uniqueIds c → d ∈ c → id d = pid → isDeleted d = false →
  List.find (Mongo.liveWithId pid) c = Some d.
Proof.
  unfold Mongo.uniqueIds. induction c as [|x c IH]; simpl.
  - intros _ Hin. by apply elem_of_nil in Hin.
  - intros [Hx Hnd]%NoDup_cons Hin Hid Hlive.
    apply elem_of_cons in Hin as [->|Hin].
    + by rewrite (proj2 (liveWithId_true pid x)).
    + destruct (Mongo.liveWithId pid x) eqn:Hxl; [|by apply IH].
      apply liveWithId_true in Hxl as [Hxid _]. exfalso. apply Hx.
      rewrite Hxid, <- Hid. by apply list_elem_of_fmap_2.
Qed.

(** Once marked, no live document with the id is left. *)
Lemma markDeleted_none_live pid c d' c' :
  Mongo.uniqueIds c →
  Mongo.updateFirst (Mongo.liveWithId pid) markDeleted c = Some (d', c') →
  List.find (Mongo.liveWithId pid) c' = None ∧ d' ∈ c' ∧ length c' = length c.
Proof.
  unfold Mongo.uniqueIds. revert d' c'.
  induction c as [|x c IH]; intros d' c'; simpl; [done|].
  intros [Hx Hnd]%NoDup_cons.
  destruct (Mongo.liveWithId pid x) eqn:Hlive.
  - intros [= <- <-]. apply liveWithId_true in Hlive as [Hid _].
    split; [|split; [by left | done]].
    simpl. unfold Mongo.liveWithId at 1. simpl. rewrite andb_false_r.
    apply find_live_absent. by rewrite <- Hid.
  - destruct (Mongo.updateFirst _ _ c) as [[e c'']|] eqn:Hup; [|done].
    intros [= <- <-]. destruct (IH _ _ Hnd eq_refl) as (Hnone & Hin & Hlen).
    split; [|split; [by right | by simpl; rewrite Hlen]].
    simpl. by rewrite Hlive.
Qed.

Lemma evict_frame pid w :
  db (evict pid w).1 = db w ∧ files (evict pid w).1 = files w ∧
  userPresentationHistory (evict pid w).1 = userPresentationHistory w.
Proof.
  unfold evict. destruct (JS.get (presentations w) pid) as [cached| |]; [|done..].
  by destruct (JS.forEach _ _ _) as [byTopic [msg|]].
Qed.

(** When the eviction did not throw, the cache lost the id and nothing
    else; when it threw, the cache is as it was. *)
Lemma evict_cache pid w :
  presentations (evict pid w).1
  = match (evict pid w).2 with
    | None => delete pid (presentations w)
    | Some _ => presentations w
    end.
Proof.
  unfold evict. destruct (JS.get (presentations w) pid) as [cached| |] eqn:Hget.
  - by destruct (JS.forEach _ _ _) as [byTopic [msg|]].
  - apply get_Inherited in Hget as [Hnone _]. simpl. by rewrite delete_id.
  - apply get_Undefined in Hget as [Hnone _]. simpl. by rewrite delete_id.
Qed.

Lemma not_elem_of_filter_isNot pid (ids : list string) :
  pid ∉ List.filter (isNot pid) ids.
Proof.
  intros Hin. apply list_elem_of_In, List.filter_In in Hin as [_ Hne].
  unfold isNot in Hne. by rewrite String.eqb_refl in Hne.
Qed.



(** The loops over ordinary topics do not throw. *)
Lemma forEach_dropFromTopic_ordinary pid (topics : list string)
    (byTopic : gmap string (list string)) :
  ordinaryTopics topics → (JS.forEach (dropFromTopic pid) byTopic topics).2 = None.
Proof.
  unfold ordinaryTopics. revert byTopic.
  induction topics as [|t ts IH]; intros byTopic H; simpl; [done|].
  apply Forall_cons in H as [Ht Hts].
  unfold dropFromTopic at 1. rewrite (get_ordinary _ _ Ht).
  destruct (byTopic !! JS.toLowerCase t); by apply IH.
Qed.

Lemma evict_ordinary pid w :
  (∀ cached, presentations w !! pid = Some cached → ordinaryTopics (topics cached)) →
  (evict pid w).2 = None.
Proof.
  intros Htopics. unfold evict.
  destruct (JS.get (presentations w) pid) as [cached| |] eqn:Hget; [|done..].
  apply get_Own in Hget.
  pose proof (forEach_dropFromTopic_ordinary pid (topics cached)
                (presentationsByTopic w) (Htopics _ Hget)) as Hnone.
  destruct (JS.forEach _ _ _) as [byTopic thrown]. simpl in Hnone. by subst thrown.
Qed.

Lemma forget_clean pid w (userId : string) (ids : list string) :
  userPresentationHistory (forget pid w) !! userId = Some ids → pid ∉ ids.
Proof.
  unfold forget. simpl. rewrite lookup_fmap.
  destruct (userPresentationHistory w !! userId); simpl; [|done].
  intros [= <-]. apply not_elem_of_filter_isNot.
Qed.

(** The memory-only branch never answers with the message of the
    database branch, and never touches the collection or the disk. *)
Lemma deleteFromMemory_frame pid w :
  (deleteFromMemory pid w).1 ≠ json (SuccessBody "Presentation deleted") ∧
  statusCode (deleteFromMemory pid w).1 ≠ 404 ∧
  db (deleteFromMemory pid w).2 = db w ∧
  files (deleteFromMemory pid w).2 = files w.
Proof.
  unfold deleteFromMemory.
  destruct (evict_frame pid w) as (Hdb & Hfiles & _).
  destruct (JS.get (presentations w) pid) as [cached| |]; [| |done];
    destruct (evict pid w) as [w1 [msg|]]; simpl in *; by rewrite ?Hdb, ?Hfiles.
Qed.

(** What DELETE does once the database marked a document. *)
Lemma deletePresentation_marked pid w d c :
  Mongo.updateFirst (Mongo.liveWithId pid) markDeleted (db w) = Some (d, c) →
  db (deletePresentation None pid w).2 = c ∧
  files (deletePresentation None pid w).2 = files w ∧
  statusCode (deletePresentation None pid w).1 ≠ 404 ∧
  ((evict pid (setDb c w)).2 = None →
   deletePresentation None pid w
   = (json (SuccessBody "Presentation deleted"),
      forget pid (evict pid (setDb c w)).1)) ∧
  ((deletePresentation None pid w).1 = json (SuccessBody "Presentation deleted") →
   (evict pid (setDb c w)).2 = None).
Proof.
  intros Hup. unfold deletePresentation, Mongo.findOneAndUpdate. rewrite Hup.
  destruct (evict_frame pid (setDb c w)) as (Hdb & Hfiles & _).
  destruct (evict pid (setDb c w)) as [w1 [msg|]]; simpl in *.
  - destruct (deleteFromMemory_frame pid w1) as (Hne & H404 & Hdb1 & Hfiles1).
    rewrite Hdb1, Hfiles1. by repeat split.
  - by repeat split.
Qed.

End Delete.

(** C7, as the specification words it, fails: after a successful DELETE of
    a stored deck, and the 404 of the following GET, the slide file of the
    deck is still on disk. *)
Lemma deleted_slides_stay_on_disk :
  existsLive "p-1" (db oneDeckServer) ∧
  statusCode (deletePresentation None "p-1" oneDeckServer).1 = 200 ∧
  statusCode (getPresentation noGetFaults "p-1" None
                (deletePresentation None "p-1" oneDeckServer).2).1 = 404 ∧
  slideFiles storedDeck = ["public/slides/p-1/slide-1.jpg"] ∧
  files (deletePresentation None "p-1" oneDeckServer).2
    !! "public/slides/p-1/slide-1.jpg" = Some Image.
Proof.
  split.
  { exists storedDeck. split; [by left | by split]. }
  split; [reflexivity|]. split; [reflexivity|]. split; [reflexivity|].
  vm_compute. reflexivity.
Qed.

(** When DELETE succeeds through its memory-only fallback, the record is
    still live in the collection and the following GET serves it again. *)
Lemma memory_only_delete_then_found :
  statusCode (deletePresentation (Some "MongoNetworkError") "p-1" oneDeckServer).1
  = 200 ∧
  (getPresentation noGetFaults "p-1" None
     (deletePresentation (Some "MongoNetworkError") "p-1" oneDeckServer).2).1
  = json (PresentationBody storedDeck).
Proof. split; reflexivity. Qed.

(** C7, amended. For a live document of a uniquely indexed collection, a
    DELETE that succeeds through its database update leaves the document
    in the collection, now with [isDeleted = true]; the cache no longer
    holds the id; a following GET whose lookup reaches the database (the
    query works, and the id is not a property the cache object inherits)
    answers 404; the disk, and with it every slide file, is as before.
    The DELETE does succeed in this way when the database update works
    and no topic of the cached record, if there is one, names a property
    of [Object.prototype]. *)
Theorem soft_delete_then_404 (w : Server) (pid : string) (d : Presentation)
    (g : GetFaults) (userId : option string) (r : Response) (w1 : Server) :
  Mongo.uniqueIds (db w) →
  d ∈ db w → id d = pid → isDeleted d = false →
  getFind g = None → JS.inherited pid = false →
  deletePresentation None pid w = (r, w1) →
  ((∀ cached, presentations w !! pid = Some cached →
              ordinaryTopics (topics cached)) →
   r = json (SuccessBody "Presentation deleted")) ∧
  (r = json (SuccessBody "Presentation deleted") →
   getPresentation g pid userId w1
   = (statusJson 404 (ErrorBody "Presentation not found"), w1) ∧
   markDeleted d ∈ db w1 ∧
   length (db w1) = length (db w) ∧
   presentations w1 !! pid = None ∧
   files w1 = files w).
Proof.
  intros Huniq Hin Hid Hlive Hg Hpid Hdel.
  pose proof (find_live_unique pid _ d Huniq Hin Hid Hlive) as Hfind.
  destruct (updateFirst_find _ markDeleted _ _ Hfind) as (c' & Hup & _).
  destruct (markDeleted_none_live _ _ _ _ Huniq Hup) as (Hnone & Hd' & Hlen).
  destruct (deletePresentation_marked pid w _ _ Hup)
    as (Hdb & Hfiles & _ & Hok & Hback).
  rewrite Hdel in Hdb, Hfiles, Hok, Hback. simpl in *. split.
  - intros Htopics. assert ((evict pid (setDb c' w)).2 = None) as Hev
      by (by apply evict_ordinary).
    specialize (Hok Hev). congruence.
  - intros Hr. specialize (Hok (Hback Hr)). injection Hok as _ Hw1.
    assert (presentations w1 !! pid = None) as Hcache.
    { rewrite Hw1. unfold forget. simpl. rewrite evict_cache, (Hback Hr).
      apply lookup_delete_eq. }
    rewrite Hdb. split; [|done].
    unfold getPresentation.
    assert (JS.get (presentations w1) pid = JS.Undefined) as ->
      by (by apply get_Undefined).
    unfold Mongo.findOne. by rewrite Hg, Hdb, Hnone.
Qed.

Lemma soft_delete_then_404_witness :
  ((∀ cached, presentations oneDeckServer !! "p-1" = Some cached →
              ordinaryTopics (topics cached)) →
   (deletePresentation None "p-1" oneDeckServer).1
   = json (SuccessBody "Presentation deleted")) ∧
  ((deletePresentation None "p-1" oneDeckServer).1
   = json (SuccessBody "Presentation deleted") →
   getPresentation noGetFaults "p-1" (Some "u-2")
     (deletePresentation None "p-1" oneDeckServer).2
   = (statusJson 404 (ErrorBody "Presentation not found"),
      (deletePresentation None "p-1" oneDeckServer).2) ∧
   markDeleted storedDeck ∈ db (deletePresentation None "p-1" oneDeckServer).2 ∧
   length (db (deletePresentation None "p-1" oneDeckServer).2)
   = length (db oneDeckServer) ∧
   presentations (deletePresentation None "p-1" oneDeckServer).2 !! "p-1" = None ∧
   files (deletePresentation None "p-1" oneDeckServer).2 = files oneDeckServer).
Proof.
  apply (soft_delete_then_404 oneDeckServer "p-1" storedDeck noGetFaults
           (Some "u-2")).
  - apply (bool_decide_unpack _). vm_compute. reflexivity.
  - apply (bool_decide_unpack _). vm_compute. reflexivity.
  - reflexivity.
  - reflexivity.
  - reflexivity.
  - reflexivity.
  - apply surjective_pairing.
Defined.

(** C10, at a cached record the memory-only delete does not cope with. An
    upload under the topic "constructor" is stored and cached although it
    is answered 500, since the indexing of the topic throws; when the
    database update of a later DELETE of that id throws, the loop of the
    [catch] branch over the topics of the cached record throws as well, at
    [presentationsByTopic[topic].filter], so that no response is sent,
    where a 200 is due, and the record stays in the cache. *)
Theorem memory_only_delete_unanswered :
  (postConvert healthyEnv constructorUpload emptyServer).1
  = databaseError (JS.notAFunction "presentationsByTopic[topic].push") "p-1" ∧
  (∃ cached,
     presentations (postConvert healthyEnv constructorUpload emptyServer).2 !! "p-1"
     = Some cached ∧
     topics cached = ["constructor"]) ∧
  deletePresentation (Some "MongoNetworkError") "p-1"
    (postConvert healthyEnv constructorUpload emptyServer).2
  = (unanswered (JS.notAFunction "presentationsByTopic[topic].filter"),
     (postConvert healthyEnv constructorUpload emptyServer).2).
Proof.
  split; [reflexivity|]. split.
  - eexists. split; reflexivity.
  - vm_compute. reflexivity.
Qed.

(** * Further properties of the handlers *)

(** ** File names and titles *)

Section Names.

Implicit Types (l k : list ascii) (s : string) (p : ascii → bool).

Lemma takeWhile_app_stop p l x k :
  forallb p l = true → p x = false →
  JS.takeWhile p (l ++ x :: k) = l ∧ JS.dropWhile p (l ++ x :: k) = x :: k.
Proof.
  intros Hl Hx. induction l as [|y l IH]; simpl in *.
  - by rewrite Hx.
  - apply andb_true_iff in Hl as [-> Hl]. destruct (IH Hl) as [-> ->]. done.
Qed.

Lemma takeWhile_all p l :
  forallb p l = true → JS.takeWhile p l = l ∧ JS.dropWhile p l = [].
Proof.
  induction l as [|y l IH]; simpl; [done|].
  intros [-> Hl]%andb_true_iff. by destruct (IH Hl) as [-> ->].
Qed.

Lemma chars_append s1 s2 : JS.chars (s1 +:+ s2) = JS.chars s1 ++ JS.chars s2.
Proof.
  unfold JS.chars. induction s1 as [|c s1 IH]; [done|].
  change (c :: String.list_ascii_of_string (s1 +:+ s2)
          = c :: (String.list_ascii_of_string s1 ++ String.list_ascii_of_string s2)).
  by rewrite IH.
Qed.

Lemma str_chars s : JS.str (JS.chars s) = s.
Proof. apply String.string_of_list_ascii_of_string. Qed.

Lemma str_nonempty l : l ≠ [] → JS.str l ≠ "".
Proof. by destruct l. Qed.

Lemma forallb_rev {A} (f : A → bool) (l : list A) :
  forallb f (rev l) = forallb f l.
Proof.
  induction l as [|x l IH]; simpl; [done|].
  rewrite forallb_app, IH. simpl. rewrite andb_true_r. apply andb_comm.
Qed.

(** The regular expression of line 384 cuts off the last extension. *)
Lemma stripExtension_extension base ext :
  ext ≠ "" → plainName ext = true →
  JS.stripExtension (base +:+ "." +:+ ext) = base.
Proof.
  intros Hne Hplain. unfold JS.stripExtension, plainName in *.
  rewrite !chars_append, rev_app_distr. simpl JS.chars. simpl rev.
  rewrite <- app_assoc. simpl.
  destruct (takeWhile_app_stop (λ c, negb (JS.isDot c || JS.isSlash c))
              (rev (JS.chars ext)) "."%char (rev (JS.chars base)))
    as [-> ->]; [by rewrite forallb_rev | done |].
  destruct (rev (JS.chars ext)) eqn:Hrev.
  - exfalso. apply Hne. apply (f_equal (@rev _)) in Hrev.
    rewrite rev_involutive in Hrev. simpl in Hrev.
    rewrite <- (str_chars ext). by rewrite Hrev.
  - simpl. by rewrite rev_involutive, str_chars.
Qed.

(** A name without a dot is left as it is. *)
Lemma stripExtension_no_dot s :
  forallb (λ c, negb (JS.isDot c)) (JS.chars s) = true →
  JS.stripExtension s = s.
Proof.
  intros Hs. unfold JS.stripExtension.
  assert (forallb (λ c, negb (JS.isDot c)) (rev (JS.chars s)) = true) as Hr
    by by rewrite forallb_rev.
  clear Hs. generalize dependent (rev (JS.chars s)). intros r Hr.
  assert (match JS.dropWhile (λ c, negb (JS.isDot c || JS.isSlash c)) r with
          | [] => True
          | c :: _ => JS.isDot c = false
          end) as Hdrop.
  { induction r as [|c r IH]; simpl in *; [done|].
    apply andb_true_iff in Hr as [Hc Hr]. apply negb_true_iff in Hc.
    rewrite Hc. simpl. destruct (JS.isSlash c); simpl; [done | by apply IH]. }
  destruct (JS.takeWhile _ r); [done|].
  destruct (JS.dropWhile _ r); [done|]. by rewrite Hdrop.
Qed.

(** Where [path.extname] finds an extension, the scan of line 384 finds
    the same dot with something in front of it. *)
Lemma dot_in_component (r : list ascii) :
  match JS.dropWhile (λ c, negb (JS.isDot c))
          (JS.takeWhile (λ c, negb (JS.isSlash c)) r) with
  | [] => False
  | _ :: before => before ≠ []
  end →
  ∃ d rest,
    JS.dropWhile (λ c, negb (JS.isDot c || JS.isSlash c)) r = d :: rest ∧
    JS.isDot d = true ∧ rest ≠ [].
Proof.
  induction r as [|x r IH]; simpl; [done|].
  destruct (JS.isSlash x) eqn:Hslash; simpl; [done|].
  destruct (JS.isDot x) eqn:Hdot; simpl.
  - intros Hbefore. exists x, r. repeat split; [done|].
    intros ->. by apply Hbefore.
  - apply IH.
Qed.

(** What the filter lets through has a name, and the default title made
    from that name is not empty. *)
Lemma fileFilter_title (upload : Multer.File) :
  Multer.fileFilter upload = true →
  Multer.originalname upload ≠ "" ∧
  JS.stripExtension (Multer.originalname upload) ≠ "".
Proof.
  unfold Multer.fileFilter. cbv zeta.
  set (name := Multer.originalname upload).
  intros Hfilter.
  assert (JS.extname name ≠ "") as Hext.
  { intros Heq. rewrite Heq in Hfilter. by vm_compute in Hfilter. }
  clear Hfilter.
  assert (name ≠ "") as Hname.
  { intros Heq. rewrite Heq in Hext. by apply Hext. }
  split; [done|].
  unfold JS.extname, JS.stripExtension in *.
  destruct (rev (JS.chars name)) as [|c r]; [done|].
  destruct (JS.isSlash c) eqn:Hslash.
  { simpl. by rewrite Hslash, orb_true_r. }
  assert (JS.dropWhile JS.isSlash (c :: r) = c :: r) as Hds
    by (simpl; by rewrite Hslash).
  rewrite Hds in Hext.
  destruct (dot_in_component (c :: r)) as (d & rest & -> & Hd & Hrest).
  { destruct (JS.dropWhile (λ c, negb (JS.isDot c))
                (JS.takeWhile (λ c, negb (JS.isSlash c)) (c :: r)))
      as [|dot before]; [done|].
    by destruct before. }
  clear Hext.
  destruct (JS.takeWhile (λ c, negb (JS.isDot c || JS.isSlash c)) (c :: r));
    [done|].
  rewrite Hd. apply str_nonempty. intros Hnil.
  apply (f_equal (@rev _)) in Hnil. by rewrite rev_involutive in Hnil.
Qed.

End Names.

(** ** More about POST /convert *)

Lemma accepted_filter (req : ConvertRequest) (upload : Multer.File) :
  accepted req upload →
  file req = Some upload ∧ Multer.fileFilter upload = true.
Proof.
  unfold accepted, Multer.single.
  destruct (file req) as [f|]; [|done].
  destruct (Multer.fileFilter f) eqn:Hfilter; simpl; [|done].
  destruct (Multer.fileSizeLimit <? Multer.size f)%N; [done|].
  by intros [= <-].
Qed.

Lemma orElse_nonempty (a : option string) (b : string) :
  b ≠ "" → JS.orElse a b ≠ "".
Proof.
  intros Hb. unfold JS.orElse. destruct a as [s|]; [|done].
  destruct (String.eqb s "") eqn:Hs; [done|]. by apply String.eqb_neq.
Qed.

(** The record of an accepted upload passes schema validation. *)
Lemma accepted_valid (e : ConvertEnv) (req : ConvertRequest)
    (upload : Multer.File) :
  accepted req upload → uuidPresentation e ≠ "" →
  Mongo.validate (newPresentation e req upload) = true.
Proof.
  intros Hacc Hid. apply accepted_filter in Hacc as [_ Hfilter].
  destruct (fileFilter_title upload Hfilter) as [Hname Htitle].
  unfold Mongo.validate, newPresentation. simpl.
  apply (orElse_nonempty (bodyTitle req)) in Htitle.
  apply String.eqb_neq in Hid, Hname, Htitle. by rewrite Hid, Hname, Htitle.
Qed.

(** The fields of the request survive every route. *)
Lemma Route_metadata e name p fs0 p' ok fs :
  Route e name p fs0 p' ok fs →
  originalName p' = originalName p ∧ title p' = title p ∧
  summary p' = summary p ∧ author p' = author p ∧ authorId p' = authorId p ∧
  converted p' = converted p ∧ viewCount p' = viewCount p ∧
  isDeleted p' = isDeleted p.
Proof. by destruct 1. Qed.

(** An accepted upload whose output directory was made takes a route into
    the save-verify-cache block. *)
Lemma postConvert_accepted e req upload w :
  accepted req upload →
  mkdirOutput e = None →
  ∃ p' ok fs,
    Route e (Multer.originalname upload) (newPresentation e req upload)
          (files w) p' ok fs ∧
    postConvert e req w = saveVerifyCache (dbFaults e) p' ok (setFiles fs w).
Proof.
  intros Hacc Hmkdir.
  destruct (postConvert_cases e req w)
    as [(msg & Hm & _)|[(Hm & _)|[(upload' & msg & _ & Hm & _)
       |(upload' & p' & ok & fs & Hacc' & _ & Hroute & Heq)]]];
    [unfold accepted in Hacc; congruence..|].
  rewrite <- (accepted_inj _ _ _ Hacc Hacc') in Hroute. eauto.
Qed.

(** X1. What an upload that passed the filter and the size limit is
    answered with, in a run in which every external command returned:
    nothing when the output directory cannot be made, and the state is
    then untouched; otherwise 200 or the 500 "database_error" body,
    whatever the renderer, the PDF tools and the disk do; and 200 when
    moreover the database does not fail and no topic of the request names
    a property of [Object.prototype]. *)
Theorem accepted_upload_answered (e : ConvertEnv) (req : ConvertRequest)
    (upload : Multer.File) (w : Server) :
  accepted req upload →
  uuidPresentation e ≠ "" →
  (∀ msg, mkdirOutput e = Some msg →
     postConvert e req w = (unanswered msg, w)) ∧
  (mkdirOutput e = None →
   (statusCode (postConvert e req w).1 = 200
    ∨ ∃ details,
        (postConvert e req w).1 = databaseError details (uuidPresentation e)) ∧
   (dbFaults e = noDbFaults →
    ordinaryTopics (requestTopics (bodyTopics req)) →
    statusCode (postConvert e req w).1 = 200)).
Proof.
  intros Hacc Hid. split.
  - intros msg Hmkdir. unfold postConvert. unfold accepted in Hacc.
    rewrite Hacc. unfold convertFile. by rewrite Hmkdir.
  - intros Hmkdir. split.
    + destruct (postConvert_accepted e req upload w Hacc Hmkdir)
        as (p & ok & fs & Hroute & ->).
      destruct (Route_id _ _ _ _ _ _ _ Hroute) as [Hp _]. simpl in Hp.
      rewrite <- Hp. unfold saveVerifyCache.
      destruct (saveToDatabase _ _ _) as [[saved c]|msg]; [|right; by eexists].
      destruct (verifyDatabaseSave _ _ _); [|right; by eexists].
      destruct (indexTopics _ _ _) as [byTopic [msg|]];
        [right; by eexists | by left].
    + intros Hdb Htopics.
      apply (postConvert_succeeds e req upload w Hacc Hmkdir Hdb); [|done].
      by apply accepted_valid.
Qed.

Lemma accepted_upload_answered_witness :
  (∀ msg, mkdirOutput brokenEnv = Some msg →
     postConvert brokenEnv deckUpload emptyServer = (unanswered msg, emptyServer)) ∧
  (mkdirOutput brokenEnv = None →
   (statusCode (postConvert brokenEnv deckUpload emptyServer).1 = 200
    ∨ ∃ details,
        (postConvert brokenEnv deckUpload emptyServer).1
        = databaseError details "p-1") ∧
   (dbFaults brokenEnv = noDbFaults →
    ordinaryTopics (requestTopics (bodyTopics deckUpload)) →
    statusCode (postConvert brokenEnv deckUpload emptyServer).1 = 200)).
Proof.
  apply (accepted_upload_answered brokenEnv deckUpload
           (Multer.mkFile "Deck.PPTX" 1000%N) emptyServer).
  - reflexivity.
  - discriminate.
Defined.

(** X2. The title of the record of a 200 response is the title of the
    request when that is not empty, and otherwise the original file name
    without its last extension. *)
Theorem default_title_is_name_without_extension (e : ConvertEnv)
    (req : ConvertRequest) (upload : Multer.File) (base ext : string)
    (w : Server) (r : Response) (w' : Server) :
  accepted req upload →
  Multer.originalname upload = base +:+ "." +:+ ext →
  ext ≠ "" → plainName ext = true →
  postConvert e req w = (r, w') →
  statusCode r = 200 →
  ∃ p,
    presentations w' !! uuidPresentation e = Some p ∧
    originalName p = base +:+ "." +:+ ext ∧
    title p = JS.orElse (bodyTitle req) base.
Proof.
  intros Hacc Hname Hext Hplain Hpost Hstatus.
  destruct (postConvert_record _ _ _ _ _ _ Hacc Hpost Hstatus)
    as (p & ok & fs & Hroute & _ & Hc & _).
  destruct (Route_metadata _ _ _ _ _ _ _ Hroute) as (Ho & Ht & _).
  exists p. split; [done|]. simpl in Ho, Ht. rewrite Ho, Ht, Hname.
  by rewrite stripExtension_extension.
Qed.

Lemma default_title_is_name_without_extension_witness :
  ∃ p,
    presentations (postConvert healthyEnv deckUpload emptyServer).2 !! "p-1"
    = Some p ∧
    originalName p = "Deck" +:+ "." +:+ "PPTX" ∧
    title p = JS.orElse (bodyTitle deckUpload) "Deck".
Proof.
  apply (default_title_is_name_without_extension healthyEnv deckUpload
           (Multer.mkFile "Deck.PPTX" 1000%N) "Deck" "PPTX" emptyServer
           (postConvert healthyEnv deckUpload emptyServer).1
           (postConvert healthyEnv deckUpload emptyServer).2).
  - reflexivity.
  - reflexivity.
  - discriminate.
  - reflexivity.
  - apply surjective_pairing.
  - reflexivity.
Defined.

(** *** The fallback routes *)

Lemma jpgStrategy_inj e l k : jpgStrategy e l → jpgStrategy e k → l = k.
Proof.
  intros (_ & l' & Hl & -> & _) (_ & k' & Hk & -> & _). congruence.
Qed.

Lemma Route_fallback_inv e name p fs0 p' ok fs :
  Route e name p fs0 p' ok fs →
  rendererAvailable e = true → pdfFailed e → jpgFailed e →
  p' = fallbackRecord p ∧
  ok = convertBody (fallbackRecord p) (Some "fallback_placeholders")
         (Some "Conversion failed. Generated distinct placeholder slides instead.") ∧
  fs = foldl (λ fs i, distinctWrite e (id p) name i fs) fs0
             (seq 0 estimatedSlideCount).
Proof.
  destruct 1 as [?|n ? Hn Hpos|l ? ? ? ? ? ? ? Hl|]; intros Hav Hpdf Hjpg.
  - congruence.
  - apply Hpdf in Hn. lia.
  - by apply Hjpg in Hl.
  - done.
Qed.

Lemma Route_export_inv e name p fs0 p' ok fs imageFiles :
  Route e name p fs0 p' ok fs →
  rendererAvailable e = true → pdfFailed e → jpgStrategy e imageFiles →
  ∃ us urls texts fs1,
    p' = setSlideData p urls (length urls) texts false ∧
    length us = length imageFiles ∧
    (if length imageFiles =? 1
     then urls = us ++ (slideUrl (id p) <$> seq 2 (estimatedSlideCount - 1))
          ∧ texts = (plainLabel <$> seq 1 (length imageFiles))
                    ++ (placeholderLabel <$> seq 2 (estimatedSlideCount - 1))
          ∧ fs = foldl (λ fs i, distinctWrite e (id p) name i fs) fs1
                       (seq 1 (estimatedSlideCount - 1))
     else urls = us
          ∧ texts = plainLabel <$> seq 1 (length imageFiles)
          ∧ fs = fs1).
Proof.
  destruct 1 as [?|n ? Hn Hpos|l us urls texts fs1 fs ? ? Hl Hall Hshape|? ? Hnone];
    intros Hav Hpdf Hjpg.
  - congruence.
  - apply Hpdf in Hn. lia.
  - rewrite (jpgStrategy_inj _ _ _ Hjpg Hl).
    exists us, urls, texts, fs1. split; [done|]. split; [|done].
    apply Forall2_length in Hall.
    by rewrite length_zip, length_seq, Nat.min_id in Hall.
  - by apply Hnone in Hjpg.
Qed.

(** X3. When the renderer is there and both conversion strategies fail,
    the record of a 200 response is the terminal fallback: marked as
    placeholder, with [estimatedSlideCount] = 23 slides under the canonical
    URLs and the texts "Slide n (Placeholder)"; behind each URL lies the
    distinct placeholder text for that slide whenever its write did not
    fail; the body says "fallback_placeholders". *)
Theorem both_strategies_failed_23_placeholders (e : ConvertEnv)
    (req : ConvertRequest) (upload : Multer.File) (w : Server)
    (r : Response) (w' : Server) :
  accepted req upload →
  rendererAvailable e = true → pdfFailed e → jpgFailed e →
  postConvert e req w = (r, w') →
  statusCode r = 200 →
  ∃ p,
    presentations w' !! uuidPresentation e = Some p ∧
    isPlaceholder p = true ∧
    slideCount p = 23 ∧
    slides p = slideUrl (uuidPresentation e) <$> seq 1 23 ∧
    slideTexts p = placeholderLabel <$> seq 1 23 ∧
    body r = convertBody p (Some "fallback_placeholders")
               (Some "Conversion failed. Generated distinct placeholder slides instead.") ∧
    ∀ n, 1 ≤ n ≤ 23 →
      writeFault e (servedFile (slideUrl (uuidPresentation e) n)) = None →
      files w' !! servedFile (slideUrl (uuidPresentation e) n)
      = Some (Text (distinctPlaceholderText n (Multer.originalname upload))).
Proof.
  intros Hacc Hav Hpdf Hjpg Hpost Hstatus.
  destruct (postConvert_record _ _ _ _ _ _ Hacc Hpost Hstatus)
    as (p & ok & fs & Hroute & -> & Hc & Hdb & Hfs).
  destruct (Route_fallback_inv _ _ _ _ _ _ _ Hroute Hav Hpdf Hjpg) as (-> & -> & ->).
  exists (fallbackRecord (newPresentation e req upload)).
  do 6 (split; [done|]).
  intros n Hn Hw. rewrite Hfs. rewrite servedFile_slideUrl in *.
  replace n with (n - 1 + 1) in * by lia.
  apply (foldl_writes_lookup
           (λ i fs, distinctWrite e (uuidPresentation e) (Multer.originalname upload) i fs)
           (λ i, join (outputDir (uuidPresentation e)) (slideFileName (i + 1)))).
  - intros. by apply distinctWrite_other.
  - apply slidePaths_NoDup.
  - apply elem_of_seq. unfold estimatedSlideCount. lia.
  - intros. by apply distinctWrite_lookup.
Qed.

Lemma both_strategies_failed_23_placeholders_witness :
  ∃ p,
    presentations (postConvert brokenEnv deckUpload emptyServer).2 !! "p-1" = Some p ∧
    isPlaceholder p = true ∧
    slideCount p = 23 ∧
    slides p = slideUrl "p-1" <$> seq 1 23 ∧
    slideTexts p = placeholderLabel <$> seq 1 23 ∧
    body (postConvert brokenEnv deckUpload emptyServer).1
    = convertBody p (Some "fallback_placeholders")
        (Some "Conversion failed. Generated distinct placeholder slides instead.") ∧
    ∀ n, 1 ≤ n ≤ 23 →
      writeFault brokenEnv (servedFile (slideUrl "p-1" n)) = None →
      files (postConvert brokenEnv deckUpload emptyServer).2
        !! servedFile (slideUrl "p-1" n)
      = Some (Text (distinctPlaceholderText n "Deck.PPTX")).
Proof.
  apply (both_strategies_failed_23_placeholders brokenEnv deckUpload
           (Multer.mkFile "Deck.PPTX" 1000%N) emptyServer _ _).
  - reflexivity.
  - reflexivity.
  - intros n (H & _). discriminate H.
  - intros l (H & _). discriminate H.
  - apply surjective_pairing.
  - reflexivity.
Defined.

(** X4. A record of the direct export is never marked as placeholder. With
    exactly one exported image it has 23 slides: the image as slide 1 and,
    as slides 2 to 23, canonical URLs with the texts
    "Slide n (Placeholder)" and the distinct placeholder text on disk
    (whenever the write did not fail). With any other number K of images it
    has exactly K slides with the texts "Slide 1" to "Slide K". *)
Theorem direct_export_slides (e : ConvertEnv)
    (req : ConvertRequest) (upload : Multer.File) (imageFiles : list string)
    (w : Server) (r : Response) (w' : Server) :
  accepted req upload →
  rendererAvailable e = true → pdfFailed e → jpgStrategy e imageFiles →
  postConvert e req w = (r, w') →
  statusCode r = 200 →
  ∃ p,
    presentations w' !! uuidPresentation e = Some p ∧
    isPlaceholder p = false ∧
    (length imageFiles = 1 →
     slideCount p = 23 ∧
     slideTexts p = "Slide 1" :: (placeholderLabel <$> seq 2 22) ∧
     ∀ n, 2 ≤ n ≤ 23 →
       slides p !! (n - 1) = Some (slideUrl (uuidPresentation e) n) ∧
       (writeFault e (servedFile (slideUrl (uuidPresentation e) n)) = None →
        files w' !! servedFile (slideUrl (uuidPresentation e) n)
        = Some (Text (distinctPlaceholderText n (Multer.originalname upload))))) ∧
    (length imageFiles ≠ 1 →
     slideCount p = length imageFiles ∧
     slideTexts p = plainLabel <$> seq 1 (length imageFiles)).
Proof.
  intros Hacc Hav Hpdf Hjpg Hpost Hstatus.
  destruct (postConvert_record _ _ _ _ _ _ Hacc Hpost Hstatus)
    as (p & ok & fs & Hroute & -> & Hc & Hdb & Hfs).
  destruct (Route_export_inv _ _ _ _ _ _ _ _ Hroute Hav Hpdf Hjpg)
    as (us & urls & texts & fs1 & -> & Hlen & Hshape).
  eexists. split; [exact Hc|]. split; [done|].
  cbn [slideCount slides slideTexts setSlideData].
  destruct (length imageFiles =? 1) eqn:Hone.
  - apply Nat.eqb_eq in Hone. destruct Hshape as (-> & -> & ->).
    split; [|lia]. intros _.
    rewrite length_app, length_fmap, length_seq, Hlen, Hone.
    split; [done|]. split; [done|].
    intros n Hn. split.
    + rewrite lookup_app_r by lia. rewrite Hlen, Hone.
      rewrite lookup_fmap_seq by (unfold estimatedSlideCount; lia).
      do 2 f_equal. lia.
    + intros Hw. rewrite Hfs. rewrite servedFile_slideUrl in *.
      replace n with (n - 1 + 1) in * by lia.
      apply (foldl_writes_lookup
               (λ i fs, distinctWrite e (uuidPresentation e) (Multer.originalname upload) i fs)
               (λ i, join (outputDir (uuidPresentation e)) (slideFileName (i + 1)))).
      * intros. by apply distinctWrite_other.
      * apply slidePaths_NoDup.
      * apply elem_of_seq. unfold estimatedSlideCount. lia.
      * intros. by apply distinctWrite_lookup.
  - apply Nat.eqb_neq in Hone. destruct Hshape as (-> & -> & _).
    split; [done|]. intros _. by rewrite Hlen.
Qed.

Lemma direct_export_slides_witness :
  ∃ p,
    presentations (postConvert collapsedEnv deckUpload emptyServer).2 !! "p-1"
    = Some p ∧
    isPlaceholder p = false ∧
    (length ["Deck.jpg"] = 1 →
     slideCount p = 23 ∧
     slideTexts p = "Slide 1" :: (placeholderLabel <$> seq 2 22) ∧
     ∀ n, 2 ≤ n ≤ 23 →
       slides p !! (n - 1) = Some (slideUrl "p-1" n) ∧
       (writeFault collapsedEnv (servedFile (slideUrl "p-1" n)) = None →
        files (postConvert collapsedEnv deckUpload emptyServer).2
          !! servedFile (slideUrl "p-1" n)
        = Some (Text (distinctPlaceholderText n "Deck.PPTX")))) ∧
    (length ["Deck.jpg"] ≠ 1 →
     slideCount p = length ["Deck.jpg"] ∧
     slideTexts p = plainLabel <$> seq 1 (length ["Deck.jpg"])).
Proof.
  apply (direct_export_slides collapsedEnv deckUpload
           (Multer.mkFile "Deck.PPTX" 1000%N) ["Deck.jpg"] emptyServer
           (postConvert collapsedEnv deckUpload emptyServer).1
           (postConvert collapsedEnv deckUpload emptyServer).2).
  - reflexivity.
  - reflexivity.
  - intros n (H & _). discriminate H.
  - split; [reflexivity|]. exists ["Deck.jpg"].
    split; [reflexivity|]. split; [reflexivity|]. discriminate.
  - apply surjective_pairing.
  - reflexivity.
Defined.

(** X5. In a record of the PDF strategy, behind the URL of every page that
    was rasterized lies the rendered image; when every page was rasterized
    no slide of the record is synthetic. *)
Theorem rendered_pages_are_images (e : ConvertEnv) (req : ConvertRequest)
    (upload : Multer.File) (pageCount : nat) (w : Server)
    (r : Response) (w' : Server) :
  accepted req upload →
  rendererAvailable e = true →
  pdfStrategy e pageCount → 0 < pageCount →
  postConvert e req w = (r, w') →
  statusCode r = 200 →
  ∃ p,
    presentations w' !! uuidPresentation e = Some p ∧
    isPlaceholder p = false ∧
    (∀ n, 1 ≤ n ≤ pageCount → rasterizationFailed (page e n) = false →
       files w' !! servedFile (slideUrl (uuidPresentation e) n) = Some Image) ∧
    ((∀ n, 1 ≤ n ≤ pageCount → rasterizationFailed (page e n) = false) →
     ∀ url, url ∈ slides p → ¬ synthetic w' url).
Proof.
  intros Hacc Hav Hpdf Hpos Hpost Hstatus.
  destruct (postConvert_record _ _ _ _ _ _ Hacc Hpost Hstatus)
    as (p & ok & fs & Hroute & -> & Hc & Hdb & Hfs).
  destruct (Route_pages_inv _ _ _ _ _ _ _ _ Hroute Hpdf Hpos Hav) as (-> & -> & ->).
  assert (∀ n, 1 ≤ n ≤ pageCount → rasterizationFailed (page e n) = false →
            files w' !! servedFile (slideUrl (uuidPresentation e) n) = Some Image)
    as Himage.
  { intros n Hn Hok. rewrite Hfs, servedFile_slideUrl.
    replace n with (n - 1 + 1) in * by lia.
    apply (foldl_writes_lookup
             (λ i fs, pageWrite e (uuidPresentation e) (Multer.originalname upload) i fs)
             (λ i, join (outputDir (uuidPresentation e)) (slideFileName (i + 1)))).
    - intros. by apply pageWrite_other.
    - apply slidePaths_NoDup.
    - apply elem_of_seq. lia.
    - intros fs. unfold pageWrite.
      destruct (page e (n - 1 + 1)); [|done..]. apply lookup_insert_eq. }
  eexists. split; [exact Hc|]. split; [done|]. split; [exact Himage|].
  intros Hall url Hurl. cbn [slides pagesRecord setSlideData] in Hurl.
  apply list_elem_of_fmap in Hurl as (n & -> & Hn%elem_of_seq).
  unfold synthetic. rewrite Himage; [by auto | lia | apply Hall; lia].
Qed.

Lemma rendered_pages_are_images_witness :
  ∃ p,
    presentations (postConvert perfectEnv deckUpload emptyServer).2 !! "p-1"
    = Some p ∧
    isPlaceholder p = false ∧
    (∀ n, 1 ≤ n ≤ 3 → rasterizationFailed (page perfectEnv n) = false →
       files (postConvert perfectEnv deckUpload emptyServer).2
         !! servedFile (slideUrl "p-1" n) = Some Image) ∧
    ((∀ n, 1 ≤ n ≤ 3 → rasterizationFailed (page perfectEnv n) = false) →
     ∀ url, url ∈ slides p →
            ¬ synthetic (postConvert perfectEnv deckUpload emptyServer).2 url).
Proof.
  apply (rendered_pages_are_images perfectEnv deckUpload
           (Multer.mkFile "Deck.PPTX" 1000%N) 3 emptyServer
           (postConvert perfectEnv deckUpload emptyServer).1
           (postConvert perfectEnv deckUpload emptyServer).2).
  - reflexivity.
  - reflexivity.
  - split; [reflexivity|]. split; [|by split].
    exists ["Deck.pdf"]. split; [reflexivity|]. vm_compute. discriminate.
  - lia.
  - apply surjective_pairing.
  - reflexivity.
Defined.

(** ** The collection under updates *)

Lemma updateFirst_split filter upd c d' c' :
  Mongo.updateFirst filter upd c = Some (d', c') →
  ∃ l1 d l2,
    c = l1 ++ d :: l2 ∧ c' = l1 ++ upd d :: l2 ∧ d' = upd d ∧
    filter d = true ∧ List.find filter c = Some d.
Proof.
  revert d' c'. induction c as [|x c IH]; intros d' c'; simpl; [done|].
  destruct (filter x) eqn:Hx.
  - intros [= <- <-]. by exists [], x, c.
  - destruct (Mongo.updateFirst filter upd c) as [[d1 c1]|]; [|done].
    intros [= <- <-].
    destruct (IH _ _ eq_refl) as (l1 & d & l2 & -> & -> & -> & Hd & Hfind).
    by exists (x :: l1), d, l2.
Qed.

Lemma updateFirst_None filter upd c :
  Mongo.updateFirst filter upd c = None ↔ List.find filter c = None.
Proof.
  induction c as [|x c IH]; simpl; [done|].
  destruct (filter x); [done|].
  destruct (Mongo.updateFirst filter upd c) as [[d1 c1]|].
  - split; [done|]. intros H. apply IH in H. done.
  - split; [|done]. intros _. by apply IH.
Qed.

(** An update that keeps the id of the document it changes keeps the ids of
    the collection, in order. *)
Lemma updateFirst_ids filter upd c d' c' :
  (∀ d, filter d = true → id (upd d) = id d) →
  Mongo.updateFirst filter upd c = Some (d', c') →
  id <$> c' = id <$> c.
Proof.
  intros Hupd Hu.
  destruct (updateFirst_split _ _ _ _ _ Hu) as (l1 & d & l2 & -> & -> & _ & Hd & _).
  rewrite !fmap_app, !fmap_cons. by rewrite Hupd.
Qed.

Lemma find_hasId_notin pid c :
  List.find (Mongo.hasId pid) c = None → pid ∉ id <$> c.
Proof.
  induction c as [|x c IH]; simpl; [intros _; apply not_elem_of_nil|].
  destruct (Mongo.hasId pid x) eqn:Hx; [done|]. intros Hc.
  apply not_elem_of_cons. split; [|by apply IH].
  intros ->. by rewrite hasId_self in Hx.
Qed.

(** What a successful save did to the collection: it replaced the first
    document carrying the id, or appended the record when no document
    carried it. *)
Lemma saveToDatabase_split f p c saved c' :
  saveToDatabase f p c = Ok (saved, c') →
  (∃ l1 d l2, c = l1 ++ d :: l2 ∧ c' = l1 ++ p :: l2 ∧ id d = id p)
  ∨ (c' = c ++ [p] ∧ id p ∉ id <$> c).
Proof.
  unfold saveToDatabase, Mongo.findOne, Mongo.findOneAndUpdate, Mongo.insert.
  destruct (saveFind f); [done|].
  destruct (List.find (Mongo.hasId (id p)) c) as [d0|] eqn:Hfind.
  - destruct (saveWrite f); [done|].
    destruct (Mongo.updateFirst _ _ c) as [[d1 c1]|] eqn:Hu; [|done].
    intros [= <- <-]. left.
    destruct (updateFirst_split _ _ _ _ _ Hu) as (l1 & d & l2 & -> & -> & _ & Hd & _).
    exists l1, d, l2. split; [done|]. split; [done|]. by apply hasId_true.
  - destruct (saveWrite f); [done|].
    destruct (negb (Mongo.validate p)); [done|].
    destruct (existsb _ c); [done|].
    intros [= <- <-]. right. split; [done|]. by apply find_hasId_notin.
Qed.

Lemma saveToDatabase_unique f p c saved c' :
  saveToDatabase f p c = Ok (saved, c') → Mongo.uniqueIds c → Mongo.uniqueIds c'.
Proof.
  unfold Mongo.uniqueIds.
  intros [(l1 & d & l2 & -> & -> & Hid)|[-> Hnew]]%saveToDatabase_split.
  - rewrite !fmap_app, !fmap_cons. by rewrite Hid.
  - intros Hnd. rewrite fmap_app. apply NoDup_app. split; [done|].
    split; [|apply NoDup_singleton].
    intros x Hx ->%list_elem_of_singleton. done.
Qed.

Lemma saveToDatabase_others f p c saved c' d :
  saveToDatabase f p c = Ok (saved, c') → id d ≠ id p → d ∈ c' ↔ d ∈ c.
Proof.
  intros [(l1 & d0 & l2 & -> & -> & Hid)|[-> Hnew]]%saveToDatabase_split Hd.
  - rewrite !elem_of_app, !elem_of_cons.
    split; intros [?|[->|?]]; auto; congruence.
  - rewrite elem_of_app, list_elem_of_singleton.
    split; [intros [?| ->]; [done|congruence] | auto].
Qed.

(** ** The indices *)



Lemma forEach_ordinary {S : Type} (step : S → string → S * Fault)
    (topics : list string) (s : S) :
  (∀ s t, JS.inherited (JS.toLowerCase t) = false → (step s t).2 = None) →
  ordinaryTopics topics → (JS.forEach step s topics).2 = None.
Proof.
  intros Hstep. unfold ordinaryTopics. revert s.
  induction topics as [|t ts IH]; intros s H; simpl; [done|].
  apply Forall_cons in H as [Ht Hts].
  pose proof (Hstep s t Ht) as Hnone.
  destruct (step s t) as [s' [msg|]]; [done|]. by apply IH.
Qed.

Section Index.

Implicit Types (index : gmap string (list string)) (pid key : string).







Lemma pushTopicOnce_ordinary pid index t :
  JS.inherited (JS.toLowerCase t) = false → (pushTopicOnce pid index t).2 = None.
Proof.
  intros H. unfold pushTopicOnce. rewrite (get_ordinary _ _ H).
  destruct (index !! _); [|done]. by case_bool_decide.
Qed.

Lemma pushTopicOnce_listed pid index t key x :
  listed index key x → listed (pushTopicOnce pid index t).1 key x.
Proof.
  intros (ids & Hids & Hx). unfold pushTopicOnce, listed.
  destruct (JS.get index (JS.toLowerCase t)) as [old| |] eqn:Hget; simpl;
    [|by eauto|].
  - apply get_Own in Hget. case_bool_decide; simpl; [by eauto|].
    destruct (decide (JS.toLowerCase t = key)) as [<-|Hne].
    + rewrite lookup_insert_eq. eexists. split; [done|].
      apply elem_of_app. left. congruence.
    + rewrite lookup_insert_ne by done. eauto.
  - apply get_Undefined in Hget as [Hnone _].
    rewrite lookup_insert_ne by congruence. eauto.
Qed.



Lemma pushTopicOnce_duplicateFree pid index t :
  duplicateFree index → duplicateFree (pushTopicOnce pid index t).1.
Proof.
  unfold duplicateFree, pushTopicOnce. intros Hdf key ids.
  destruct (JS.get index (JS.toLowerCase t)) as [old| |] eqn:Hget; simpl;
    [|by eauto|].
  - apply get_Own in Hget. case_bool_decide as Hin; simpl; [by eauto|].
    rewrite lookup_insert. case_decide; [|by eauto].
    intros [= <-]. apply NoDup_app. split; [eauto|].
    split; [|apply NoDup_singleton].
    intros x Hx ->%list_elem_of_singleton. done.
  - rewrite lookup_insert. case_decide; [|by eauto].
    intros [= <-]. apply NoDup_singleton.
Qed.

Lemma forEach_pushTopicOnce_listed pid ts index key x :
  listed index key x →
  listed (JS.forEach (pushTopicOnce pid) index ts).1 key x.
Proof.
  apply (forEach_inv (λ m, listed m key x)). intros. by apply pushTopicOnce_listed.
Qed.



Lemma forEach_pushTopicOnce_duplicateFree pid ts index :
  duplicateFree index →
  duplicateFree (JS.forEach (pushTopicOnce pid) index ts).1.
Proof.
  apply (forEach_inv duplicateFree). intros. by apply pushTopicOnce_duplicateFree.
Qed.

Lemma forEach_pushTopicOnce_ordinary pid ts index :
  ordinaryTopics ts → (JS.forEach (pushTopicOnce pid) index ts).2 = None.
Proof.
  apply forEach_ordinary. intros. by apply pushTopicOnce_ordinary.
Qed.

End Index.

(** ** What POST /convert leaves alone *)

Section Frame.

Variable e : ConvertEnv.
Implicit Types (pid q : string) (fs : gmap string FileContent).


















End Frame.





(** ** The unique index on [id] *)

Lemma findOneAndUpdate_unique fault filter upd c o c' :
  (∀ d, filter d = true → id (upd d) = id d) →
  Mongo.findOneAndUpdate fault filter upd c = Ok (o, c') →
  id <$> c' = id <$> c.
Proof.
  intros Hupd. unfold Mongo.findOneAndUpdate.
  destruct fault; [done|].
  destruct (Mongo.updateFirst filter upd c) as [[d1 c1]|] eqn:Hu.
  - intros [= <- <-]. by apply (updateFirst_ids _ _ _ _ _ Hupd Hu).
  - by intros [= <- <-].
Qed.

Lemma postConvert_unique e req w :
  Mongo.uniqueIds (db w) → Mongo.uniqueIds (db (postConvert e req w).2).
Proof.
  intros Hu.
  destruct (postConvert_Persisted e req w) as [->|(p & fs & _ & _ & HP)]; [done|].
  destruct HP as [saved Hsave _ _ _ _|saved msg Hsave _ _ _ _|msg _ _ Hdb _ _
                 |saved Hsave _ _ _ _].
  - by apply (saveToDatabase_unique _ _ _ _ _ Hsave).
  - by apply (saveToDatabase_unique _ _ _ _ _ Hsave).
  - by rewrite Hdb.
  - by apply (saveToDatabase_unique _ _ _ _ _ Hsave).
Qed.

Lemma getCached_ids f pid userId answer w :
  id <$> db (getCached f pid userId answer w).2 = id <$> db w.
Proof.
  unfold getCached.
  destruct (truthy userId) as [u|]; [|done].
  destruct (recordSeen u pid _) as [h [msg|]]; [done|].
  destruct (Mongo.findOneAndUpdate _ _ _ _) as [[o c]|msg] eqn:Hinc; [|done].
  simpl in *.
  by apply (findOneAndUpdate_unique _ _ incrementView _ _ _ (λ d _, eq_refl) Hinc).
Qed.

Lemma getPresentation_ids f pid userId w :
  id <$> db (getPresentation f pid userId w).2 = id <$> db w.
Proof.
  unfold getPresentation.
  destruct (JS.get (presentations w) pid) as [cached| |];
    [apply getCached_ids..|].
  destruct (Mongo.findOne _ _ _) as [[d|]|msg]; [|done..].
  destruct (JS.forEach _ _ _) as [byTopic [msg|]]; [done|].
  destruct (truthy userId) as [u|]; [|done].
  destruct (Mongo.findOneAndUpdate _ _ _ _) as [[o c]|msg] eqn:Hinc; [|done].
  simpl in Hinc.
  pose proof (findOneAndUpdate_unique _ _ incrementView _ _ _ (λ d _, eq_refl) Hinc)
    as Hids.
  by destruct (recordSeen u pid _) as [h [msg|]].
Qed.

Lemma deletePresentation_ids fault pid w :
  id <$> db (deletePresentation fault pid w).2 = id <$> db w.
Proof.
  unfold deletePresentation.
  destruct (Mongo.findOneAndUpdate _ _ _ _) as [[[d|] c]|msg] eqn:Hdel.
  - pose proof (findOneAndUpdate_unique _ _ markDeleted _ _ _ (λ d _, eq_refl) Hdel)
      as Hids.
    destruct (evict_frame pid (setDb c w)) as (Hdb & _).
    destruct (evict pid (setDb c w)) as [w1 [msg|]]; simpl in *.
    + destruct (deleteFromMemory_frame pid w1) as (_ & _ & -> & _). by rewrite Hdb.
    + by rewrite Hdb.
  - done.
  - by destruct (deleteFromMemory_frame pid w) as (_ & _ & -> & _).
Qed.

(** X8. The uniqueness of ids in the collection is an invariant of the
    handlers that write to it: POST /convert (whose save updates a document
    with the id or inserts under the unique index), GET /presentation/:id
    (view count) and DELETE /presentation/:id (soft delete). The last two
    keep the very sequence of ids: no document is ever added or removed. *)
Theorem handlers_keep_ids_unique (e : ConvertEnv) (req : ConvertRequest)
    (f : GetFaults) (fault : Fault) (pid : string) (userId : option string)
    (w : Server) :
  Mongo.uniqueIds (db w) →
  Mongo.uniqueIds (db (postConvert e req w).2) ∧
  Mongo.uniqueIds (db (getPresentation f pid userId w).2) ∧
  Mongo.uniqueIds (db (deletePresentation fault pid w).2) ∧
  id <$> db (getPresentation f pid userId w).2 = id <$> db w ∧
  id <$> db (deletePresentation fault pid w).2 = id <$> db w.
Proof.
  intros Hu. split; [by apply postConvert_unique|].
  unfold Mongo.uniqueIds.
  rewrite getPresentation_ids, deletePresentation_ids. done.
Qed.

Lemma handlers_keep_ids_unique_witness :
  Mongo.uniqueIds (db (postConvert healthyEnv deckUpload oneDeckServer).2) ∧
  Mongo.uniqueIds (db (getPresentation noGetFaults "p-1" (Some "u-1") oneDeckServer).2) ∧
  Mongo.uniqueIds (db (deletePresentation None "p-1" oneDeckServer).2) ∧
  id <$> db (getPresentation noGetFaults "p-1" (Some "u-1") oneDeckServer).2
  = id <$> db oneDeckServer ∧
  id <$> db (deletePresentation None "p-1" oneDeckServer).2 = id <$> db oneDeckServer.
Proof.
  apply (handlers_keep_ids_unique healthyEnv deckUpload noGetFaults None "p-1"
           (Some "u-1") oneDeckServer).
  unfold Mongo.uniqueIds. simpl. apply NoDup_singleton.
Defined.

(** ** A failed verification *)

Lemma saveToDatabase_writes f p c :
  saveFind f = None → saveWrite f = None → Mongo.validate p = true →
  ∃ c', saveToDatabase f p c = Ok (p, c').
Proof.
  intros Hfind Hwrite Hv.
  unfold saveToDatabase, Mongo.findOne, Mongo.findOneAndUpdate, Mongo.insert.
  rewrite Hfind, Hwrite.
  destruct (List.find (Mongo.hasId (id p)) c) as [d|] eqn:Hd.
  - destruct (updateFirst_find _ (λ _, p) _ _ Hd) as (c1 & -> & _). eauto.
  - rewrite Hv. simpl.
    apply existsb_hasId_find in Hd. rewrite Hd. eauto.
Qed.

Lemma find_hasId_live pid c d :
  List.find (Mongo.hasId pid) c = Some d → isDeleted d = false →
  List.find (Mongo.liveWithId pid) c = Some d.
Proof.
  intros Hfind Hlive. induction c as [|x c IH]; simpl in *; [done|].
  unfold Mongo.liveWithId, Mongo.hasId in *.
  destruct (String.eqb (id x) pid); simpl.
  - injection Hfind as ->. by rewrite Hlive.
  - by apply IH.
Qed.

(** X9. When the writes of the save succeed but the read-back of the
    verification fails, POST /convert answers 500 "Database verification
    failed" and caches nothing, yet the record is stored: a later
    GET /presentation/:id of the id, when the id was not cached before and
    neither it nor a lowercased topic of the request names a property of
    [Object.prototype], serves it. *)
Theorem failed_verification_leaves_record (e : ConvertEnv)
    (req : ConvertRequest) (upload : Multer.File) (w : Server)
    (r : Response) (w' : Server) (msg : string) :
  accepted req upload → uuidPresentation e ≠ "" →
  mkdirOutput e = None →
  saveFind (dbFaults e) = None → saveWrite (dbFaults e) = None →
  verifyFind (dbFaults e) = Some msg →
  postConvert e req w = (r, w') →
  r = databaseError "Database verification failed" (uuidPresentation e) ∧
  presentations w' = presentations w ∧
  presentationsByTopic w' = presentationsByTopic w ∧
  ∃ p,
    Mongo.findOne None (Mongo.liveWithId (uuidPresentation e)) (db w') = Ok (Some p) ∧
    originalName p = Multer.originalname upload ∧
    (presentations w !! uuidPresentation e = None →
     JS.inherited (uuidPresentation e) = false →
     ordinaryTopics (requestTopics (bodyTopics req)) →
     (getPresentation noGetFaults (uuidPresentation e) None w').1
     = json (PresentationBody p)).
Proof.
  intros Hacc Hid Hmkdir Hfind Hwrite Hverify Hpost.
  destruct (postConvert_accepted e req upload w Hacc Hmkdir)
    as (p & ok & fs & Hroute & Heq).
  rewrite Hpost in Heq.
  destruct (Route_id _ _ _ _ _ _ _ Hroute) as [Hpid Htopics].
  simpl in Hpid, Htopics.
  pose proof (Route_metadata _ _ _ _ _ _ _ Hroute)
    as (Hname & _ & _ & _ & _ & _ & _ & Hdel).
  assert (Mongo.validate p = true) as Hv.
  { rewrite (Route_validate _ _ _ _ _ _ _ Hroute). by apply accepted_valid. }
  unfold saveVerifyCache in Heq.
  destruct (saveToDatabase_writes (dbFaults e) p (db (setFiles fs w))
              Hfind Hwrite Hv) as [c Hsave].
  rewrite Hsave in Heq.
  unfold verifyDatabaseSave, Mongo.findOne in Heq. rewrite Hverify in Heq.
  injection Heq as -> ->. rewrite Hpid.
  split; [done|]. split; [done|]. split; [done|].
  apply saveToDatabase_Ok in Hsave as (_ & Hp & _). rewrite Hpid in Hp.
  apply find_hasId_live in Hp; [|by rewrite Hdel].
  exists p. unfold Mongo.findOne. simpl. rewrite Hp.
  split; [done|]. split; [done|].
  intros Hmiss Hord Hordinary. unfold getPresentation. simpl.
  assert (JS.get (presentations w) (uuidPresentation e) = JS.Undefined) as ->
    by (by apply get_Undefined).
  unfold Mongo.findOne. simpl. rewrite Hp.
  pose proof (forEach_pushTopicOnce_ordinary (uuidPresentation e) (topics p)
                (presentationsByTopic w)) as Hnone.
  rewrite Htopics in Hnone. specialize (Hnone Hordinary). rewrite <- Htopics in Hnone.
  destruct (JS.forEach _ _ _) as [byTopic thrown]. simpl in Hnone. by subst thrown.
Qed.

Lemma failed_verification_leaves_record_witness :
  (postConvert verifyDownEnv deckUpload emptyServer).1
  = databaseError "Database verification failed" "p-1" ∧
  presentations (postConvert verifyDownEnv deckUpload emptyServer).2
  = presentations emptyServer ∧
  presentationsByTopic (postConvert verifyDownEnv deckUpload emptyServer).2
  = presentationsByTopic emptyServer ∧
  ∃ p,
    Mongo.findOne None (Mongo.liveWithId "p-1")
      (db (postConvert verifyDownEnv deckUpload emptyServer).2) = Ok (Some p) ∧
    originalName p = "Deck.PPTX" ∧
    (presentations emptyServer !! "p-1" = None →
     JS.inherited "p-1" = false →
     ordinaryTopics (requestTopics (bodyTopics deckUpload)) →
     (getPresentation noGetFaults "p-1" None
        (postConvert verifyDownEnv deckUpload emptyServer).2).1
     = json (PresentationBody p)).
Proof.
  apply (failed_verification_leaves_record verifyDownEnv deckUpload
           (Multer.mkFile "Deck.PPTX" 1000%N) emptyServer
           (postConvert verifyDownEnv deckUpload emptyServer).1
           (postConvert verifyDownEnv deckUpload emptyServer).2
           "MongoNetworkError").
  - reflexivity.
  - discriminate.
  - reflexivity.
  - reflexivity.
  - reflexivity.
  - reflexivity.
  - apply surjective_pairing.
Defined.

(** ** GET /presentation/:id *)

Lemma find_live_None_iff pid c :
  List.find (Mongo.liveWithId pid) c = None ↔ ¬ existsLive pid c.
Proof.
  unfold existsLive. split.
  - intros Hnone (d & Hin & Hid & Hlive).
    apply list_elem_of_In in Hin.
    pose proof (List.find_none _ _ Hnone d Hin) as Hd.
    assert (Mongo.liveWithId pid d = true) by (by apply liveWithId_true).
    congruence.
  - intros Hnot. destruct (List.find _ c) as [d|] eqn:Hfind; [|done].
    destruct Hnot. apply List.find_some in Hfind as [Hin Hd].
    apply liveWithId_true in Hd as [? ?].
    exists d. by rewrite list_elem_of_In.
Qed.



Lemma recordSeen_ordinary u pid (h : gmap string (list string)) :
  JS.inherited u = false → (recordSeen u pid h).2 = None.
Proof.
  intros H. unfold recordSeen. rewrite (get_ordinary _ _ H).
  destruct (h !! u); [|done]. by case_bool_decide.
Qed.

Lemma getPresentation_hit f pid u cached d w :
  presentations w !! pid = Some cached → u ≠ "" → JS.inherited u = false →
  getInc f = None →
  List.find (Mongo.hasId pid) (db w) = Some d →
  (getPresentation f pid (Some u) w).1 = json (PresentationBody cached) ∧
  presentations (getPresentation f pid (Some u) w).2 !! pid = Some cached ∧
  List.find (Mongo.hasId pid) (db (getPresentation f pid (Some u) w).2)
  = Some (incrementView d).
Proof.
  intros Hc Hu Hord Hinc Hd. unfold getPresentation.
  apply get_Own in Hc as Hget. rewrite Hget. unfold getCached, truthy.
  apply String.eqb_neq in Hu. rewrite Hu.
  pose proof (recordSeen_ordinary u pid (userPresentationHistory w) Hord) as Hseen.
  destruct (recordSeen u pid _) as [h thrown]. simpl in Hseen. subst thrown.
  unfold Mongo.findOneAndUpdate. rewrite Hinc. simpl.
  destruct (updateFirst_find _ incrementView _ _ Hd) as (c' & -> & Hfind & _).
  simpl. split; [done|]. split; [done|].
  apply Hfind. apply List.find_some in Hd as [_ Hd]. exact Hd.
Qed.

(** X11. While an id stays cached, every GET /presentation/:id with a
    userId that is not a property name of [Object.prototype] is answered
    with the cached record, so the view count in the answer never moves,
    while the stored document counts every view (once the update, which
    the handler does not await, has been applied). *)
Theorem cached_view_count_never_refreshed (f : GetFaults) (pid u : string)
    (cached d : Presentation) (w : Server) (n : nat) :
  presentations w !! pid = Some cached → u ≠ "" → JS.inherited u = false →
  getInc f = None →
  List.find (Mongo.hasId pid) (db w) = Some d →
  (getPresentation f pid (Some u)
     (Nat.iter n (λ w, (getPresentation f pid (Some u) w).2) w)).1
  = json (PresentationBody cached) ∧
  ∃ dn,
    List.find (Mongo.hasId pid)
      (db (Nat.iter n (λ w, (getPresentation f pid (Some u) w).2) w)) = Some dn ∧
    viewCount dn = viewCount d + n.
Proof.
  intros Hc Hu Hord Hinc Hd.
  enough (presentations (Nat.iter n (λ w, (getPresentation f pid (Some u) w).2) w)
            !! pid = Some cached ∧
          ∃ dn,
            List.find (Mongo.hasId pid)
              (db (Nat.iter n (λ w, (getPresentation f pid (Some u) w).2) w))
            = Some dn ∧
            viewCount dn = viewCount d + n) as (Hcn & dn & Hdn & Hcount).
  { split; [|by eauto].
    by destruct (getPresentation_hit f pid u cached dn _ Hcn Hu Hord Hinc Hdn)
      as [? _]. }
  induction n as [|n (Hcn & dn & Hdn & Hcount)]; simpl.
  - split; [done|]. exists d. split; [done | lia].
  - destruct (getPresentation_hit f pid u cached dn _ Hcn Hu Hord Hinc Hdn)
      as (_ & Hc' & Hd').
    split; [done|]. exists (incrementView dn). split; [done|]. simpl. lia.
Qed.

Lemma cached_view_count_never_refreshed_witness :
  (getPresentation noGetFaults "p-1" (Some "u-2")
     (Nat.iter 3 (λ w, (getPresentation noGetFaults "p-1" (Some "u-2") w).2)
        oneDeckServer)).1
  = json (PresentationBody storedDeck) ∧
  ∃ dn,
    List.find (Mongo.hasId "p-1")
      (db (Nat.iter 3 (λ w, (getPresentation noGetFaults "p-1" (Some "u-2") w).2)
             oneDeckServer)) = Some dn ∧
    viewCount dn = viewCount storedDeck + 3.
Proof.
  apply (cached_view_count_never_refreshed noGetFaults "p-1" "u-2" storedDeck
           storedDeck oneDeckServer 3).
  - reflexivity.
  - discriminate.
  - reflexivity.
  - reflexivity.
  - reflexivity.
Defined.

Lemma getCached_status f pid userId answer w :
  statusCode (getCached f pid userId answer w).1 = 200
  ∨ statusCode (getCached f pid userId answer w).1 = 0.
Proof.
  unfold getCached. destruct (truthy userId) as [u|]; [|by left].
  destruct (recordSeen u pid _) as [h [msg|]]; [by right|].
  destruct (Mongo.findOneAndUpdate _ _ _ _) as [[o c]|msg]; by left.
Qed.

(** X12. With a working lookup, GET /presentation/:id answers 404 exactly
    when the id is not cached, is not a property name of
    [Object.prototype], which the cache object would inherit, and is
    carried by no live document; it then changes nothing. *)
Theorem get_404_iff_absent (f : GetFaults) (pid : string)
    (userId : option string) (w : Server) :
  getFind f = None →
  (statusCode (getPresentation f pid userId w).1 = 404
   ↔ presentations w !! pid = None ∧ JS.inherited pid = false
     ∧ ¬ existsLive pid (db w)) ∧
  (statusCode (getPresentation f pid userId w).1 = 404 →
   getPresentation f pid userId w
   = (statusJson 404 (ErrorBody "Presentation not found"), w)).
Proof.
  intros Hfind. unfold getPresentation, Mongo.findOne. rewrite Hfind.
  destruct (JS.get (presentations w) pid) as [cached| |] eqn:Hget.
  - apply get_Own in Hget.
    destruct (getCached_status f pid userId (PresentationBody cached) w) as [H|H];
      rewrite H; (split; [split|]; [discriminate | intros [? _]; congruence
                                   | discriminate]).
  - apply get_Inherited in Hget as [_ Hinh].
    destruct (getCached_status f pid userId (InheritedBody pid) w) as [H|H];
      rewrite H; (split; [split|]; [discriminate | intros (_ & ? & _); congruence
                                   | discriminate]).
  - apply get_Undefined in Hget as [Hnone Hord].
    destruct (List.find _ (db w)) as [d|] eqn:Hd.
    + assert (¬ List.find (Mongo.liveWithId pid) (db w) = None) as Hsome
        by congruence.
      rewrite find_live_None_iff in Hsome.
      destruct (JS.forEach _ _ _) as [byTopic [msg|]].
      { simpl. split; [split|]; [discriminate | by intros (_ & _ & ?)
                                | discriminate]. }
      destruct (truthy userId) as [u|].
      * destruct (Mongo.findOneAndUpdate _ _ _ _) as [[? ?]|?];
          [destruct (recordSeen u pid _) as [h [msg|]]|]; simpl;
          (split; [split|]; [discriminate | by intros (_ & _ & ?) | discriminate]).
      * simpl. split; [split|]; [discriminate | by intros (_ & _ & ?)
                                | discriminate].
    + apply find_live_None_iff in Hd. simpl. done.
Qed.

Lemma get_404_iff_absent_witness :
  (statusCode (getPresentation noGetFaults "p-2" (Some "u-1") coldServer).1 = 404
   ↔ presentations coldServer !! "p-2" = None ∧ JS.inherited "p-2" = false
     ∧ ¬ existsLive "p-2" (db coldServer)) ∧
  (statusCode (getPresentation noGetFaults "p-2" (Some "u-1") coldServer).1 = 404 →
   getPresentation noGetFaults "p-2" (Some "u-1") coldServer
   = (statusJson 404 (ErrorBody "Presentation not found"), coldServer)).
Proof.
  apply (get_404_iff_absent noGetFaults "p-2" (Some "u-1") coldServer).
  reflexivity.
Defined.

(** ** The view history *)

Lemma getSeen_listed u pid w :
  listed (userPresentationHistory w) u pid →
  getSeen u pid w = catalogJson (SeenBody true).
Proof.
  intros (ids & Hids & Hin). unfold getSeen.
  apply get_Own in Hids. rewrite Hids.
  by rewrite bool_decide_eq_true_2.
Qed.

Lemma getSeen_not_listed u pid w :
  JS.inherited u = false →
  ¬ listed (userPresentationHistory w) u pid →
  getSeen u pid w = catalogJson (SeenBody false).
Proof.
  intros Hord Hnot. unfold getSeen. rewrite (get_ordinary _ _ Hord).
  destruct (userPresentationHistory w !! u) as [ids|] eqn:Hids; [|done].
  rewrite bool_decide_eq_false_2; [done|]. intros Hin. apply Hnot. by exists ids.
Qed.

Lemma recordSeen_listed u pid (h h' : gmap string (list string)) :
  recordSeen u pid h = (h', None) → listed h' u pid.
Proof.
  unfold recordSeen, listed.
  destruct (JS.get h u) as [seen| |] eqn:Hget; [| done |].
  - apply get_Own in Hget. case_bool_decide as Hin; intros [= <-].
    + by exists seen.
    + rewrite lookup_insert_eq. eexists. split; [done|].
      apply elem_of_app. right. by left.
  - intros [= <-]. rewrite lookup_insert_eq. eexists. split; [done | by left].
Qed.

(** Recording a view changes what [object[key]] is, and whether a list
    holds an id, for no other pair of user and presentation. *)
Lemma recordSeen_other u pid (h : gmap string (list string)) u' pid' :
  (u', pid') ≠ (u, pid) →
  match JS.get (recordSeen u pid h).1 u', JS.get h u' with
  | JS.Own seen', JS.Own seen => pid' ∈ seen' ↔ pid' ∈ seen
  | JS.Own seen', JS.Undefined => pid' ∉ seen'
  | JS.Inherited, JS.Inherited => True
  | JS.Undefined, JS.Undefined => True
  | _, _ => False
  end.
Proof.
  intros Hne. unfold recordSeen.
  destruct (JS.get h u) as [seen| |] eqn:Hget; simpl.
  - apply get_Own in Hget. case_bool_decide as Hin; simpl.
    { destruct (JS.get h u'); done. }
    destruct (decide (u' = u)) as [->|Hu].
    + assert (pid' ≠ pid) as Hpid by congruence.
      rewrite (proj2 (get_Own _ _ _) (lookup_insert_eq _ _ _)).
      rewrite (proj2 (get_Own _ _ _) Hget).
      rewrite elem_of_app, list_elem_of_singleton. tauto.
    + unfold JS.get. rewrite lookup_insert_ne by done.
      destruct (h !! u'); [done|]. by destruct (JS.inherited u').
  - by destruct (JS.get h u').
  - apply get_Undefined in Hget as [Hnone Hord].
    destruct (decide (u' = u)) as [->|Hu].
    + assert (pid' ≠ pid) as Hpid by congruence.
      rewrite (proj2 (get_Own _ _ _) (lookup_insert_eq _ _ _)).
      rewrite (proj2 (get_Undefined _ _) (conj Hnone Hord)).
      by intros ->%list_elem_of_singleton.
    + unfold JS.get. rewrite lookup_insert_ne by done.
      destruct (h !! u'); [done|]. by destruct (JS.inherited u').
Qed.

(** X13. Marking a presentation as seen, for a user id that is not a
    property name of [Object.prototype], is answered with success and read
    back as seen. For every user id, marking changes the answer for no
    other pair of user and presentation, and marking twice is the same as
    marking once. For a user id the history object inherits, both handlers
    answer 500 through the error-handling middleware and change nothing. *)
Theorem seen_round_trip (u pid : string) (w : Server) :
  (JS.inherited u = false →
   (postSeen u pid w).1 = catalogJson SuccessOnlyBody ∧
   getSeen u pid (postSeen u pid w).2 = catalogJson (SeenBody true)) ∧
  (∀ u' pid', (u', pid') ≠ (u, pid) →
     getSeen u' pid' (postSeen u pid w).2 = getSeen u' pid' w) ∧
  postSeen u pid (postSeen u pid w).2 = postSeen u pid w ∧
  (JS.inherited u = true → userPresentationHistory w !! u = None →
   catalogStatus (postSeen u pid w).1 = 500 ∧
   (postSeen u pid w).2 = w ∧
   catalogStatus (getSeen u pid w) = 500).
Proof.
  split; [|split; [|split]].
  - intros Hord. unfold postSeen.
    pose proof (recordSeen_ordinary u pid (userPresentationHistory w) Hord) as Hnone.
    destruct (recordSeen u pid _) as [h thrown] eqn:Hseen. simpl in Hnone.
    subst thrown. split; [done|].
    apply getSeen_listed. simpl. by apply (recordSeen_listed _ _ _ _ Hseen).
  - intros u' pid' Hne.
    pose proof (recordSeen_other u pid (userPresentationHistory w) u' pid' Hne) as H.
    assert (userPresentationHistory (postSeen u pid w).2
            = (recordSeen u pid (userPresentationHistory w)).1) as Hh.
    { unfold postSeen. destruct (recordSeen u pid _) as [h [msg|]] eqn:Hseen;
        [|done]. simpl. revert Hseen. unfold recordSeen.
      destruct (JS.get _ u); [|by intros [= <-]|done].
      case_bool_decide; by intros [= <-]. }
    unfold getSeen. rewrite Hh.
    destruct (JS.get (recordSeen u pid _).1 u') as [seen'| |],
             (JS.get (userPresentationHistory w) u') as [seen| |]; try done.
    + by rewrite (bool_decide_ext _ _ H).
    + by rewrite bool_decide_eq_false_2.
  - unfold postSeen at 2 3.
    destruct (recordSeen u pid (userPresentationHistory w)) as [h [msg|]] eqn:Hseen.
    + simpl. unfold postSeen. by rewrite Hseen.
    + pose proof (recordSeen_listed _ _ _ _ Hseen) as (ids & Hids & Hin).
      unfold postSeen. simpl. unfold recordSeen at 1.
      rewrite (proj2 (get_Own _ _ _) Hids).
      by rewrite bool_decide_eq_true_2.
  - intros Hinh Hnone. unfold postSeen, getSeen, recordSeen.
    by rewrite (proj2 (get_Inherited _ _) (conj Hnone Hinh)).
Qed.

(** X14. A 200 answer to GET /presentation/:id with a non-empty userId
    records the view: the presentation is then reported as seen by that
    user. *)
Theorem get_with_user_marks_seen (f : GetFaults) (pid u : string) (w : Server)
    (r : Response) (w' : Server) :
  u ≠ "" →
  getPresentation f pid (Some u) w = (r, w') →
  statusCode r = 200 →
  getSeen u pid w' = catalogJson (SeenBody true).
Proof.
  intros Hu%String.eqb_neq. unfold getPresentation, getCached, truthy. rewrite Hu.
  assert (∀ answer,
            match recordSeen u pid (userPresentationHistory w) with
            | (_, Some msg) => (unanswered msg, w)
            | (h, None) =>
                match Mongo.findOneAndUpdate (getInc f) (Mongo.hasId pid)
                        incrementView (db (setHistory h w)) with
                | Ok (_, c) => (json answer, setDb c (setHistory h w))
                | Throw _ => (json answer, setHistory h w)
                end
            end = (r, w') →
            statusCode r = 200 → getSeen u pid w' = catalogJson (SeenBody true))
    as Hhit.
  { intros answer.
    destruct (recordSeen u pid _) as [h [msg|]] eqn:Hseen;
      [by intros [= <- <-]|].
    apply recordSeen_listed in Hseen.
    destruct (Mongo.findOneAndUpdate _ _ _ _) as [[o c]|msg];
      intros [= <- <-] _; by apply getSeen_listed. }
  destruct (JS.get (presentations w) pid) as [cached| |]; [apply Hhit..|].
  destruct (Mongo.findOne _ _ _) as [[d|]|msg]; [|by intros [= <- <-]..].
  destruct (JS.forEach _ _ _) as [byTopic [msg|]]; [by intros [= <- <-]|].
  destruct (Mongo.findOneAndUpdate _ _ _ _) as [[o c]|msg];
    [|by intros [= <- <-]].
  destruct (recordSeen u pid _) as [h [msg|]] eqn:Hseen;
    [by intros [= <- <-]|].
  apply recordSeen_listed in Hseen.
  intros [= <- <-] _. by apply getSeen_listed.
Qed.

Lemma get_with_user_marks_seen_witness :
  getSeen "u-2" "p-3" (getPresentation noGetFaults "p-3" (Some "u-2") coldServer).2
  = catalogJson (SeenBody true).
Proof.
  apply (get_with_user_marks_seen noGetFaults "p-3" "u-2" coldServer
           (getPresentation noGetFaults "p-3" (Some "u-2") coldServer).1
           (getPresentation noGetFaults "p-3" (Some "u-2") coldServer).2).
  - discriminate.
  - apply surjective_pairing.
  - reflexivity.
Defined.

(** ** DELETE /presentation/:id *)

Lemma elem_of_filter_isNot pid (ids : list string) x :
  x ∈ List.filter (isNot pid) ids ↔ x ∈ ids ∧ x ≠ pid.
Proof.
  rewrite !list_elem_of_In, List.filter_In. unfold isNot.
  by rewrite negb_true_iff, String.eqb_neq.
Qed.

Lemma forget_listed pid w u x :
  listed (userPresentationHistory (forget pid w)) u x
  ↔ listed (userPresentationHistory w) u x ∧ x ≠ pid.
Proof.
  unfold forget, listed. simpl. rewrite lookup_fmap.
  destruct (userPresentationHistory w !! u) as [ids|]; simpl.
  - split.
    + intros (ids' & [= <-] & [? ?]%elem_of_filter_isNot). eauto.
    + intros [(ids' & [= <-] & ?) ?]. eexists. split; [done|].
      by apply elem_of_filter_isNot.
  - split; [by intros (? & ? & ?) | by intros [(? & ? & ?) _]].
Qed.

(** A 200 of DELETE comes with the eviction done and the history
    filtered. *)
Lemma deletePresentation_200 fault pid w r w' :
  deletePresentation fault pid w = (r, w') → statusCode r = 200 →
  ∃ w0, (evict pid w0).2 = None ∧ w' = forget pid (evict pid w0).1 ∧
        presentations w0 = presentations w ∧
        userPresentationHistory w0 = userPresentationHistory w.
Proof.
  assert (∀ w0, presentations w0 = presentations w →
                userPresentationHistory w0 = userPresentationHistory w →
                deleteFromMemory pid w0 = (r, w') → statusCode r = 200 →
                ∃ w0, (evict pid w0).2 = None ∧ w' = forget pid (evict pid w0).1 ∧
                      presentations w0 = presentations w ∧
                      userPresentationHistory w0 = userPresentationHistory w)
    as Hmemory.
  { intros w0 Hc Hh. unfold deleteFromMemory.
    destruct (JS.get (presentations w0) pid) as [cached| |];
      [| |by intros [= <- <-]];
      destruct (evict pid w0) as [w1 [msg|]] eqn:Hev;
      try (by intros [= <- <-]);
      intros [= <- <-] _; exists w0; by rewrite Hev. }
  unfold deletePresentation.
  destruct (Mongo.findOneAndUpdate _ _ _ _) as [[[d|] c]|msg].
  - destruct (evict pid (setDb c w)) as [w1 [msg|]] eqn:Hev.
    + apply Hmemory.
      * pose proof (evict_cache pid (setDb c w)) as H. by rewrite Hev in H.
      * pose proof (evict_frame pid (setDb c w)) as (_ & _ & H).
        by rewrite Hev in H.
    + intros [= <- <-] _. exists (setDb c w). by rewrite Hev.
  - by intros [= <- <-].
  - by apply Hmemory.
Qed.

(** X15. After a 200 answer to DELETE /presentation/:id, with or without
    the database, no history list holds the id any more, so for every user
    id that is not a property name of [Object.prototype] the presentation
    is reported as not seen; the answers for every other presentation are
    as before, for every user id. *)
Theorem delete_clears_views (fault : Fault) (pid : string) (w : Server)
    (r : Response) (w' : Server) :
  deletePresentation fault pid w = (r, w') →
  statusCode r = 200 →
  (∀ u, ¬ listed (userPresentationHistory w') u pid) ∧
  (∀ u, JS.inherited u = false → getSeen u pid w' = catalogJson (SeenBody false)) ∧
  (∀ u other, other ≠ pid → getSeen u other w' = getSeen u other w).
Proof.
  intros Hdel Hstatus.
  destruct (deletePresentation_200 _ _ _ _ _ Hdel Hstatus)
    as (w0 & _ & -> & _ & Hh).
  assert (userPresentationHistory (evict pid w0).1 = userPresentationHistory w)
    as Hh1 by (by destruct (evict_frame pid w0) as (_ & _ & ->)).
  assert (∀ u, ¬ listed (userPresentationHistory (forget pid (evict pid w0).1)) u pid)
    as Hclean by (intros u [_ ?]%forget_listed; done).
  split; [done|]. split; [intros; by apply getSeen_not_listed|].
  intros u other Hother. unfold getSeen, forget. simpl. rewrite Hh1.
  unfold JS.get. rewrite lookup_fmap.
  destruct (userPresentationHistory w !! u) as [seen|]; simpl; [|done].
  do 2 f_equal. apply bool_decide_ext. rewrite elem_of_filter_isNot. tauto.
Qed.

Lemma delete_clears_views_witness :
  (∀ u, ¬ listed (userPresentationHistory
                    (deletePresentation None "p-1" oneDeckServer).2) u "p-1") ∧
  (∀ u, JS.inherited u = false →
        getSeen u "p-1" (deletePresentation None "p-1" oneDeckServer).2
        = catalogJson (SeenBody false)) ∧
  (∀ u other, other ≠ "p-1" →
     getSeen u other (deletePresentation None "p-1" oneDeckServer).2
     = getSeen u other oneDeckServer).
Proof.
  apply (delete_clears_views None "p-1" oneDeckServer
           (deletePresentation None "p-1" oneDeckServer).1
           (deletePresentation None "p-1" oneDeckServer).2).
  - apply surjective_pairing.
  - reflexivity.
Defined.

(** X16. With a working database, DELETE /presentation/:id answers 404
    exactly when no live document carries the id, and then changes nothing;
    under the unique index a second DELETE of the same id is such a 404. *)
Theorem delete_404_iff_absent (pid : string) (w : Server) :
  Mongo.uniqueIds (db w) →
  (statusCode (deletePresentation None pid w).1 = 404 ↔ ¬ existsLive pid (db w)) ∧
  (statusCode (deletePresentation None pid w).1 = 404 →
   (deletePresentation None pid w).2 = w) ∧
  (statusCode (deletePresentation None pid w).1 = 200 →
   deletePresentation None pid (deletePresentation None pid w).2
   = (statusJson 404 (ErrorBody "Presentation not found"),
      (deletePresentation None pid w).2)).
Proof.
  intros Hu.
  destruct (Mongo.updateFirst (Mongo.liveWithId pid) markDeleted (db w))
    as [[d c]|] eqn:Hup.
  - destruct (deletePresentation_marked pid w _ _ Hup) as (Hdb & _ & H404 & _).
    split; [split|split]; try done.
    + intros Hnot. apply find_live_None_iff in Hnot.
      apply (updateFirst_None _ markDeleted) in Hnot. congruence.
    + intros _.
      destruct (markDeleted_none_live _ _ _ _ Hu Hup) as (Hnone & _).
      apply (updateFirst_None _ markDeleted) in Hnone.
      unfold deletePresentation at 1. unfold Mongo.findOneAndUpdate.
      by rewrite Hdb, Hnone.
  - assert (deletePresentation None pid w
            = (statusJson 404 (ErrorBody "Presentation not found"), w)) as ->.
    { unfold deletePresentation, Mongo.findOneAndUpdate. by rewrite Hup. }
    simpl. split; [split|split]; try done.
    intros _. by apply find_live_None_iff, (updateFirst_None _ markDeleted).
Qed.

Lemma delete_404_iff_absent_witness :
  (statusCode (deletePresentation None "p-1" oneDeckServer).1 = 404
   ↔ ¬ existsLive "p-1" (db oneDeckServer)) ∧
  (statusCode (deletePresentation None "p-1" oneDeckServer).1 = 404 →
   (deletePresentation None "p-1" oneDeckServer).2 = oneDeckServer) ∧
  (statusCode (deletePresentation None "p-1" oneDeckServer).1 = 200 →
   deletePresentation None "p-1" (deletePresentation None "p-1" oneDeckServer).2
   = (statusJson 404 (ErrorBody "Presentation not found"),
      (deletePresentation None "p-1" oneDeckServer).2)).
Proof.
  apply (delete_404_iff_absent "p-1" oneDeckServer).
  unfold Mongo.uniqueIds. simpl. apply NoDup_singleton.
Defined.

(** ** Loading records into the cache *)

Lemma cacheRecord_frame w d :
  db (cacheRecord w d).1 = db w ∧ files (cacheRecord w d).1 = files w ∧
  userPresentationHistory (cacheRecord w d).1 = userPresentationHistory w.
Proof. unfold cacheRecord. by destruct (JS.forEach _ _ _). Qed.

Lemma forEach_cacheRecord_frame (l : list Presentation) w :
  db (JS.forEach cacheRecord w l).1 = db w ∧
  files (JS.forEach cacheRecord w l).1 = files w ∧
  userPresentationHistory (JS.forEach cacheRecord w l).1 = userPresentationHistory w.
Proof.
  apply (forEach_inv (λ s, db s = db w ∧ files s = files w ∧
                           userPresentationHistory s = userPresentationHistory w));
    [|done].
  intros s d (<- & <- & <-). apply cacheRecord_frame.
Qed.


Lemma forEach_cacheRecord_ordinary (l : list Presentation) w :
  (∀ d, d ∈ l → ordinaryTopics (topics d)) →
  (JS.forEach cacheRecord w l).2 = None.
Proof.
  revert w. induction l as [|d l IH]; intros w Hord; simpl; [done|].
  assert ((cacheRecord w d).2 = None) as Hnone.
  { unfold cacheRecord.
    pose proof (forEach_pushTopicOnce_ordinary (id d) (topics d)
                  (presentationsByTopic w) (Hord d ltac:(by left))) as H.
    destruct (JS.forEach _ _ _) as [byTopic thrown]. exact H. }
  destruct (cacheRecord w d) as [w1 [msg|]]; [done|].
  apply IH. intros d' Hd'. apply Hord. by right.
Qed.

Lemma find_hasId_absent pid (c : list Presentation) :
  pid ∉ id <$> c → List.find (Mongo.hasId pid) c = None.
Proof.
  induction c as [|x c IH]; simpl; [done|].
  rewrite not_elem_of_cons. intros [Hx Hc].
  destruct (Mongo.hasId pid x) eqn:Hid; [|by apply IH].
  apply hasId_true in Hid. congruence.
Qed.



Lemma cacheRecord_listed w d key x :
  listed (presentationsByTopic w) key x →
  listed (presentationsByTopic (cacheRecord w d).1) key x.
Proof.
  intros H. unfold cacheRecord.
  pose proof (forEach_pushTopicOnce_listed (id d) (topics d) _ key x H) as H'.
  by destruct (JS.forEach _ _ _).
Qed.

Lemma forEach_cacheRecord_listed (l : list Presentation) w key x :
  listed (presentationsByTopic w) key x →
  listed (presentationsByTopic (JS.forEach cacheRecord w l).1) key x.
Proof.
  apply (forEach_inv (λ s, listed (presentationsByTopic s) key x)).
  intros. by apply cacheRecord_listed.
Qed.



Lemma forEach_cacheRecord_duplicateFree (l : list Presentation) w :
  duplicateFree (presentationsByTopic w) →
  duplicateFree (presentationsByTopic (JS.forEach cacheRecord w l).1).
Proof.
  apply (forEach_inv (λ s, duplicateFree (presentationsByTopic s))).
  intros s d H. unfold cacheRecord.
  pose proof (forEach_pushTopicOnce_duplicateFree (id d) (topics d) _ H) as H'.
  by destruct (JS.forEach _ _ _).
Qed.





(** X18. When the reload of /admin/sync fails, the error is swallowed: the
    cache and the topic index, emptied before the reload, stay empty, and
    the handler still answers 200 with a memory count of 0 beside the count
    of live documents. *)
Theorem sync_with_failed_reload (f : SyncFaults) (msg : string) (w : Server) :
  syncFind f = Some msg →
  presentations (adminSync f w).2 = ∅ ∧
  presentationsByTopic (adminSync f w).2 = ∅ ∧
  db (adminSync f w).2 = db w ∧
  (syncCount f = None →
   (adminSync f w).1
   = catalogJson
       (SyncBody ("Sync completed: " +:+ JS.num 0
                  +:+ " presentations loaded from database")
                 (length (List.filter MongoQuery.live (db w))) 0)).
Proof.
  intros Hfind. unfold adminSync, loadPresentationsFromDatabase, MongoQuery.find,
    MongoQuery.countDocuments.
  rewrite Hfind. simpl.
  destruct (syncCount f); simpl; rewrite ?map_size_empty; by repeat split.
Qed.

Lemma sync_with_failed_reload_witness :
  presentations (adminSync (mkSyncFaults (Some "ECONNRESET") None) oneDeckServer).2
  = ∅ ∧
  presentationsByTopic
    (adminSync (mkSyncFaults (Some "ECONNRESET") None) oneDeckServer).2 = ∅ ∧
  db (adminSync (mkSyncFaults (Some "ECONNRESET") None) oneDeckServer).2
  = db oneDeckServer ∧
  (syncCount (mkSyncFaults (Some "ECONNRESET") None) = None →
   (adminSync (mkSyncFaults (Some "ECONNRESET") None) oneDeckServer).1
   = catalogJson
       (SyncBody ("Sync completed: " +:+ JS.num 0
                  +:+ " presentations loaded from database")
                 (length (List.filter MongoQuery.live (db oneDeckServer))) 0)).
Proof.
  apply (sync_with_failed_reload (mkSyncFaults (Some "ECONNRESET") None)
           "ECONNRESET" oneDeckServer).
  reflexivity.
Defined.

(** ** The topic listing *)

Lemma cachedPresentations_empty (ids : list string) w :
  presentations w = ∅ → cachedPresentations ids w = [].
Proof.
  intros Hc. unfold cachedPresentations.
  induction ids as [|x ids IH]; simpl; [done|].
  destruct (presentations w !! x) eqn:Hx; [|exact IH].
  by rewrite Hc, lookup_empty in Hx.
Qed.

(** The answer of the listing when the query throws. *)
Lemma getPresentationsByTopic_unreachable
    (regExp : string → Result (string → bool)) (msg t : string) (w : Server) :
  JS.inherited (JS.toLowerCase t) = false →
  getPresentationsByTopic regExp (Some msg) t w
  = (catalogJson
       (PresentationsBody
          (cachedPresentations
             (default [] (presentationsByTopic w !! JS.toLowerCase t)) w)),
     w).
Proof.
  intros Hord. unfold getPresentationsByTopic, MongoQuery.find, topicFromMemory.
  rewrite (get_ordinary _ _ Hord).
  destruct (regExp _); by destruct (presentationsByTopic w !! _).
Qed.



(** X20. GET /clear-cache empties the cache and nothing else; as the topic
    index keeps its ids, the topic listing then has nothing to answer from
    memory, whatever the topic whose lowercase form is not a property name
    of [Object.prototype]. *)
Theorem clear_cache_keeps_index (w : Server) :
  (clearCache w).1 = catalogJson (MessageBody "Cache cleared") ∧
  presentations (clearCache w).2 = ∅ ∧
  presentationsByTopic (clearCache w).2 = presentationsByTopic w ∧
  db (clearCache w).2 = db w ∧
  userPresentationHistory (clearCache w).2 = userPresentationHistory w ∧
  files (clearCache w).2 = files w ∧
  ∀ regExp msg t,
    JS.inherited (JS.toLowerCase t) = false →
    getPresentationsByTopic regExp (Some msg) t (clearCache w).2
    = (catalogJson (PresentationsBody []), (clearCache w).2).
Proof.
  do 6 (split; [done|]). intros regExp msg t Hord.
  rewrite getPresentationsByTopic_unreachable by done.
  by rewrite cachedPresentations_empty.
Qed.



(** ** PUT /presentation/:id *)



(** ** Eviction *)

(** X23. After a 200 answer to DELETE /presentation/:id, with or without
    the database, the record is gone from the cache, and whatever the topic
    listing answers from memory, for a topic whose lowercase form is not a
    property name of [Object.prototype], comes from the cache entry of
    another id. *)
Theorem deleted_never_listed_from_memory
    (regExp : string → Result (string → bool)) (fault : Fault)
    (pid msg t : string) (w : Server) (r : Response) (w' : Server) :
  deletePresentation fault pid w = (r, w') →
  statusCode r = 200 →
  JS.inherited (JS.toLowerCase t) = false →
  presentations w' !! pid = None ∧
  ∃ l, getPresentationsByTopic regExp (Some msg) t w'
       = (catalogJson (PresentationsBody l), w') ∧
       ∀ p, p ∈ l → ∃ other, other ≠ pid ∧ presentations w !! other = Some p.
Proof.
  intros Hdel Hstatus Hord.
  assert (presentations w' = delete pid (presentations w)) as Hc.
  { destruct (deletePresentation_200 _ _ _ _ _ Hdel Hstatus)
      as (w0 & Hnone & -> & Hc0 & _).
    pose proof (evict_cache pid w0) as Hev. rewrite Hnone in Hev.
    unfold forget. simpl. by rewrite Hev, Hc0. }
  split; [by rewrite Hc, lookup_delete_eq|].
  eexists. split; [by apply getPresentationsByTopic_unreachable|].
  intros p (other & _ & Hp)%list_elem_of_omap.
  rewrite Hc in Hp. apply lookup_delete_Some in Hp as [? ?]. by exists other.
Qed.

Lemma deleted_never_listed_from_memory_witness :
  presentations (deletePresentation (Some "ECONNRESET") "p-1" oneDeckServer).2
    !! "p-1" = None ∧
  ∃ l, getPresentationsByTopic (λ _, Ok containsA) (Some "ECONNRESET") "AI"
         (deletePresentation (Some "ECONNRESET") "p-1" oneDeckServer).2
       = (catalogJson (PresentationsBody l),
          (deletePresentation (Some "ECONNRESET") "p-1" oneDeckServer).2) ∧
       ∀ p, p ∈ l →
            ∃ other, other ≠ "p-1" ∧ presentations oneDeckServer !! other = Some p.
Proof.
  apply (deleted_never_listed_from_memory (λ _, Ok containsA)
           (Some "ECONNRESET") "p-1" "ECONNRESET" "AI" oneDeckServer
           (deletePresentation (Some "ECONNRESET") "p-1" oneDeckServer).1
           (deletePresentation (Some "ECONNRESET") "p-1" oneDeckServer).2).
  - apply surjective_pairing.
  - reflexivity.
  - reflexivity.
Defined.



(** ** The upload filter *)

Section Filter.

Lemma plain_split (l : list ascii) :
  forallb (λ c, negb (JS.isDot c || JS.isSlash c)) l = true →
  forallb (λ c, negb (JS.isDot c)) l = true ∧
  forallb (λ c, negb (JS.isSlash c)) l = true.
Proof.
  induction l as [|c l IH]; simpl; [done|].
  intros [Hc Hl]%andb_true_iff. destruct (IH Hl) as [-> ->].
  apply negb_true_iff, orb_false_iff in Hc as [-> ->]. done.
Qed.

Lemma rev_chars_nonempty s : s ≠ "" → rev (JS.chars s) ≠ [].
Proof.
  intros Hs Hrev. apply Hs. apply (f_equal (@rev _)) in Hrev.
  rewrite rev_involutive in Hrev. simpl in Hrev.
  rewrite <- (str_chars s). by rewrite Hrev.
Qed.

(** [path.extname] of a plain base name with a plain extension. *)
Lemma extname_extension base ext :
  base ≠ "" → plainName base = true → ext ≠ "" → plainName ext = true →
  JS.extname (base +:+ "." +:+ ext) = "." +:+ ext.
Proof.
  intros Hb Hpb He Hpe. unfold JS.extname, plainName in *.
  rewrite !chars_append, rev_app_distr. simpl JS.chars. simpl rev.
  rewrite <- app_assoc. simpl.
  rewrite <- forallb_rev in Hpb, Hpe.
  apply rev_chars_nonempty in Hb, He.
  set (re := rev (JS.chars ext)) in *. set (rb := rev (JS.chars base)) in *.
  destruct (plain_split _ Hpb) as [Hbd Hbs].
  destruct (plain_split _ Hpe) as [Hed Hes].
  assert (JS.dropWhile JS.isSlash (re ++ "."%char :: rb) = re ++ "."%char :: rb)
    as ->.
  { destruct re as [|c re']; [done|]. simpl in *.
    apply andb_true_iff in Hes as [Hc _]. apply negb_true_iff in Hc.
    by rewrite Hc. }
  destruct (takeWhile_all (λ c, negb (JS.isSlash c)) (re ++ "."%char :: rb))
    as [-> _].
  { rewrite forallb_app. simpl. by rewrite Hes, Hbs. }
  destruct (takeWhile_app_stop (λ c, negb (JS.isDot c)) re "."%char rb)
    as [-> ->]; [done | done |].
  destruct rb as [|c rb']; [done|].
  assert ((length re =? 0) = false) as -> by (by destruct re).
  rewrite andb_false_r. rewrite rev_app_distr. simpl.
  unfold re. by rewrite rev_involutive, str_chars.
Qed.

(** A name that starts with its only dot has no extension. *)
Lemma extname_hidden ext :
  plainName ext = true → JS.extname ("." +:+ ext) = "".
Proof.
  intros Hpe. unfold JS.extname, plainName in *.
  change ("." +:+ ext) with (String "."%char ext). simpl JS.chars. simpl rev.
  rewrite <- forallb_rev in Hpe.
  set (re := rev (JS.chars ext)) in *.
  destruct (plain_split _ Hpe) as [Hed Hes].
  assert (JS.dropWhile JS.isSlash (re ++ ["."%char]) = re ++ ["."%char]) as ->.
  { destruct re as [|c re']; [done|]. simpl in *.
    apply andb_true_iff in Hes as [Hc _]. apply negb_true_iff in Hc.
    by rewrite Hc. }
  destruct (takeWhile_all (λ c, negb (JS.isSlash c)) (re ++ ["."%char]))
    as [-> _].
  { rewrite forallb_app. simpl. by rewrite Hes. }
  destruct (takeWhile_app_stop (λ c, negb (JS.isDot c)) re "."%char [])
    as [_ ->]; done.
Qed.

(** The dot is its own small form and starts no longer sequence. *)
Lemma toLowerCase_dot ext :
  JS.toLowerCase (String "."%char ext) = String "."%char (JS.toLowerCase ext).
Proof. by destruct ext as [|c1 [|c2 s3]]. Qed.

End Filter.

(** X24. For a name [base.ext] without slashes whose only dot is the one
    before the extension, the upload filter accepts the file exactly when
    the lowercase form of the extension is ppt, pptx or key, so in any
    letter case and also with the Kelvin sign for the k; a name that is
    nothing but a dot and an extension, such as ".pptx", is refused. *)
Theorem upload_filter_by_extension (base ext : string) (size : N) :
  ext ≠ "" → plainName ext = true →
  (base ≠ "" → plainName base = true →
   (Multer.fileFilter (Multer.mkFile (base +:+ "." +:+ ext) size) = true
    ↔ JS.toLowerCase ext ∈ ["ppt"; "pptx"; "key"])) ∧
  Multer.fileFilter (Multer.mkFile ("." +:+ ext) size) = false.
Proof.
  intros He Hpe. split.
  - intros Hb Hpb. unfold Multer.fileFilter, Multer.allowedExtensions. simpl.
    rewrite (extname_extension base ext) by done.
    change ("." +:+ ext) with (String "."%char ext). rewrite toLowerCase_dot.
    simpl.
    rewrite !orb_true_iff, !String.eqb_eq, !elem_of_cons, elem_of_nil.
    intuition congruence.
  - unfold Multer.fileFilter. simpl. by rewrite extname_hidden.
Qed.

Lemma upload_filter_by_extension_witness :
  ("Deck" ≠ "" → plainName "Deck" = true →
   (Multer.fileFilter (Multer.mkFile ("Deck" +:+ "." +:+ "PpTx") 1000%N) = true
    ↔ JS.toLowerCase "PpTx" ∈ ["ppt"; "pptx"; "key"])) ∧
  Multer.fileFilter (Multer.mkFile ("." +:+ "PpTx") 1000%N) = false.
Proof.
  apply (upload_filter_by_extension "Deck" "PpTx" 1000%N).
  - discriminate.
  - reflexivity.
Defined.

(** The Kelvin sign lowercases to the letter k, so that the filter takes
    the extension for [.key]. *)
Example kelvin_sign_extension :
  JS.toLowerCase "KEY" = "key" ∧
  Multer.fileFilter (Multer.mkFile "deck.Key" 1000%N) = true.
Proof. split; reflexivity. Qed.

(** ** The placeholder texts *)

Lemma length_chars s : length (JS.chars s) = String.length s.
Proof.
  unfold JS.chars. induction s as [|c s IH]; simpl; [done | by rewrite IH].
Qed.

Lemma append_same_length_suffix s1 s2 t1 t2 :
  String.length t1 = String.length t2 →
  s1 +:+ t1 = s2 +:+ t2 → s1 = s2 ∧ t1 = t2.
Proof.
  intros Hlen Heq.
  apply (f_equal JS.chars) in Heq. rewrite !chars_append in Heq.
  apply app_inj_2 in Heq as [H1 H2].
  - apply (f_equal JS.str) in H1, H2. by rewrite !str_chars in H1, H2.
  - by rewrite !length_chars.
Qed.

Lemma distinctPlaceholderText_inj n m title :
  distinctPlaceholderText n title = distinctPlaceholderText m title → n = m.
Proof.
  unfold distinctPlaceholderText.
  destruct (n mod 2 =? 0) eqn:Hn, (m mod 2 =? 0) eqn:Hm.
  - intros H. apply String.app_inj, append_inj_r in H.
    by apply pretty_nat_inj in H.
  - intros H. exfalso.
    change "Different slide content would appear here."
      with ("Different " +:+ "slide content would appear here.") in H.
    rewrite <- !append_assoc in H.
    apply append_same_length_suffix in H as [_ H]; [discriminate H | done].
  - intros H. exfalso.
    change "Different slide content would appear here."
      with ("Different " +:+ "slide content would appear here.") in H.
    rewrite <- !append_assoc in H.
    apply append_same_length_suffix in H as [_ H]; [discriminate H | done].
  - intros H. apply String.app_inj, append_inj_r in H.
    by apply pretty_nat_inj in H.
Qed.

(** X25. For one title, the texts the two placeholder generators write for
    different slide numbers differ, so the placeholder files of a
    presentation can be told apart. *)
Theorem placeholder_texts_differ (n m : nat) (title : string) :
  n ≠ m →
  distinctPlaceholderText n title ≠ distinctPlaceholderText m title ∧
  placeholderText n title ≠ placeholderText m title.
Proof.
  intros Hnm. split; intros H; apply Hnm.
  - by apply (distinctPlaceholderText_inj _ _ title).
  - unfold placeholderText in H.
    apply String.app_inj, append_inj_r in H. by apply pretty_nat_inj in H.
Qed.

Lemma placeholder_texts_differ_witness :
  distinctPlaceholderText 1 "Deck.PPTX" ≠ distinctPlaceholderText 2 "Deck.PPTX" ∧
  placeholderText 1 "Deck.PPTX" ≠ placeholderText 2 "Deck.PPTX".
Proof.
  apply (placeholder_texts_differ 1 2 "Deck.PPTX"). lia.
Defined.

(** ** Saving *)

(** X26. What a successful [saveToDatabase] leaves behind: the first
    document with the id of the record is the record itself, so the
    read-back of [verifyDatabaseSave] finds it; the documents of other ids
    are as before; the collection grew by one document when no document
    carried the id, and kept its size otherwise. *)
Theorem save_then_find (f : DbFaults) (p : Presentation) (c : Mongo.Collection)
    (saved : Presentation) (c' : Mongo.Collection) :
  saveToDatabase f p c = Ok (saved, c') →
  saved = p ∧
  Mongo.findOne None (Mongo.hasId (id p)) c' = Ok (Some p) ∧
  verifyDatabaseSave noDbFaults (id p) c' = true ∧
  (∀ d, id d ≠ id p → d ∈ c' ↔ d ∈ c) ∧
  length c' = (if existsb (Mongo.hasId (id p)) c then length c else S (length c)).
Proof.
  intros Hsave.
  destruct (saveToDatabase_Ok _ _ _ _ _ Hsave) as (-> & Hfind & _).
  split; [done|]. unfold verifyDatabaseSave, Mongo.findOne. simpl. rewrite Hfind.
  split; [done|]. split; [done|].
  split; [intros d; by apply (saveToDatabase_others _ _ _ _ _ _ Hsave)|].
  destruct (saveToDatabase_split _ _ _ _ _ Hsave)
    as [(l1 & d & l2 & -> & -> & Hid)|[-> Hnew]].
  - rewrite existsb_app. simpl.
    apply hasId_true in Hid. rewrite Hid, orb_true_r.
    by rewrite !length_app.
  - apply find_hasId_absent, existsb_hasId_find in Hnew. rewrite Hnew.
    rewrite length_app. simpl. lia.
Qed.

Lemma save_then_find_witness :
  storedDeck = storedDeck ∧
  Mongo.findOne None (Mongo.hasId (id storedDeck)) [deletedDeck; storedDeck]
  = Ok (Some storedDeck) ∧
  verifyDatabaseSave noDbFaults (id storedDeck) [deletedDeck; storedDeck] = true ∧
  (∀ d, id d ≠ id storedDeck → d ∈ [deletedDeck; storedDeck] ↔ d ∈ [deletedDeck]) ∧
  length [deletedDeck; storedDeck]
  = (if existsb (Mongo.hasId (id storedDeck)) [deletedDeck]
     then length [deletedDeck] else S (length [deletedDeck])).
Proof.
  apply (save_then_find noDbFaults storedDeck [deletedDeck] storedDeck
           [deletedDeck; storedDeck]).
  reflexivity.
Defined.

(** ** Lists without repetitions *)

Lemma NoDup_filter_isNot pid (ids : list string) :
  NoDup ids → NoDup (List.filter (isNot pid) ids).
Proof.
  induction ids as [|x ids IH]; simpl; [done|].
  intros [Hx Hnd]%NoDup_cons. destruct (isNot pid x); [|by apply IH].
  apply NoDup_cons. split; [|by apply IH].
  intros [? _]%elem_of_filter_isNot. done.
Qed.

Lemma recordSeen_duplicateFree u pid (h : gmap string (list string)) :
  duplicateFree h → duplicateFree (recordSeen u pid h).1.
Proof.
  unfold duplicateFree, recordSeen. intros Hdf key ids.
  destruct (JS.get h u) as [old| |] eqn:Hget; simpl; [| by eauto |].
  - apply get_Own in Hget. case_bool_decide as Hin; simpl; [by eauto|].
    rewrite lookup_insert. case_decide; [|by eauto].
    intros [= <-]. apply NoDup_app. split; [eauto|].
    split; [|apply NoDup_singleton].
    intros x Hx ->%list_elem_of_singleton. done.
  - rewrite lookup_insert. case_decide; [|by eauto].
    intros [= <-]. apply NoDup_singleton.
Qed.

Lemma forget_duplicateFree pid w :
  duplicateFree (userPresentationHistory w) →
  duplicateFree (userPresentationHistory (forget pid w)).
Proof.
  unfold duplicateFree, forget. simpl. intros Hdf key ids.
  rewrite lookup_fmap.
  destruct (userPresentationHistory w !! key) as [old|] eqn:Hold; simpl; [|done].
  intros [= <-]. apply NoDup_filter_isNot. eauto.
Qed.

Lemma dropFromTopic_duplicateFree pid (index : gmap string (list string)) t :
  duplicateFree index → duplicateFree (dropFromTopic pid index t).1.
Proof.
  unfold duplicateFree, dropFromTopic. intros Hdf key ids.
  destruct (JS.get index (JS.toLowerCase t)) as [old| |] eqn:Hget; simpl;
    [|by eauto..].
  apply get_Own in Hget.
  rewrite lookup_insert. case_decide; [|by eauto].
  intros [= <-]. apply NoDup_filter_isNot. eauto.
Qed.

Lemma evict_duplicateFree pid w :
  duplicateFree (presentationsByTopic w) →
  duplicateFree (presentationsByTopic (evict pid w).1).
Proof.
  intros H. unfold evict.
  destruct (JS.get (presentations w) pid) as [cached| |]; [|done..].
  pose proof (forEach_inv duplicateFree (dropFromTopic pid) (topics cached)
                (presentationsByTopic w)
                (λ m t, dropFromTopic_duplicateFree pid m t) H) as H'.
  by destruct (JS.forEach _ _ _) as [byTopic [msg|]].
Qed.

Lemma forget_index pid w :
  presentationsByTopic (forget pid w) = presentationsByTopic w.
Proof. done. Qed.

Lemma getCached_duplicateFree f pid userId answer w :
  duplicateFree (userPresentationHistory w) →
  duplicateFree (userPresentationHistory (getCached f pid userId answer w).2) ∧
  presentationsByTopic (getCached f pid userId answer w).2 = presentationsByTopic w.
Proof.
  intros H. unfold getCached. destruct (truthy userId) as [u|]; [|done].
  pose proof (recordSeen_duplicateFree u pid _ H) as H'.
  destruct (recordSeen u pid _) as [h [msg|]]; [done|].
  by destruct (Mongo.findOneAndUpdate _ _ _ _) as [[o c]|msg].
Qed.

Lemma getPresentation_duplicateFree f pid userId w :
  duplicateFree (userPresentationHistory w) →
  duplicateFree (presentationsByTopic w) →
  duplicateFree (userPresentationHistory (getPresentation f pid userId w).2) ∧
  duplicateFree (presentationsByTopic (getPresentation f pid userId w).2).
Proof.
  intros Hh Hi. unfold getPresentation.
  destruct (JS.get (presentations w) pid) as [cached| |].
  - destruct (getCached_duplicateFree f pid userId (PresentationBody cached) w Hh)
      as [? ->]. done.
  - destruct (getCached_duplicateFree f pid userId (InheritedBody pid) w Hh)
      as [? ->]. done.
  - destruct (Mongo.findOne _ _ _) as [[d|]|msg]; [|done..].
    pose proof (forEach_pushTopicOnce_duplicateFree pid (topics d) _ Hi) as Hi'.
    destruct (JS.forEach _ _ _) as [byTopic [msg|]]; [done|].
    destruct (truthy userId) as [u|]; [|done].
    destruct (Mongo.findOneAndUpdate _ _ _ _) as [[o c]|msg]; [|done].
    pose proof (recordSeen_duplicateFree u pid _ Hh) as Hh'.
    simpl. by destruct (recordSeen u pid _) as [h [msg|]].
Qed.

Lemma deleteFromMemory_duplicateFree pid w :
  duplicateFree (userPresentationHistory w) →
  duplicateFree (presentationsByTopic w) →
  duplicateFree (userPresentationHistory (deleteFromMemory pid w).2) ∧
  duplicateFree (presentationsByTopic (deleteFromMemory pid w).2).
Proof.
  intros Hh Hi. unfold deleteFromMemory.
  pose proof (evict_duplicateFree pid w Hi) as Hi'.
  destruct (evict_frame pid w) as (_ & _ & Hh').
  destruct (JS.get (presentations w) pid) as [cached| |]; [| |done];
    destruct (evict pid w) as [w1 [msg|]]; simpl in *;
    (split; [|done]); try (by rewrite Hh');
    apply forget_duplicateFree; by rewrite Hh'.
Qed.

Lemma deletePresentation_duplicateFree fault pid w :
  duplicateFree (userPresentationHistory w) →
  duplicateFree (presentationsByTopic w) →
  duplicateFree (userPresentationHistory (deletePresentation fault pid w).2) ∧
  duplicateFree (presentationsByTopic (deletePresentation fault pid w).2).
Proof.
  intros Hh Hi. unfold deletePresentation.
  destruct (Mongo.findOneAndUpdate _ _ _ _) as [[[d|] c]|msg]; [|done|].
  - pose proof (evict_duplicateFree pid (setDb c w) Hi) as Hi'.
    destruct (evict_frame pid (setDb c w)) as (_ & _ & Hh').
    destruct (evict pid (setDb c w)) as [w1 [msg|]]; simpl in *.
    + apply deleteFromMemory_duplicateFree; [by rewrite Hh' | done].
    + split; [|done]. apply forget_duplicateFree. by rewrite Hh'.
  - by apply deleteFromMemory_duplicateFree.
Qed.

Lemma topicFromMemory_state topic w : (topicFromMemory topic w).2 = w.
Proof. unfold topicFromMemory. by destruct (JS.get _ _). Qed.

(** X27. That no list of the view history and no list of the topic index
    repeats an id is an invariant of the handlers that check before they
    push or only filter: marking as seen, GET /presentation/:id,
    DELETE /presentation/:id, the topic listing and the loading of the
    cache from the database. *)
Theorem lists_stay_duplicate_free (f : GetFaults) (fault : Fault)
    (regExp : string → Result (string → bool))
    (u pid t : string) (userId : option string) (w : Server) :
  duplicateFree (userPresentationHistory w) →
  duplicateFree (presentationsByTopic w) →
  duplicateFree (userPresentationHistory (postSeen u pid w).2) ∧
  duplicateFree (userPresentationHistory (getPresentation f pid userId w).2) ∧
  duplicateFree (userPresentationHistory (deletePresentation fault pid w).2) ∧
  duplicateFree (presentationsByTopic (getPresentation f pid userId w).2) ∧
  duplicateFree (presentationsByTopic (deletePresentation fault pid w).2) ∧
  duplicateFree (presentationsByTopic (getPresentationsByTopic regExp fault t w).2) ∧
  duplicateFree (presentationsByTopic (loadPresentationsFromDatabase fault w)).
Proof.
  intros Hh Hi.
  destruct (getPresentation_duplicateFree f pid userId w Hh Hi) as [Hgh Hgi].
  destruct (deletePresentation_duplicateFree fault pid w Hh Hi) as [Hdh Hdi].
  split; [|do 4 (split; [done|]); split].
  - unfold postSeen.
    pose proof (recordSeen_duplicateFree u pid _ Hh) as H.
    by destruct (recordSeen u pid _) as [h [msg|]].
  - unfold getPresentationsByTopic.
    destruct (regExp _) as [test|msg]; [|by rewrite topicFromMemory_state].
    destruct (MongoQuery.find _ _ _) as [l|msg];
      [|by rewrite topicFromMemory_state].
    destruct (0 <? length l).
    + pose proof (forEach_cacheRecord_duplicateFree l w Hi) as H.
      destruct (JS.forEach cacheRecord w l) as [w1 [msg|]];
        [by rewrite topicFromMemory_state | done].
    + destruct (JS.get _ _) as [ids| |]; [by destruct (0 <? length ids)| |done].
      destruct (JS.inheritedLengthPositive _); [|done].
      by rewrite topicFromMemory_state.
  - unfold loadPresentationsFromDatabase.
    destruct (MongoQuery.find _ _ _) as [l|msg]; [|done].
    by apply forEach_cacheRecord_duplicateFree.
Qed.

Lemma lists_stay_duplicate_free_witness :
  duplicateFree (userPresentationHistory (postSeen "u-1" "p-1" oneDeckServer).2) ∧
  duplicateFree
    (userPresentationHistory
       (getPresentation noGetFaults "p-1" (Some "u-1") oneDeckServer).2) ∧
  duplicateFree
    (userPresentationHistory (deletePresentation None "p-1" oneDeckServer).2) ∧
  duplicateFree
    (presentationsByTopic
       (getPresentation noGetFaults "p-1" (Some "u-1") oneDeckServer).2) ∧
  duplicateFree
    (presentationsByTopic (deletePresentation None "p-1" oneDeckServer).2) ∧
  duplicateFree
    (presentationsByTopic
       (getPresentationsByTopic (λ _, Ok containsA) None "AI" oneDeckServer).2) ∧
  duplicateFree
    (presentationsByTopic (loadPresentationsFromDatabase None oneDeckServer)).
Proof.
  apply (lists_stay_duplicate_free noGetFaults None (λ _, Ok containsA)
           "u-1" "p-1" "AI" (Some "u-1") oneDeckServer).
  - intros key ids. simpl. intros [_ <-]%lookup_singleton_Some.
    apply NoDup_singleton.
  - intros key ids. simpl. intros [_ <-]%lookup_singleton_Some.
    apply NoDup_singleton.
Defined.

(** ** The unseen listing *)

Lemma notSeenBy_true u w k :
  notSeenBy u w k = true ↔ ¬ listed (userPresentationHistory w) u k.
Proof.
  unfold notSeenBy, listed. rewrite negb_true_iff, bool_decide_eq_false.
  destruct (userPresentationHistory w !! u) as [seen|]; simpl.
  - split.
    + intros Hk (ids & [= <-] & ?). done.
    + intros Hnot Hin. apply Hnot. by exists seen.
  - split; [by intros _ (? & ? & ?) | intros _; apply not_elem_of_nil].
Qed.

Lemma unseenOnly_Ok {X : Type} u w (key : X → string) (l l' : list X) :
  unseenOnly u w key l = Ok l' →
  l' = List.filter (λ x, notSeenBy u w (key x)) l.
Proof.
  unfold unseenOnly.
  destruct (JS.get _ _); [| destruct l |]; by intros [= <-].
Qed.

Lemma unseenOnly_ordinary {X : Type} u w (key : X → string) (l : list X) :
  JS.inherited u = false →
  unseenOnly u w key l = Ok (List.filter (λ x, notSeenBy u w (key x)) l).
Proof.
  intros Hord. unfold unseenOnly. rewrite (get_ordinary _ _ Hord).
  by destruct (userPresentationHistory w !! u).
Qed.

(** What the memory branch shows are cache entries under ids the user has
    not seen. *)
Lemma unseenFromMemory_Ok u key w l :
  unseenFromMemory u key w = Ok l →
  ∀ p, p ∈ l →
       ∃ k, ¬ listed (userPresentationHistory w) u k ∧ presentations w !! k = Some p.
Proof.
  unfold unseenFromMemory.
  destruct (JS.get _ key) as [ids| |]; [|done|].
  - destruct (unseenOnly u w _ ids) as [unseen|msg] eqn:Hunseen; [|done].
    apply unseenOnly_Ok in Hunseen. subst unseen.
    intros [= <-] p (k & Hk & Hp)%list_elem_of_omap. exists k. split; [|done].
    apply list_elem_of_In, List.filter_In in Hk as [_ Hk].
    by apply notSeenBy_true.
  - intros [= <-] p Hp. by apply elem_of_nil in Hp.
Qed.

Lemma unseenFromMemory_ordinary u key w :
  JS.inherited u = false → JS.inherited key = false →
  ∃ l, unseenFromMemory u key w = Ok l.
Proof.
  intros Hu Hkey. unfold unseenFromMemory. rewrite (get_ordinary _ _ Hkey).
  destruct (presentationsByTopic w !! key) as [ids|]; [|by eauto].
  rewrite unseenOnly_ordinary by done. by eauto.
Qed.

Lemma unseenCatch_state u key w : (unseenCatch u key w).2 = w.
Proof. unfold unseenCatch. by destruct (unseenFromMemory _ _ _). Qed.

Lemma unseenCatch_list u key w l :
  (unseenCatch u key w).1 = catalogJson (PresentationsBody l) →
  ∀ p, p ∈ l →
       ∃ k, ¬ listed (userPresentationHistory w) u k ∧ presentations w !! k = Some p.
Proof.
  unfold unseenCatch.
  destruct (unseenFromMemory u key w) as [l'|msg] eqn:Hmem; [|done].
  intros [= <-]. by apply (unseenFromMemory_Ok u key w).
Qed.

Lemma unseenCatch_ordinary u key w :
  JS.inherited u = false → JS.inherited key = false →
  ∃ l, (unseenCatch u key w).1 = catalogJson (PresentationsBody l).
Proof.
  intros Hu Hkey. unfold unseenCatch.
  destruct (unseenFromMemory_ordinary u key w Hu Hkey) as [l ->]. by eauto.
Qed.

(** A cache entry after the caching loop, whether it threw or not, was
    there before or is one of the records of the loop. *)
Lemma forEach_cacheRecord_cache_inv (l : list Presentation) w k p :
  presentations (JS.forEach cacheRecord w l).1 !! k = Some p →
  presentations w !! k = Some p ∨ (p ∈ l ∧ id p = k).
Proof.
  revert w. induction l as [|d l IH]; intros w; simpl; [auto|].
  assert (presentations (cacheRecord w d).1 = <[id d := d]> (presentations w))
    as Hcache.
  { unfold cacheRecord. by destruct (JS.forEach _ _ _). }
  assert (presentations (cacheRecord w d).1 !! k = Some p →
          presentations w !! k = Some p ∨ (p ∈ d :: l ∧ id p = k)) as Hstep.
  { rewrite Hcache. intros [[<- <-]|[_ ?]]%lookup_insert_Some; [|by left].
    right. split; [by left | done]. }
  destruct (cacheRecord w d) as [w1 [msg|]]; simpl in *; [done|].
  intros [?|[? ?]]%IH; [auto|]. right. split; [by right | done].
Qed.

(** X28. Whatever branch answers it, a list the unseen listing of a user
    answers with shows only documents of the collection whose id the user
    has not seen, or cache entries under ids the user has not seen; so a
    presentation marked as seen is not shown again under its id. The
    handler changes neither the collection nor the view history nor the
    disk. It answers with a list whenever neither the user id, nor the
    lowercased topic, nor the lowercased topic of a live document is a
    property name of [Object.prototype]. *)
Theorem unseen_excludes_seen (regExp : string → Result (string → bool))
    (fault : Fault) (u t : string) (w : Server) :
  (∀ l, (getUnseen regExp fault u t w).1 = catalogJson (PresentationsBody l) →
     ∀ p, p ∈ l →
       ∃ k, ¬ listed (userPresentationHistory w) u k ∧
            ((p ∈ db w ∧ id p = k ∧ isDeleted p = false)
             ∨ presentations w !! k = Some p)) ∧
  db (getUnseen regExp fault u t w).2 = db w ∧
  userPresentationHistory (getUnseen regExp fault u t w).2
  = userPresentationHistory w ∧
  files (getUnseen regExp fault u t w).2 = files w ∧
  (JS.inherited u = false →
   JS.inherited (JS.toLowerCase t) = false →
   (∀ d, d ∈ db w → isDeleted d = false → ordinaryTopics (topics d)) →
   ∃ l, (getUnseen regExp fault u t w).1 = catalogJson (PresentationsBody l)).
Proof.
  set (key := JS.toLowerCase t).
  assert (∀ l, (unseenCatch u key w).1 = catalogJson (PresentationsBody l) →
     ∀ p, p ∈ l →
       ∃ k, ¬ listed (userPresentationHistory w) u k ∧
            ((p ∈ db w ∧ id p = k ∧ isDeleted p = false)
             ∨ presentations w !! k = Some p)) as Hcatch.
  { intros l Hl p Hp.
    destruct (unseenCatch_list u key w l Hl p Hp) as (k & ? & ?). eauto. }
  unfold getUnseen, MongoQuery.find. fold key.
  destruct (regExp key) as [test|msg].
  2: { rewrite unseenCatch_state. do 4 (split; [done|]).
       intros. by apply unseenCatch_ordinary. }
  destruct fault as [msg|].
  { rewrite unseenCatch_state. do 4 (split; [done|]).
    intros. by apply unseenCatch_ordinary. }
  set (found := List.filter (topicFilter test) (db w)).
  assert (∀ p, p ∈ found → p ∈ db w ∧ isDeleted p = false) as Hfound.
  { intros p [Hp Hlive]%list_elem_of_In%List.filter_In.
    split; [by apply list_elem_of_In|].
    unfold topicFilter in Hlive.
    by apply andb_true_iff in Hlive as [_ ?%negb_true_iff]. }
  destruct (0 <? length found).
  - destruct (unseenOnly u w id found) as [unseen|msg] eqn:Hunseen.
    2: { rewrite unseenCatch_state. do 4 (split; [done|]).
         intros Hu. by rewrite unseenOnly_ordinary in Hunseen. }
    apply unseenOnly_Ok in Hunseen.
    assert (∀ p, p ∈ unseen →
              ¬ listed (userPresentationHistory w) u (id p) ∧ p ∈ db w
              ∧ isDeleted p = false) as Hunseen_in.
    { intros p Hp. rewrite Hunseen in Hp.
      apply list_elem_of_In, List.filter_In in Hp as [Hp Hk].
      apply list_elem_of_In, Hfound in Hp as [? ?].
      by apply notSeenBy_true in Hk. }
    destruct (forEach_cacheRecord_frame unseen w) as (Hdb & Hfiles & Hhistory).
    pose proof (forEach_cacheRecord_cache_inv unseen w) as Hinv.
    pose proof (forEach_cacheRecord_ordinary unseen w) as Hnone.
    destruct (JS.forEach cacheRecord w unseen) as [w1 [msg|]]; simpl in *.
    + rewrite unseenCatch_state. split; [|split; [done|split; [done|split]]];
        [|done|].
      * intros l Hl p Hp.
        destruct (unseenCatch_list u key w1 l Hl p Hp) as (k & Hk & Hc).
        rewrite Hhistory in Hk. exists k. split; [done|].
        apply Hinv in Hc as [?|[Hin <-]]; [by right|]. left.
        destruct (Hunseen_in p Hin) as (_ & ? & ?). done.
      * intros _ _ Hord. exfalso.
        enough (Some msg = None) by done. apply Hnone.
        intros d Hd. destruct (Hunseen_in d Hd) as (_ & ? & ?). by apply Hord.
    + split; [|split; [done|split; [done|split; [done|by eauto]]]].
      intros l [= <-] p Hp. exists (id p).
      destruct (Hunseen_in p Hp) as (? & ? & ?). split; [done|]. by left.
  - destruct (unseenFromMemory u key w) as [l'|msg] eqn:Hmem.
    + split; [|split; [done|split; [done|split; [done|by eauto]]]].
      intros l [= <-] p Hp.
      destruct (unseenFromMemory_Ok u key w l' Hmem p Hp) as (k & ? & ?). eauto.
    + rewrite unseenCatch_state. do 4 (split; [done|]).
      intros. by apply unseenCatch_ordinary.
Qed.

(** ** Topics behind an inherited key *)



